(** * NTK_FS_REG: the MLP-Mixer and ResNet architecture definitions

    A shallow embedding of [src/mlp_mixer/MLP_mixer_mod.py] (Flax) and
    [src/resnet_mod.py] (Haiku).  The repository composes layers that the
    two frameworks provide; the frameworks themselves are not part of it.
    The embedding therefore keeps the framework behind an interface (a type
    class of layer applications and array operations) and translates the
    repository's own code, the composition, over that interface.  Theorems
    stated over the interface hold for every implementation of the layers
    and every parameter assignment; a shape-level implementation of the
    interface makes the models executable. *)

From Stdlib Require Import ZArith QArith List Ascii String Lia.
From stdpp Require Import base option list strings pretty gmap.

Local Open Scope string_scope.
Local Open Scope list_scope.
Local Open Scope Z_scope.

(** ** Python values, exceptions and the framework monad *)

(** Values of the loosely typed arguments ([Any], [Mapping[str, ...]],
    [Union[int, Sequence[int]]]).  Floats only occur as configuration
    literals and are kept as the decimal they are written with;
    [PObj] is a reference to a library object such as [jnp.zeros]. *)
Inductive pyval : Type :=
| PNone
| PBool (b : bool)
| PInt (z : Z)
| PFloat (q : Q)
| PStr (s : string)
| PSeq (l : list Z)
| PObj (qualname : string).

(** A keyword-argument dictionary. *)
Abbreviation dict := (gmap string pyval).

(** [d.setdefault(k, v)] *)
Definition setdefault (k : string) (v : pyval) (d : dict) : dict :=
  match d !! k with
  | Some _ => d
  | None => <[k := v]> d
  end.

Inductive exn : Type :=
| ValueError (msg : string)
| IndexError (msg : string)
| TypeError (msg : string)
| AttributeError (attr : string)
| ZeroDivisionError
| FrameworkError (msg : string).

Inductive result (A : Type) : Type :=
| Ok (a : A)
| Raise (e : exn).
Arguments Ok {A} a.
Arguments Raise {A} e.

(** A module path: the names of the enclosing modules, outermost first.
    Both frameworks key parameters and state by this path. *)
Abbreviation path := (list string).

(** Code that calls into the framework: it may read and update the
    framework's store (parameters, batch statistics) and may raise. *)
Definition M (St A : Type) : Type := St → result (A * St).

Global Instance M_ret {St} : MRet (M St) := λ A a s, Ok (a, s).
Global Instance M_bind {St} : MBind (M St) := λ A B f c s,
  match c s with
  | Ok (a, s') => f a s'
  | Raise e => Raise e
  end.

Definition raise {St A} (e : exn) : M St A := λ _, Raise e.

(** Code that only raises: constructors and argument checks. *)
Global Instance result_ret : MRet result := λ A a, Ok a.
Global Instance result_bind : MBind result := λ A B f c,
  match c with
  | Ok a => f a
  | Raise e => Raise e
  end.

(** [for a in l: x = body(a, x)] *)
Fixpoint for_each {F : Type → Type} `{MBind F, MRet F} {A B}
    (l : list A) (body : A → B → F B) (x : B) : F B :=
  match l with
  | [] => mret x
  | a :: l' => x' ← body a x; for_each l' body x'
  end.

(** [range(n)] for a Python int [n]: empty when [n <= 0]. *)
Definition range (n : Z) : list nat := seq 0 (Z.to_nat n).

(** [enumerate(l)] *)
Definition enumerate {A} (l : list A) : list (nat * A) := zip (seq 0 (length l)) l.

(** * The MLP-Mixer ([src/mlp_mixer/MLP_mixer_mod.py]) *)

Module Mixer.

(** What the model uses of Flax, [jax.numpy] and einops.  A layer is
    applied at the path of the module that owns its parameters: inside an
    [@nn.compact] method Flax names a submodule by its [name=] argument
    or, without one, by its class name and the number of earlier unnamed
    submodules of that class ([Dense_0], [Dense_1], ...). *)
Class Flax (T St : Type) : Type := {
  (** [x.shape] *)
  shape : T → list nat;
  (** [nn.Dense(features, kernel_init=...)(x)] *)
  nn_Dense : path → Z → option string → T → M St T;
  (** [nn.LayerNorm()(x)] *)
  nn_LayerNorm : path → T → M St T;
  (** [nn.Conv(features, kernel_size, strides=...)(x)] *)
  nn_Conv : path → Z → pyval → pyval → T → M St T;
  (** [nn.gelu(x)] *)
  nn_gelu : T → M St T;
  (** [jnp.swapaxes(x, a, b)] *)
  jnp_swapaxes : T → Z → Z → M St T;
  (** [x + y] *)
  jnp_add : T → T → M St T;
  (** [jnp.mean(x, axis=a)] *)
  jnp_mean : T → Z → M St T;
  (** [einops.rearrange(x, pattern)] *)
  einops_rearrange : T → string → M St T
}.

Record MlpBlock : Type := { mlp_dim : Z }.

Record MixerBlock : Type := {
  mb_tokens_mlp_dim : Z;
  mb_channels_mlp_dim : Z
}.

Record MlpMixer : Type := {
  patches : pyval;
  num_classes : Z;
  num_blocks : Z;
  hidden_dim : Z;
  tokens_mlp_dim : Z;
  channels_mlp_dim : Z
}.

Section Model.
Context {T St : Type} `{Flax T St}.

(** [x.shape[-1]] *)
Definition shape_last (x : T) : M St Z :=
  match last (shape x) with
  | Some d => mret (Z.of_nat d)
  | None => raise (IndexError "tuple index out of range")
  end.

Definition MlpBlock_call (self : MlpBlock) (scope : path) (x : T) : M St T :=
  y ← nn_Dense (scope ++ ["Dense_0"]) (mlp_dim self) None x;
  y ← nn_gelu y;
  d ← shape_last x;
  nn_Dense (scope ++ ["Dense_1"]) d None y.

Definition MixerBlock_call (self : MixerBlock) (scope : path) (x : T) : M St T :=
  y ← nn_LayerNorm (scope ++ ["LayerNorm_0"]) x;
  y ← jnp_swapaxes y 1 2;
  y ← MlpBlock_call {| mlp_dim := mb_tokens_mlp_dim self |}
        (scope ++ ["token_mixing"]) y;
  y ← jnp_swapaxes y 1 2;
  x ← jnp_add x y;
  y ← nn_LayerNorm (scope ++ ["LayerNorm_1"]) x;
  r ← MlpBlock_call {| mlp_dim := mb_channels_mlp_dim self |}
        (scope ++ ["channel_mixing"]) y;
  jnp_add x r.

(** The block built in each iteration of the loop of [MlpMixer.__call__];
    the [i]-th unnamed [MixerBlock] of the method is [MixerBlock_i]. *)
Definition MlpMixer_block (self : MlpMixer) (scope : path) (i : nat) (x : T) : M St T :=
  MixerBlock_call {| mb_tokens_mlp_dim := tokens_mlp_dim self;
                     mb_channels_mlp_dim := channels_mlp_dim self |}
    (scope ++ ["MixerBlock_" +:+ pretty i]) x.

(** [train] is keyword-only and deleted on entry ([del train]). *)
Definition MlpMixer_call (self : MlpMixer) (scope : path) (inputs : T) (train : bool)
  : M St T :=
  x ← nn_Conv (scope ++ ["stem"]) (hidden_dim self) (patches self) (patches self) inputs;
  x ← einops_rearrange x "n h w c -> n (h w) c";
  x ← for_each (range (num_blocks self)) (MlpMixer_block self scope) x;
  x ← nn_LayerNorm (scope ++ ["pre_head_layer_norm"]) x;
  x ← jnp_mean x 1;
  nn_Dense (scope ++ ["head"]) (num_classes self) (Some "nn.initializers.zeros") x.

(** The blocks of the loop of [MlpMixer.__call__], from index [i] on:
    [blocks_run self scope i n x s x' s'] when [n] successive blocks
    [MixerBlock_i], [MixerBlock_(i+1)], ... take [x] in store [s] to
    [x'] in store [s']. *)
Inductive blocks_run (self : MlpMixer) (scope : path)
  : nat → nat → T → St → T → St → Prop :=
| blocks_run_done i x s : blocks_run self scope i 0 x s x s
| blocks_run_step i n x s x1 s1 x' s' :
    MixerBlock_call {| mb_tokens_mlp_dim := tokens_mlp_dim self;
                       mb_channels_mlp_dim := channels_mlp_dim self |}
      (scope ++ ["MixerBlock_" +:+ pretty i]) x s = Ok (x1, s1) →
    blocks_run self scope (S i) n x1 s1 x' s' →
    blocks_run self scope i (S n) x s x' s'.

End Model.

(** ** A shape-level implementation of the interface

    Arrays are represented by their shapes and the store is the list of
    parameters the layers declare, each with its path and shape, in the
    order of declaration: a run is the pass that initialises the
    parameters of the model.  Shapes follow the frameworks' documented
    behaviour; an input a layer does not accept raises. *)

Abbreviation shp := (list nat).
Abbreviation params := (list (path * shp)).

(** [self.param(name, init, shape)] *)
Definition param (p : path) (s : shp) : M params unit :=
  λ st, Ok ((), st ++ [(p, s)]).

(** A layer width given as a Python int: the length of an axis, so not
    negative.  Zero is a length an array can have; what fails on it is the
    initialiser of the kernel, below. *)
Definition width (z : Z) : M params nat :=
  if z <? 0 then raise (ValueError "negative dimensions are not allowed")
  else mret (Z.to_nat z).

(** The initialiser of a kernel.  The default of [nn.Dense] and [nn.Conv]
    ([lecun_normal]) divides by the lengths of the input and the output
    axis of the kernel and raises [ZeroDivisionError] when one of them is
    0; [nn.initializers.zeros], the only other initialiser of the file,
    does not look at them. *)
Definition init_kernel (kernel_init : option string) (fan_in fan_out : nat)
  : M params unit :=
  match kernel_init with
  | None =>
      if decide (fan_in = 0%nat ∨ fan_out = 0%nat) then raise ZeroDivisionError
      else mret ()
  | Some init =>
      if decide (init = "nn.initializers.zeros") then mret ()
      else raise (FrameworkError "initialiser not covered")
  end.

(** An axis argument, counted from the end when negative. *)
Definition axis (a : Z) (rank : nat) : M params nat :=
  if (0 <=? a) && (a <? Z.of_nat rank) then mret (Z.to_nat a)
  else if (- Z.of_nat rank <=? a) && (a <? 0) then mret (Z.to_nat (Z.of_nat rank + a))
  else raise (ValueError "axis is out of bounds").

(** [Dense] contracts the last axis with a kernel [(in, features)]. *)
Definition shp_Dense (p : path) (features : Z) (kernel_init : option string) (x : shp)
  : M params shp :=
  match last x with
  | None => raise (IndexError "tuple index out of range")
  | Some d =>
      f ← width features;
      _ ← init_kernel kernel_init d f;
      _ ← param (p ++ ["kernel"]) [d; f];
      _ ← param (p ++ ["bias"]) [f];
      mret (removelast x ++ [f])
  end.

(** [LayerNorm] normalises over the last axis and keeps the shape. *)
Definition shp_LayerNorm (p : path) (x : shp) : M params shp :=
  match last x with
  | None => raise (ValueError "axis is out of bounds")
  | Some d =>
      _ ← param (p ++ ["scale"]) [d];
      _ ← param (p ++ ["bias"]) [d];
      mret x
  end.

(** Ceiling division, the output size of a SAME-padded window. *)
Definition cdiv (n k : nat) : nat := ((n + k - 1) / k)%nat.

(** [kernel_size]: a sequence of ints, one per spatial axis, or one int,
    read as a sequence of one. *)
Definition kernel_sizes (kernel_size : pyval) : option (list Z) :=
  match kernel_size with
  | PSeq l => Some l
  | PInt k => Some [k]
  | _ => None
  end.

(** [strides]: a sequence of ints, one int for every spatial axis, or
    [None] for 1. *)
Definition stride_sizes (strides : pyval) (m : nat) : option (list Z) :=
  match strides with
  | PSeq l => if decide (length l = m) then Some l else None
  | PInt k => Some (replicate m k)
  | PNone => Some (replicate m 1)
  | _ => None
  end.

(** A convolution with padding SAME (the default of [nn.Conv]): the
    last axis holds the channels, the [m] axes before it are the spatial
    axes the [m] kernel sizes slide over, and the axes before those are
    batch axes. *)
Definition shp_Conv (p : path) (features : Z) (kernel_size strides : pyval) (x : shp)
  : M params shp :=
  match kernel_sizes kernel_size with
  | None => raise (TypeError "kernel_size is not an int or a sequence of ints")
  | Some ks =>
      let m := length ks in
      match stride_sizes strides m with
      | None => raise (ValueError "strides do not fit the kernel")
      | Some ss =>
          match last x with
          | Some c =>
              if decide (1 ≤ m ∧ m + 1 ≤ length x)%nat then
                if forallb (Z.ltb 0) ks && forallb (Z.ltb 0) ss then
                  f ← width features;
                  _ ← init_kernel None c f;
                  _ ← param (p ++ ["kernel"]) ((Z.to_nat <$> ks) ++ [c; f]);
                  _ ← param (p ++ ["bias"]) [f];
                  let batch := take (length x - m - 1) x in
                  let spatial := take m (drop (length x - m - 1) x) in
                  mret (batch ++ zip_with cdiv spatial (Z.to_nat <$> ss) ++ [f])
                else raise (ValueError "window sizes and strides must be positive")
              else raise (ValueError "input has too few axes for the kernel")
          | None => raise (ValueError "input has too few axes for the kernel")
          end
      end
  end.

Definition shp_swapaxes (x : shp) (a b : Z) : M params shp :=
  i ← axis a (length x);
  j ← axis b (length x);
  match x !! i, x !! j with
  | Some di, Some dj => mret (<[j := di]> (<[i := dj]> x))
  | _, _ => raise (ValueError "axis is out of bounds")
  end.

(** Broadcasting of two shapes, aligned at the last axis; the arguments
    are the reversed shapes. *)
Fixpoint broadcast_rev (a b : shp) : option shp :=
  match a, b with
  | [], _ => Some b
  | _, [] => Some a
  | x :: a', y :: b' =>
      match broadcast_rev a' b' with
      | None => None
      | Some r =>
          if decide (x = y) then Some (x :: r)
          else if decide (x = 1%nat) then Some (y :: r)
          else if decide (y = 1%nat) then Some (x :: r)
          else None
      end
  end.

Definition shp_add (x y : shp) : M params shp :=
  match broadcast_rev (rev x) (rev y) with
  | Some r => mret (rev r)
  | None => raise (TypeError "incompatible shapes for broadcasting")
  end.

Definition shp_mean (x : shp) (a : Z) : M params shp :=
  i ← axis a (length x);
  mret (delete i x).

Definition shp_rearrange (x : shp) (pattern : string) : M params shp :=
  if decide (pattern = "n h w c -> n (h w) c") then
    match x with
    | [n; h; w; c] => mret [n; (h * w)%nat; c]
    | _ => raise (FrameworkError "wrong shape for the pattern")
    end
  else raise (FrameworkError "pattern not covered").

#[export] Instance Flax_shapes : Flax shp params := {|
  shape := λ x, x;
  nn_Dense := shp_Dense;
  nn_LayerNorm := shp_LayerNorm;
  nn_Conv := shp_Conv;
  nn_gelu := λ x, mret x;
  jnp_swapaxes := shp_swapaxes;
  jnp_add := shp_add;
  jnp_mean := shp_mean;
  einops_rearrange := shp_rearrange
|}.

(** The parameters a [MixerBlock] at [scope] declares on a
    [(batch, tokens, channels)] input, in order. *)
Definition MixerBlock_params (self : MixerBlock) (scope : path) (tokens channels : nat)
  : params :=
  let ds := Z.to_nat (mb_tokens_mlp_dim self) in
  let dc := Z.to_nat (mb_channels_mlp_dim self) in
  [ (scope ++ ["LayerNorm_0"; "scale"], [channels]);
    (scope ++ ["LayerNorm_0"; "bias"], [channels]);
    (scope ++ ["token_mixing"; "Dense_0"; "kernel"], [tokens; ds]);
    (scope ++ ["token_mixing"; "Dense_0"; "bias"], [ds]);
    (scope ++ ["token_mixing"; "Dense_1"; "kernel"], [ds; tokens]);
    (scope ++ ["token_mixing"; "Dense_1"; "bias"], [tokens]);
    (scope ++ ["LayerNorm_1"; "scale"], [channels]);
    (scope ++ ["LayerNorm_1"; "bias"], [channels]);
    (scope ++ ["channel_mixing"; "Dense_0"; "kernel"], [channels; dc]);
    (scope ++ ["channel_mixing"; "Dense_0"; "bias"], [dc]);
    (scope ++ ["channel_mixing"; "Dense_1"; "kernel"], [dc; channels]);
    (scope ++ ["channel_mixing"; "Dense_1"; "bias"], [channels]) ].

(** The parameters an [MlpMixer] at [scope] declares on an NHWC batch
    of images, in order. *)
Definition MlpMixer_params (self : MlpMixer) (scope : path) (kh kw : Z)
    (in_channels tokens : nat) : params :=
  let hidden := Z.to_nat (hidden_dim self) in
  let classes := Z.to_nat (num_classes self) in
  [ (scope ++ ["stem"; "kernel"], [Z.to_nat kh; Z.to_nat kw; in_channels; hidden]);
    (scope ++ ["stem"; "bias"], [hidden]) ]
  ++ flat_map
       (λ i : nat,
          MixerBlock_params
            {| mb_tokens_mlp_dim := tokens_mlp_dim self;
               mb_channels_mlp_dim := channels_mlp_dim self |}
            (scope ++ ["MixerBlock_" +:+ pretty i]) tokens hidden)
       (range (num_blocks self))
  ++ [ (scope ++ ["pre_head_layer_norm"; "scale"], [hidden]);
       (scope ++ ["pre_head_layer_norm"; "bias"], [hidden]);
       (scope ++ ["head"; "kernel"], [hidden; classes]);
       (scope ++ ["head"; "bias"], [classes]) ].

(** The names, below the path of a [MixerBlock], of the parameters it
    declares. *)
Definition MixerBlock_param_names : list path :=
  [ ["LayerNorm_0"; "scale"]; ["LayerNorm_0"; "bias"];
    ["token_mixing"; "Dense_0"; "kernel"]; ["token_mixing"; "Dense_0"; "bias"];
    ["token_mixing"; "Dense_1"; "kernel"]; ["token_mixing"; "Dense_1"; "bias"];
    ["LayerNorm_1"; "scale"]; ["LayerNorm_1"; "bias"];
    ["channel_mixing"; "Dense_0"; "kernel"]; ["channel_mixing"; "Dense_0"; "bias"];
    ["channel_mixing"; "Dense_1"; "kernel"]; ["channel_mixing"; "Dense_1"; "bias"] ].

(** The names, below the path of an [MlpMixer] of [n] blocks, of the
    parameters it declares. *)
Definition MlpMixer_param_names (n : nat) : list path :=
  [ ["stem"; "kernel"]; ["stem"; "bias"] ]
  ++ flat_map (λ i : nat, cons ("MixerBlock_" +:+ pretty i) <$> MixerBlock_param_names)
       (seq 0 n)
  ++ [ ["pre_head_layer_norm"; "scale"]; ["pre_head_layer_norm"; "bias"];
       ["head"; "kernel"]; ["head"; "bias"] ].

End Mixer.

(** * The ResNet ([src/resnet_mod.py]) *)

Module Resnet.

(** Haiku modules are constructed in [__init__] and applied in
    [__call__].  A constructed layer is kept as the arguments of its
    constructor call together with the path of the module that
    constructed it; Haiku derives the names of its parameters and state
    from the two.  What the constructors of [hk.Conv2D], [hk.BatchNorm]
    and [hk.Linear] do with their keyword arguments, and so which
    dictionaries they refuse, is Haiku's: the results on
    [ResNet.__init__] below are about the networks it returns, or about
    the exceptions it raises before it constructs its first layer. *)
Record Conv2D : Type := {
  conv_scope : path;
  conv_kwargs : dict
}.

Record BatchNorm : Type := {
  bn_scope : path;
  bn_name : string;
  bn_kwargs : dict
}.

Record Linear : Type := {
  lin_scope : path;
  lin_output_size : Z;
  lin_kwargs : dict
}.

(** What the model uses of Haiku, [jax.nn] and [jax.numpy]. *)
Class Haiku (T St : Type) : Type := {
  (** [conv(x)] for a constructed [hk.Conv2D] *)
  hk_Conv2D : Conv2D → T → M St T;
  (** [bn(x, is_training, test_local_stats)] for a constructed [hk.BatchNorm] *)
  hk_BatchNorm : BatchNorm → T → bool → bool → M St T;
  (** [linear(x)] for a constructed [hk.Linear] *)
  hk_Linear : Linear → T → M St T;
  (** [hk.max_pool(x, window_shape=, strides=, padding=)] *)
  hk_max_pool : T → list Z → list Z → string → M St T;
  (** [jax.nn.relu(x)] *)
  jax_nn_relu : T → M St T;
  (** [x + y] *)
  jnp_add : T → T → M St T;
  (** [jnp.mean(x, axis=axes)] *)
  jnp_mean : T → list Z → M St T
}.

(** The name of a module: the [name=] argument or, when it is [None],
    the class name in snake case. *)
Definition module_name (class_name : string) (name : option string) : string :=
  default class_name name.

Definition is_letter (c : ascii) : bool :=
  let n := nat_of_ascii c in
  ((65 <=? n) && (n <=? 90) || (97 <=? n) && (n <=? 122))%nat.

Definition is_digit (c : ascii) : bool :=
  let n := nat_of_ascii c in ((48 <=? n) && (n <=? 57))%nat.

(** The rest of a name: letters, digits and underscores up to the end;
    the [$] of the pattern also matches before a newline that ends the
    string. *)
Fixpoint identifier_rest (s : string) : bool :=
  match s with
  | EmptyString => true
  | String c rest =>
      if is_letter c || is_digit c || Ascii.eqb c "_" then identifier_rest rest
      else Ascii.eqb c "010" && String.eqb rest EmptyString
  end.

(** Haiku's [valid_identifier]: a match of
    [^[a-zA-Z_]([a-zA-Z0-9_])*$]. *)
Definition valid_identifier (name : string) : bool :=
  match name with
  | EmptyString => false
  | String c rest => (is_letter c || Ascii.eqb c "_") && identifier_rest rest
  end.

(** [hk.Module.__init__(name=name)], called within [hk.transform]: the
    name of the module has to be an identifier. *)
Definition Module_init (class_name : string) (name : option string) : result unit :=
  let name := module_name class_name name in
  if valid_identifier name then Ok ()
  else Raise (ValueError ("'" +:+ name +:+
                "' is not a valid module name (must be a valid Python identifier)")).

Record BlockV1 : Type := {
  block_path : path;
  use_projection : bool;
  use_bn : bool;
  proj_conv : option Conv2D;
  proj_batchnorm : option BatchNorm;
  layers : list (Conv2D * option BatchNorm)
}.

(** [hk.Conv2D(output_channels=, kernel_shape=, stride=, with_bias=,
    padding=, name=)] *)
Definition Conv2D_new (scope : path) (output_channels : Z) (kernel_shape stride : pyval)
    (with_bias : bool) (padding name : string) : Conv2D :=
  {| conv_scope := scope;
     conv_kwargs :=
       {[ "output_channels" := PInt output_channels;
          "kernel_shape" := kernel_shape;
          "stride" := stride;
          "with_bias" := PBool with_bias;
          "padding" := PStr padding;
          "name" := PStr name ]} |}.

Definition BlockV1_bn_config (bn_config : dict) : dict :=
  let bn_config := setdefault "create_scale" (PBool true) bn_config in
  let bn_config := setdefault "create_offset" (PBool true) bn_config in
  setdefault "decay_rate" (PFloat (999 # 1000)) bn_config.

Definition BlockV1_init (scope : path) (channels : Z) (stride : pyval)
    (use_projection : bool) (bn_config : dict) (bottleneck use_bn : bool)
    (name : option string) : BlockV1 :=
  let self := scope ++ [module_name "block_v1" name] in
  let bn_config := BlockV1_bn_config bn_config in
  let proj_conv :=
    if use_projection then
      Some (Conv2D_new self channels (PInt 1) stride false "SAME" "shortcut_conv")
    else None in
  let proj_batchnorm :=
    if use_projection then
      if use_bn then
        Some {| bn_scope := self; bn_name := "shortcut_batchnorm"; bn_kwargs := bn_config |}
      else None
    else None in
  let channel_div := if bottleneck then 4 else 1 in
  let conv_0 :=
    Conv2D_new self (channels / channel_div)
      (if bottleneck then PInt 1 else PInt 3)
      (if bottleneck then PInt 1 else stride)
      false "SAME" "conv_0" in
  let conv_1 :=
    Conv2D_new self (channels / channel_div)
      (PInt 3)
      (if bottleneck then stride else PInt 1)
      false "SAME" "conv_1" in
  let layers :=
    if use_bn then
      let bn_0 := {| bn_scope := self; bn_name := "batchnorm_0"; bn_kwargs := bn_config |} in
      let bn_1 := {| bn_scope := self; bn_name := "batchnorm_1"; bn_kwargs := bn_config |} in
      [(conv_0, Some bn_0); (conv_1, Some bn_1)]
    else
      [(conv_0, None); (conv_1, None)] in
  {| block_path := self;
     use_projection := use_projection;
     use_bn := use_bn;
     proj_conv := proj_conv;
     proj_batchnorm := proj_batchnorm;
     layers := layers |}.

Record BlockGroup : Type := {
  group_path : path;
  group_use_bn : bool;
  blocks : list BlockV1
}.

(** [block_cls = BlockV1]: the only block class of the file; the
    [resnet_v2] argument is not read. *)
Definition BlockGroup_init (scope : path) (channels num_blocks : Z) (stride : pyval)
    (bn_config : dict) (resnet_v2 bottleneck use_projection use_bn : bool)
    (name : option string) : BlockGroup :=
  let self := scope ++ [module_name "block_group" name] in
  let block_cls := BlockV1_init in
  let blocks :=
    foldl (λ blocks i,
             blocks ++ [block_cls self channels
                          (if bool_decide (i ≠ 0%nat) then PInt 1 else stride)
                          use_projection bn_config bottleneck use_bn
                          (Some ("block_" +:+ pretty i))])
          [] (range num_blocks) in
  {| group_path := self; group_use_bn := use_bn; blocks := blocks |}.

(** [len(value) != length] raises. *)
Definition check_length {A} (length : Z) (value : list A) (name : string) : result unit :=
  if decide (Z.of_nat (List.length value) ≠ length) then
    Raise (ValueError ("`" +:+ name +:+ "` must be of length 4 not "
                         +:+ pretty (List.length value)))
  else Ok ().

(** [l[i]] for [0 <= i]; [index_error] is the message of the
    [IndexError] of the type of [l]. *)
Definition getitem {A} (index_error : string) (l : list A) (i : nat) : result A :=
  match l !! i with
  | Some a => Ok a
  | None => Raise (IndexError index_error)
  end.

(** The messages of the sequence types of Python. *)
Definition tuple_index_error : string := "tuple index out of range".
Definition list_index_error : string := "list index out of range".

Record ResNet : Type := {
  net_path : path;
  resnet_v2 : bool;
  resnet_v1 : bool;
  net_use_bn : bool;
  initial_conv : Conv2D;
  initial_batchnorm : option BatchNorm;
  block_groups : list BlockGroup;
  logits : Linear
}.

(** The arguments of [ResNet.__init__].  A sequence is given by its
    entries and by the message with which its type answers an index out
    of range ([tuple_index_error] for a tuple, [list_index_error] for a
    list). *)
Record ResNet_args : Type := {
  blocks_per_group : list Z;
  num_classes : Z;
  a_use_bn : bool;
  a_resnet_v1 : bool;
  a_bn_config : option dict;
  a_resnet_v2 : bool;
  a_bottleneck : bool;
  channels_per_group : list Z;
  a_use_projection : list bool;
  a_logits_config : option dict;
  a_name : option string;
  a_initial_conv_config : option dict;
  blocks_per_group_error : string;
  channels_per_group_error : string;
  use_projection_error : string
}.

(** [dict(d or {})] *)
Definition dict_or_empty (d : option dict) : dict := default ∅ d.

Definition ResNet_bn_config (bn_config : option dict) : dict :=
  let bn_config := dict_or_empty bn_config in
  let bn_config := setdefault "decay_rate" (PFloat (9 # 10)) bn_config in
  let bn_config := setdefault "eps" (PFloat (1 # 100000)) bn_config in
  let bn_config := setdefault "create_scale" (PBool true) bn_config in
  setdefault "create_offset" (PBool true) bn_config.

Definition ResNet_logits_config (logits_config : option dict) : dict :=
  let logits_config := dict_or_empty logits_config in
  let logits_config := setdefault "w_init" (PObj "jnp.zeros") logits_config in
  setdefault "name" (PStr "logits") logits_config.

Definition ResNet_initial_conv_config (resnet_v1 : bool) (initial_conv_config : option dict)
  : dict :=
  let c := dict_or_empty initial_conv_config in
  let c := setdefault "output_channels" (PInt 64) c in
  let c :=
    if resnet_v1 then
      setdefault "stride" (PInt 2) (setdefault "kernel_shape" (PInt 7) c)
    else
      setdefault "stride" (PInt 1) (setdefault "kernel_shape" (PInt 3) c) in
  let c := setdefault "with_bias" (PBool false) c in
  let c := setdefault "padding" (PStr "SAME") c in
  setdefault "name" (PStr "initial_conv") c.

Definition strides : list Z := [1; 2; 2; 2].

(** [ResNet.__init__]; [class_name] is the snake-case name of the class
    being constructed ([res_net], or [res_net18] through [ResNet18]). *)
Definition ResNet_init (class_name : string) (a : ResNet_args) : result ResNet :=
  let self := [module_name class_name (a_name a)] in
  _ ← Module_init class_name (a_name a);
  let bn_config := ResNet_bn_config (a_bn_config a) in
  let logits_config := ResNet_logits_config (a_logits_config a) in
  _ ← check_length 4 (blocks_per_group a) "blocks_per_group";
  _ ← check_length 4 (channels_per_group a) "channels_per_group";
  let initial_conv_config :=
    ResNet_initial_conv_config (a_resnet_v1 a) (a_initial_conv_config a) in
  let initial_conv := {| conv_scope := self; conv_kwargs := initial_conv_config |} in
  let initial_batchnorm :=
    if negb (a_resnet_v2 a) then
      if a_use_bn a then
        Some {| bn_scope := self; bn_name := "initial_batchnorm"; bn_kwargs := bn_config |}
      else None
    else None in
  block_groups ←
    for_each (range 4)
      (λ i block_groups,
         channels ← getitem (channels_per_group_error a) (channels_per_group a) i;
         num_blocks ← getitem (blocks_per_group_error a) (blocks_per_group a) i;
         stride ← getitem tuple_index_error strides i;
         use_projection ← getitem (use_projection_error a) (a_use_projection a) i;
         mret (block_groups ++
                 [BlockGroup_init self channels num_blocks (PInt stride) bn_config
                    (a_resnet_v2 a) (a_bottleneck a) use_projection (a_use_bn a)
                    (Some ("block_group_" +:+ pretty i))]))
      [];
  mret {| net_path := self;
          resnet_v2 := a_resnet_v2 a;
          resnet_v1 := a_resnet_v1 a;
          net_use_bn := a_use_bn a;
          initial_conv := initial_conv;
          initial_batchnorm := initial_batchnorm;
          block_groups := block_groups;
          logits := {| lin_scope := self;
                       lin_output_size := num_classes a;
                       lin_kwargs := logits_config |} |}.

(** The group [ResNet.__init__] builds in iteration [i], given the
    entries the iteration reads from the four sequences. *)
Definition ResNet_group (cls : string) (a : ResNet_args) (i : nat) (c n : Z) (s : Z)
    (p : bool) : BlockGroup :=
  BlockGroup_init [module_name cls (a_name a)] c n (PInt s)
    (ResNet_bn_config (a_bn_config a)) (a_resnet_v2 a) (a_bottleneck a) p
    (a_use_bn a) (Some ("block_group_" +:+ pretty i)).

(** A block is an instance of [BlockV1] when the constructor of
    [BlockV1] built it. *)
Definition is_BlockV1 (b : BlockV1) : Prop :=
  ∃ scope channels stride use_projection bn_config bottleneck use_bn name,
    b = BlockV1_init scope channels stride use_projection bn_config bottleneck use_bn name.

(** The arguments [a] with the [resnet_v2] flag set to [v]. *)
Definition with_resnet_v2 (v : bool) (a : ResNet_args) : ResNet_args :=
  {| blocks_per_group := blocks_per_group a;
     num_classes := num_classes a;
     a_use_bn := a_use_bn a;
     a_resnet_v1 := a_resnet_v1 a;
     a_bn_config := a_bn_config a;
     a_resnet_v2 := v;
     a_bottleneck := a_bottleneck a;
     channels_per_group := channels_per_group a;
     a_use_projection := a_use_projection a;
     a_logits_config := a_logits_config a;
     a_name := a_name a;
     a_initial_conv_config := a_initial_conv_config a;
     blocks_per_group_error := blocks_per_group_error a;
     channels_per_group_error := channels_per_group_error a;
     use_projection_error := use_projection_error a |}.

(** [ResNet18.__init__]: the keyword arguments of its call of
    [ResNet.__init__], with the table entry [CONFIGS[18]] of the branch
    chosen by [resnet_v1]. *)
Definition ResNet18_args (num_classes : Z) (use_bn : bool) (bn_config : option dict)
    (resnet_v1 resnet_v2 : bool) (logits_config : option dict) (name : option string)
    (initial_conv_config : option dict) : ResNet_args :=
  {| blocks_per_group := [2; 2; 2; 2];
     num_classes := num_classes;
     a_use_bn := use_bn;
     a_resnet_v1 := resnet_v1;
     a_bn_config := bn_config;
     a_resnet_v2 := resnet_v2;
     a_bottleneck := false;
     channels_per_group := [64; 128; 256; 512];
     a_use_projection :=
       if resnet_v1 then [false; true; true; true] else [true; true; true; true];
     a_logits_config := logits_config;
     a_name := name;
     a_initial_conv_config := initial_conv_config;
     blocks_per_group_error := tuple_index_error;
     channels_per_group_error := tuple_index_error;
     use_projection_error := tuple_index_error |}.

Definition ResNet18_init (num_classes : Z) (use_bn : bool) (bn_config : option dict)
    (resnet_v1 resnet_v2 : bool) (logits_config : option dict) (name : option string)
    (initial_conv_config : option dict) : result ResNet :=
  ResNet_init "res_net18"
    (ResNet18_args num_classes use_bn bn_config resnet_v1 resnet_v2 logits_config name
       initial_conv_config).

Section Model.
Context {T St : Type} `{Haiku T St}.

(** [self.attr] for an attribute that [__init__] sets on one branch only. *)
Definition getattr {A} (attr : option A) (name : string) : M St A :=
  match attr with
  | Some a => mret a
  | None => raise (AttributeError name)
  end.

Definition BlockV1_call (self : BlockV1) (inputs : T)
    (is_training test_local_stats : bool) : M St T :=
  let out := inputs in
  let shortcut := inputs in
  shortcut ←
    (if use_projection self then
       proj_conv ← getattr (proj_conv self) "proj_conv";
       shortcut ← hk_Conv2D proj_conv shortcut;
       if use_bn self then
         proj_batchnorm ← getattr (proj_batchnorm self) "proj_batchnorm";
         hk_BatchNorm proj_batchnorm shortcut is_training test_local_stats
       else mret shortcut
     else mret shortcut);
  out ←
    for_each (enumerate (layers self))
      (λ '(i, (conv_i, bn_i)) out,
         out ← hk_Conv2D conv_i out;
         out ←
           (if use_bn self then
              match bn_i with
              | Some bn => hk_BatchNorm bn out is_training test_local_stats
              | None => raise (TypeError "'NoneType' object is not callable")
              end
            else mret out);
         if Z.of_nat i <? Z.of_nat (length (layers self)) - 1 then jax_nn_relu out
         else mret out)
      out;
  s ← jnp_add out shortcut;
  jax_nn_relu s.

Definition BlockGroup_call (self : BlockGroup) (inputs : T)
    (is_training test_local_stats : bool) : M St T :=
  for_each (blocks self)
    (λ block out, BlockV1_call block out is_training test_local_stats)
    inputs.

Definition ResNet_call (self : ResNet) (inputs : T)
    (is_training test_local_stats : bool) : M St T :=
  let out := inputs in
  out ← hk_Conv2D (initial_conv self) out;
  out ←
    (if resnet_v1 self then hk_max_pool out [1; 3; 3; 1] [1; 2; 2; 1] "SAME"
     else mret out);
  out ←
    for_each (block_groups self)
      (λ block_group out, BlockGroup_call block_group out is_training test_local_stats)
      out;
  out ← jnp_mean out [1; 2];
  hk_Linear (logits self) out.

(** The residual computation in the words of the specification: a
    convolution followed, if and only if [use_bn], by its batch
    normalisation ... *)
Definition conv_bn (use_bn : bool) (conv : Conv2D) (bn : BatchNorm) (x : T)
    (is_training test_local_stats : bool) : M St T :=
  y ← hk_Conv2D conv x;
  if use_bn then hk_BatchNorm bn y is_training test_local_stats else mret y.

(** ... the shortcut, which is the input or its projection; the two
    stacked pairs with a relu between them and none after the last; and
    the relu of the sum. *)
Definition BlockV1_spec (use_projection use_bn : bool)
    (proj conv_0 conv_1 : Conv2D) (proj_bn bn_0 bn_1 : BatchNorm) (inputs : T)
    (is_training test_local_stats : bool) : M St T :=
  shortcut ←
    (if use_projection then conv_bn use_bn proj proj_bn inputs is_training test_local_stats
     else mret inputs);
  out ← conv_bn use_bn conv_0 bn_0 inputs is_training test_local_stats;
  out ← jax_nn_relu out;
  out ← conv_bn use_bn conv_1 bn_1 out is_training test_local_stats;
  s ← jnp_add out shortcut;
  jax_nn_relu s.

(** The forward pass in the words of the specification, for a network
    of four block groups. *)
Definition ResNet_spec (max_pool : bool) (initial : Conv2D) (g0 g1 g2 g3 : BlockGroup)
    (logits : Linear) (inputs : T) (is_training test_local_stats : bool) : M St T :=
  out ← hk_Conv2D initial inputs;
  out ← (if max_pool then hk_max_pool out [1; 3; 3; 1] [1; 2; 2; 1] "SAME" else mret out);
  out ← BlockGroup_call g0 out is_training test_local_stats;
  out ← BlockGroup_call g1 out is_training test_local_stats;
  out ← BlockGroup_call g2 out is_training test_local_stats;
  out ← BlockGroup_call g3 out is_training test_local_stats;
  out ← jnp_mean out [1; 2];
  hk_Linear logits out.

End Model.

(** ** A symbolic implementation of the interface

    An array is the expression that computes it from the network input,
    and the store is the list of operations performed, in order, each
    represented by the expression it produced. *)
Inductive term : Type :=
| Input
| TConv2D (c : Conv2D) (x : term)
| TBatchNorm (b : BatchNorm) (x : term) (is_training test_local_stats : bool)
| TLinear (l : Linear) (x : term)
| TMaxPool (x : term) (window_shape strides : list Z) (padding : string)
| TRelu (x : term)
| TAdd (x y : term)
| TMean (x : term) (axes : list Z).

Definition emit (t : term) : M (list term) term :=
  λ log, Ok (t, log ++ [t]).

#[export] Instance Haiku_terms : Haiku term (list term) := {|
  hk_Conv2D := λ c x, emit (TConv2D c x);
  hk_BatchNorm := λ b x tr tls, emit (TBatchNorm b x tr tls);
  hk_Linear := λ l x, emit (TLinear l x);
  hk_max_pool := λ x w s p, emit (TMaxPool x w s p);
  jax_nn_relu := λ x, emit (TRelu x);
  jnp_add := λ x y, emit (TAdd x y);
  jnp_mean := λ x a, emit (TMean x a)
|}.

Definition is_batchnorm (t : term) : bool :=
  match t with
  | TBatchNorm _ _ _ _ => true
  | _ => false
  end.

(** The batch-normalisation modules a log of operations applies, in
    order. *)
Definition ops_batchnorms (ops : list term) : list BatchNorm :=
  omap (λ t, match t with TBatchNorm b _ _ _ => Some b | _ => None end) ops.

(** The arguments [a] with [use_projection] set to [ps]. *)
Definition with_use_projection (ps : list bool) (a : ResNet_args) : ResNet_args :=
  {| blocks_per_group := blocks_per_group a;
     num_classes := num_classes a;
     a_use_bn := a_use_bn a;
     a_resnet_v1 := a_resnet_v1 a;
     a_bn_config := a_bn_config a;
     a_resnet_v2 := a_resnet_v2 a;
     a_bottleneck := a_bottleneck a;
     channels_per_group := channels_per_group a;
     a_use_projection := ps;
     a_logits_config := a_logits_config a;
     a_name := a_name a;
     a_initial_conv_config := a_initial_conv_config a;
     blocks_per_group_error := blocks_per_group_error a;
     channels_per_group_error := channels_per_group_error a;
     use_projection_error := use_projection_error a |}.

(** ** A shape-level implementation of the interface

    Arrays are represented by their shapes, in the NHWC layout that is
    Haiku's default; the store is empty, as in the call that initialises
    a network.  Windows are
    covered for SAME padding, the only padding the file writes. *)

Definition lift {A} (r : result A) : M unit A :=
  λ st, match r with
        | Ok a => Ok (a, st)
        | Raise e => Raise e
        end.

(** A keyword argument that has to be an int. *)
Definition kw_int (kw : dict) (k : string) : result Z :=
  match kw !! k with
  | Some (PInt z) => Ok z
  | _ => Raise (TypeError ("`" +:+ k +:+ "` is not an int"))
  end.

(** A keyword argument given as an int or as one int per spatial axis. *)
Definition kw_pair (kw : dict) (k : string) : result (Z * Z) :=
  match kw !! k with
  | Some (PInt z) => Ok (z, z)
  | Some (PSeq [a; b]) => Ok (a, b)
  | _ => Raise (TypeError ("`" +:+ k +:+ "` is not an int or a pair of ints"))
  end.

Definition kw_same_padding (kw : dict) : result unit :=
  match kw !! "padding" with
  | Some (PStr p) =>
      if decide (p = "SAME") then Ok ()
      else Raise (FrameworkError "padding not covered")
  | _ => Raise (FrameworkError "padding not covered")
  end.

Definition shp_Conv2D (c : Conv2D) (x : list nat) : result (list nat) :=
  match x with
  | [n; h; w; _] =>
      oc ← kw_int (conv_kwargs c) "output_channels";
      k ← kw_pair (conv_kwargs c) "kernel_shape";
      s ← kw_pair (conv_kwargs c) "stride";
      _ ← kw_same_padding (conv_kwargs c);
      if (0 <=? oc) && (0 <? k.1) && (0 <? k.2) && (0 <? s.1) && (0 <? s.2) then
        Ok [n; Mixer.cdiv h (Z.to_nat s.1); Mixer.cdiv w (Z.to_nat s.2); Z.to_nat oc]
      else Raise (ValueError "sizes and strides must be positive")
  | _ => Raise (ValueError "Conv2D takes input of rank 4")
  end.

(** [hk.BatchNorm.__call__]: with [is_training] or [test_local_stats]
    the statistics are those of the batch; otherwise they are the moving
    averages, of which the store, being empty, has none. *)
Definition shp_BatchNorm (x : list nat) (is_training test_local_stats : bool)
  : result (list nat) :=
  if is_training || test_local_stats then
    match x with
    | [] => Raise (ValueError "BatchNorm takes input with a channel axis")
    | _ => Ok x
    end
  else Raise (ValueError "no value for the moving average").

Definition shp_Linear (l : Linear) (x : list nat) : result (list nat) :=
  match last x with
  | None => Raise (ValueError "Linear takes input of rank at least 1")
  | Some _ =>
      if 0 <=? lin_output_size l then Ok (removelast x ++ [Z.to_nat (lin_output_size l)])
      else Raise (ValueError "negative dimensions are not allowed")
  end.

Definition shp_max_pool (x : list nat) (window_shape strides : list Z) (padding : string)
  : result (list nat) :=
  if decide (padding = "SAME") then
    if decide (length window_shape = length x ∧ length strides = length x) then
      if forallb (Z.ltb 0) window_shape && forallb (Z.ltb 0) strides then
        Ok (zip_with (λ d s, Mixer.cdiv d (Z.to_nat s)) x strides)
      else Raise (ValueError "sizes and strides must be positive")
    else Raise (ValueError "window and strides must have one entry per axis")
  else Raise (FrameworkError "padding not covered").

Definition shp_add (x y : list nat) : result (list nat) :=
  match Mixer.broadcast_rev (rev x) (rev y) with
  | Some r => Ok (rev r)
  | None => Raise (TypeError "incompatible shapes for broadcasting")
  end.

(** An axis argument, counted from the end when negative. *)
Definition norm_axis (rank : nat) (a : Z) : option nat :=
  if (0 <=? a) && (a <? Z.of_nat rank) then Some (Z.to_nat a)
  else if (- Z.of_nat rank <=? a) && (a <? 0) then Some (Z.to_nat (Z.of_nat rank + a))
  else None.

(** [jnp.mean] over a tuple of axes, each within the rank and none
    twice: the axes are removed. *)
Definition shp_mean (x : list nat) (axes : list Z) : result (list nat) :=
  match mapM (norm_axis (length x)) axes with
  | None => Raise (ValueError "axis is out of bounds")
  | Some ax =>
      if decide (NoDup ax) then
        Ok (omap (λ '(i, d), if decide (i ∈ ax) then None else Some d)
              (zip (seq 0 (length x)) x))
      else Raise (ValueError "duplicate value in 'axis'")
  end.

#[export] Instance Haiku_shapes : Haiku (list nat) unit := {|
  hk_Conv2D := λ c x, lift (shp_Conv2D c x);
  hk_BatchNorm := λ b x tr tls, lift (shp_BatchNorm x tr tls);
  hk_Linear := λ l x, lift (shp_Linear l x);
  hk_max_pool := λ x w s p, lift (shp_max_pool x w s p);
  jax_nn_relu := λ x, lift (Ok x);
  jnp_add := λ x y, lift (shp_add x y);
  jnp_mean := λ x a, lift (shp_mean x a)
|}.

End Resnet.

(** * Properties *)

(** ** The framework monad *)

Lemma bind_Ok {St A B} (c : M St A) (k : A → M St B) s r s' :
  (c ≫= k) s = Ok (r, s') ↔ ∃ a s1, c s = Ok (a, s1) ∧ k a s1 = Ok (r, s').
Proof.
  unfold mbind, M_bind. split.
  - destruct (c s) as [[a s1]|e]; [eauto | discriminate].
  - intros (a & s1 & -> & Hk). exact Hk.
Qed.

Lemma bind_run {St A B} (c : M St A) (k : A → M St B) s a s1 :
  c s = Ok (a, s1) → (c ≫= k) s = k a s1.
Proof. intros Hc. unfold mbind, M_bind. by rewrite Hc. Qed.

Lemma ret_Ok {St A} (a : A) (s : St) r s' :
  (mret a : M St A) s = Ok (r, s') ↔ r = a ∧ s' = s.
Proof. unfold mret, M_ret. split; [intros [= <- <-] | intros [-> ->]]; done. Qed.

(** Splitting a successful run at its binds, and building one. *)
Ltac run_inv H :=
  repeat (let a := fresh "v" in let s := fresh "s" in let H1 := fresh "Hrun" in
          apply bind_Ok in H as (a & s & H1 & H)).
Ltac run_done := repeat (split; [eassumption |]); eassumption.
Ltac run_intro :=
  repeat (apply bind_Ok; eexists _, _; split; [eassumption |]).

(** ** MLP-Mixer *)

Module MixerFacts.
Import Mixer.

Section Generic.
Context {T St : Type} `{Flax T St}.

(** A successful run of [MlpBlock.__call__]: a [Dense] layer of
    [mlp_dim] features, the gelu, and a [Dense] layer that has as many
    features as the last axis of the input is long. *)
Lemma MlpBlock_call_steps (self : MlpBlock) (scope : path) (x r : T) (s s' : St) :
  MlpBlock_call self scope x s = Ok (r, s') ↔
  ∃ y1 s1 y2 s2 d,
    nn_Dense (scope ++ ["Dense_0"]) (mlp_dim self) None x s = Ok (y1, s1) ∧
    nn_gelu y1 s1 = Ok (y2, s2) ∧
    last (shape x) = Some d ∧
    nn_Dense (scope ++ ["Dense_1"]) (Z.of_nat d) None y2 s2 = Ok (r, s').
Proof.
  unfold MlpBlock_call, shape_last. split.
  - intros Hrun. run_inv Hrun. destruct (last (shape x)) as [d|]; [| discriminate].
    match goal with
    | Hd : mret _ _ = Ok _ |- _ => apply ret_Ok in Hd as [-> ->]
    end.
    do 5 eexists. split_and!; [eassumption | eassumption | reflexivity | eassumption].
  - intros (y1 & s1 & y2 & s2 & d & H1 & H2 & Hd & H3). rewrite Hd.
    run_intro. apply bind_Ok. eexists _, _. split; [reflexivity | exact H3].
Qed.

(** A successful run of [MixerBlock.__call__] is exactly a successful
    run of its eight steps, each fed as the source feeds it. *)
Lemma MixerBlock_call_steps (self : MixerBlock) (scope : path) (x r : T) (s s' : St) :
  MixerBlock_call self scope x s = Ok (r, s') ↔
  ∃ n1 s1 t1 s2 m1 s3 t2 s4 u s5 n2 s6 m2 s7,
    nn_LayerNorm (scope ++ ["LayerNorm_0"]) x s = Ok (n1, s1) ∧
    jnp_swapaxes n1 1 2 s1 = Ok (t1, s2) ∧
    MlpBlock_call {| mlp_dim := mb_tokens_mlp_dim self |}
      (scope ++ ["token_mixing"]) t1 s2 = Ok (m1, s3) ∧
    jnp_swapaxes m1 1 2 s3 = Ok (t2, s4) ∧
    jnp_add x t2 s4 = Ok (u, s5) ∧
    nn_LayerNorm (scope ++ ["LayerNorm_1"]) u s5 = Ok (n2, s6) ∧
    MlpBlock_call {| mlp_dim := mb_channels_mlp_dim self |}
      (scope ++ ["channel_mixing"]) n2 s6 = Ok (m2, s7) ∧
    jnp_add u m2 s7 = Ok (r, s').
Proof.
  unfold MixerBlock_call. split.
  - intros Hrun. run_inv Hrun. do 14 eexists. run_done.
  - intros (n1 & s1 & t1 & s2 & m1 & s3 & t2 & s4 & u & s5 & n2 & s6 & m2 & s7
            & H1 & H2 & H3 & H4 & H5 & H6 & H7 & H8).
    run_intro. exact H8.
Qed.

Lemma for_each_blocks_run self scope i n x s x' s' :
  for_each (seq i n) (MlpMixer_block self scope) x s = Ok (x', s') ↔
  blocks_run self scope i n x s x' s'.
Proof.
  revert i x s. induction n as [|n IH]; intros i x s; simpl.
  - rewrite ret_Ok. split.
    + intros [-> ->]. constructor.
    + inversion 1. done.
  - rewrite bind_Ok. split.
    + intros (x1 & s1 & Hb & Hrest). apply IH in Hrest.
      econstructor; eassumption.
    + inversion 1; subst. eexists _, _. split; [eassumption |]. by apply IH.
Qed.

Lemma MlpMixer_call_steps (self : MlpMixer) (scope : path) (inputs r : T)
    (train : bool) (s s' : St) :
  MlpMixer_call self scope inputs train s = Ok (r, s') ↔
  ∃ x0 s0 x1 s1 x2 s2 x3 s3 x4 s4,
    nn_Conv (scope ++ ["stem"]) (hidden_dim self) (patches self) (patches self)
      inputs s = Ok (x0, s0) ∧
    einops_rearrange x0 "n h w c -> n (h w) c" s0 = Ok (x1, s1) ∧
    blocks_run self scope 0 (Z.to_nat (num_blocks self)) x1 s1 x2 s2 ∧
    nn_LayerNorm (scope ++ ["pre_head_layer_norm"]) x2 s2 = Ok (x3, s3) ∧
    jnp_mean x3 1 s3 = Ok (x4, s4) ∧
    nn_Dense (scope ++ ["head"]) (num_classes self) (Some "nn.initializers.zeros")
      x4 s4 = Ok (r, s').
Proof.
  unfold MlpMixer_call, range. split.
  - intros Hrun. run_inv Hrun.
    match goal with
    | Hloop : for_each _ _ _ _ = _ |- _ => apply for_each_blocks_run in Hloop
    end.
    do 10 eexists. run_done.
  - intros (x0 & s0 & x1 & s1 & x2 & s2 & x3 & s3 & x4 & s4
            & H1 & H2 & H3 & H4 & H5 & H6).
    apply for_each_blocks_run in H3. run_intro. exact H6.
Qed.

End Generic.

(** *** Shapes *)

Lemma width_run (z : Z) (st : params) :
  0 ≤ z → width z st = Ok (Z.to_nat z, st).
Proof.
  intros Hz. unfold width. destruct (Z.ltb_spec z 0); [lia | reflexivity].
Qed.

Lemma width_Ok (z : Z) (st st' : params) (n : nat) :
  width z st = Ok (n, st') → 0 ≤ z ∧ n = Z.to_nat z ∧ st' = st.
Proof.
  unfold width. destruct (Z.ltb_spec z 0); [discriminate |].
  intros [= <- <-]. auto.
Qed.

Lemma axis_run (a : Z) (rank : nat) (st : params) :
  0 ≤ a < Z.of_nat rank → axis a rank st = Ok (Z.to_nat a, st).
Proof.
  intros Ha. unfold axis.
  destruct (Z.leb_spec 0 a); [| lia]. destruct (Z.ltb_spec a (Z.of_nat rank)); [| lia].
  reflexivity.
Qed.

Lemma init_kernel_run (ki : option string) (d f : nat) (st : params) :
  ki = None ∨ ki = Some "nn.initializers.zeros" → (0 < d)%nat → (0 < f)%nat →
  init_kernel ki d f st = Ok ((), st).
Proof.
  intros [-> | ->] Hd Hf; unfold init_kernel.
  - rewrite decide_False by lia. reflexivity.
  - reflexivity.
Qed.

Lemma init_kernel_Ok (d f : nat) (st st' : params) (u : unit) :
  init_kernel None d f st = Ok (u, st') → (0 < d)%nat ∧ (0 < f)%nat ∧ st' = st.
Proof.
  unfold init_kernel. destruct (decide _) as [H | H]; [discriminate |].
  intros [= <-]. split_and!; [lia | lia | done].
Qed.

Lemma init_kernel_state (ki : option string) (d f : nat) (st st' : params) (u : unit) :
  init_kernel ki d f st = Ok (u, st') → st' = st.
Proof.
  unfold init_kernel. destruct ki as [init|]; destruct (decide _); try discriminate;
    by intros [= <-].
Qed.

Lemma shp_Dense_run (p : path) (f : Z) (ki : option string) (x : shp) (d : nat)
    (st : params) :
  ki = None ∨ ki = Some "nn.initializers.zeros" →
  last x = Some d → (0 < d)%nat → 0 < f →
  shp_Dense p f ki x st =
  Ok (removelast x ++ [Z.to_nat f],
      st ++ [(p ++ ["kernel"], [d; Z.to_nat f]); (p ++ ["bias"], [Z.to_nat f])]).
Proof.
  intros Hki Hd Hpos Hf. unfold shp_Dense. rewrite Hd.
  erewrite bind_run by (apply width_run; lia).
  erewrite bind_run by (apply init_kernel_run; [done | done | lia]).
  unfold param, mbind, M_bind, mret, M_ret. by rewrite <- app_assoc.
Qed.

Lemma shp_Dense_Ok (p : path) (f : Z) (ki : option string) (x y : shp) (st st' : params) :
  shp_Dense p f ki x st = Ok (y, st') →
  ∃ d, last x = Some d ∧ 0 ≤ f ∧ y = removelast x ++ [Z.to_nat f] ∧
       (ki = None → (0 < d)%nat ∧ 0 < f).
Proof.
  unfold shp_Dense. destruct (last x) as [d|] eqn:Hd; [| discriminate].
  intros Hrun. run_inv Hrun. apply width_Ok in Hrun0 as (Hf & -> & ->).
  apply ret_Ok in Hrun as [-> _]. exists d. split_and!; [done | done | done |].
  intros ->. apply init_kernel_Ok in Hrun1 as (? & ? & _). lia.
Qed.

Lemma shp_LayerNorm_run (p : path) (x : shp) (d : nat) (st : params) :
  last x = Some d →
  shp_LayerNorm p x st = Ok (x, st ++ [(p ++ ["scale"], [d]); (p ++ ["bias"], [d])]).
Proof.
  intros Hd. unfold shp_LayerNorm. rewrite Hd.
  unfold param, mbind, M_bind, mret, M_ret. by rewrite <- app_assoc.
Qed.

Lemma last_removelast {A} (l : list A) (d : A) :
  last l = Some d → removelast l ++ [d] = l.
Proof.
  intros Hd. apply last_Some in Hd as [l' ->]. by rewrite removelast_last.
Qed.

Lemma removelast_snoc {A} (l : list A) (d : A) : removelast (l ++ [d]) = l.
Proof. apply removelast_last. Qed.

(** [MlpBlock.__call__] on a shape of rank at least one: the first
    [Dense] maps the last axis to [mlp_dim], the second maps it back. *)
Lemma MlpBlock_call_shape (self : MlpBlock) (scope : path) (x : shp) (d : nat)
    (st : params) :
  last x = Some d → (0 < d)%nat → 0 < mlp_dim self →
  MlpBlock_call self scope x st =
  Ok (x, st ++ [ (scope ++ ["Dense_0"; "kernel"], [d; Z.to_nat (mlp_dim self)]);
                 (scope ++ ["Dense_0"; "bias"], [Z.to_nat (mlp_dim self)]);
                 (scope ++ ["Dense_1"; "kernel"], [Z.to_nat (mlp_dim self); d]);
                 (scope ++ ["Dense_1"; "bias"], [d]) ]).
Proof.
  intros Hd Hpos Hm. unfold MlpBlock_call. cbn [nn_Dense nn_gelu Flax_shapes].
  erewrite bind_run by (apply shp_Dense_run; [by left | done | done | done]).
  erewrite bind_run by reflexivity.
  unfold shape_last. cbn [shape Flax_shapes]. rewrite Hd.
  erewrite bind_run by reflexivity.
  rewrite (shp_Dense_run _ _ _ _ (Z.to_nat (mlp_dim self)));
    [| by left | apply last_snoc | lia | lia].
  rewrite removelast_snoc, Nat2Z.id, (last_removelast _ _ Hd).
  rewrite <- !app_assoc. reflexivity.
Qed.

Lemma MlpBlock_call_shape_Ok (self : MlpBlock) (scope : path) (x y : shp)
    (st st' : params) :
  MlpBlock_call self scope x st = Ok (y, st') →
  y = x ∧ (∃ d, last x = Some d ∧ (0 < d)%nat) ∧ 0 < mlp_dim self.
Proof.
  unfold MlpBlock_call. cbn [nn_Dense nn_gelu Flax_shapes]. intros Hrun.
  run_inv Hrun. apply shp_Dense_Ok in Hrun0 as (d & Hd & _ & -> & Hpos).
  destruct (Hpos eq_refl) as [Hd0 Hm].
  apply ret_Ok in Hrun1 as [-> ->].
  unfold shape_last in Hrun2. cbn [shape Flax_shapes] in Hrun2. rewrite Hd in Hrun2.
  apply ret_Ok in Hrun2 as [-> ->].
  apply shp_Dense_Ok in Hrun as (d' & _ & _ & -> & _).
  rewrite removelast_snoc, Nat2Z.id, (last_removelast _ _ Hd).
  split; [done |]. split; [| done]. eauto.
Qed.

Lemma shp_swapaxes_1_2 (n t c : nat) (rest : shp) (st : params) :
  shp_swapaxes (n :: t :: c :: rest) 1 2 st = Ok (n :: c :: t :: rest, st).
Proof.
  unfold shp_swapaxes.
  erewrite bind_run by (apply axis_run; cbn [length]; lia).
  erewrite bind_run by (apply axis_run; cbn [length]; lia).
  reflexivity.
Qed.

Lemma broadcast_rev_refl (a : shp) : broadcast_rev a a = Some a.
Proof.
  induction a as [|x a IH]; simpl; [done |].
  rewrite IH. by rewrite decide_True.
Qed.

Lemma shp_add_same (x : shp) (st : params) : shp_add x x st = Ok (x, st).
Proof. unfold shp_add. by rewrite broadcast_rev_refl, rev_involutive. Qed.

(** [MixerBlock.__call__] on a shape of rank at least three keeps the
    shape; the token-mixing kernels contract the axis that the exchange
    of axes 1 and 2 has put last, the channel-mixing kernels the last
    axis of the input. *)
Lemma MixerBlock_call_shape (self : MixerBlock) (scope : path) (n t c : nat)
    (rest : shp) (dt dc : nat) (st : params) :
  last (t :: rest) = Some dt → last (c :: rest) = Some dc →
  (0 < dt)%nat → (0 < dc)%nat →
  0 < mb_tokens_mlp_dim self → 0 < mb_channels_mlp_dim self →
  MixerBlock_call self scope (n :: t :: c :: rest) st =
  Ok (n :: t :: c :: rest, st ++ MixerBlock_params self scope dt dc).
Proof.
  intros Ht Hc Htpos Hcpos Hds Hdc. unfold MixerBlock_call.
  cbn [nn_LayerNorm jnp_swapaxes jnp_add Flax_shapes].
  assert (last (n :: t :: c :: rest) = Some dc) as Hx by exact Hc.
  assert (last (n :: c :: t :: rest) = Some dt) as Hy by exact Ht.
  erewrite bind_run by (by apply shp_LayerNorm_run).
  erewrite bind_run by apply shp_swapaxes_1_2.
  erewrite bind_run by (by apply MlpBlock_call_shape).
  erewrite bind_run by apply shp_swapaxes_1_2.
  erewrite bind_run by apply shp_add_same.
  erewrite bind_run by (by apply shp_LayerNorm_run).
  erewrite bind_run by (by apply MlpBlock_call_shape).
  rewrite shp_add_same. unfold MixerBlock_params. cbn [mlp_dim].
  rewrite <- !app_assoc. reflexivity.
Qed.

Lemma MixerBlock_call_shape_Ok (self : MixerBlock) (scope : path) (x y : shp)
    (st st' : params) :
  MixerBlock_call self scope x st = Ok (y, st') →
  y = x ∧ (3 ≤ length x)%nat ∧ 0 < mb_tokens_mlp_dim self ∧ 0 < mb_channels_mlp_dim self.
Proof.
  intros Hrun. apply MixerBlock_call_steps in Hrun
    as (n1 & s1 & t1 & s2 & m1 & s3 & t2 & s4 & u & s5 & n2 & s6 & m2 & s7
        & H1 & H2 & H3 & H4 & H5 & H6 & H7 & H8).
  apply MlpBlock_call_shape_Ok in H3 as (-> & _ & Hds).
  apply MlpBlock_call_shape_Ok in H7 as (-> & _ & Hdc).
  cbn [mlp_dim] in *. cbn [nn_LayerNorm jnp_swapaxes jnp_add Flax_shapes] in *.
  assert (n1 = x) as ->.
  { unfold shp_LayerNorm in H1. destruct (last x); [| discriminate].
    run_inv H1. by apply ret_Ok in H1 as [-> _]. }
  destruct x as [|n [|t [|c rest]]].
  - discriminate H1.
  - exfalso. revert H2. unfold shp_swapaxes, axis. cbn. discriminate.
  - exfalso. revert H2. unfold shp_swapaxes, axis. cbn. discriminate.
  - rewrite shp_swapaxes_1_2 in H2. injection H2 as <- <-.
    rewrite shp_swapaxes_1_2 in H4. injection H4 as <- <-.
    rewrite shp_add_same in H5. injection H5 as <- <-.
    assert (n2 = n :: t :: c :: rest) as ->.
    { unfold shp_LayerNorm in H6. destruct (last _); [| discriminate].
      run_inv H6. by apply ret_Ok in H6 as [-> _]. }
    rewrite shp_add_same in H8. injection H8 as <- <-.
    cbn [length]. repeat split; [lia | done | done].
Qed.

Lemma blocks_shape (self : MlpMixer) (scope : path) (n t c : nat) (st : params)
    (i k : nat) :
  (0 < t)%nat → (0 < c)%nat → 0 < tokens_mlp_dim self → 0 < channels_mlp_dim self →
  for_each (seq i k) (MlpMixer_block self scope) [n; t; c] st =
  Ok ([n; t; c],
      st ++ flat_map
              (λ i : nat,
                 MixerBlock_params
                   {| mb_tokens_mlp_dim := tokens_mlp_dim self;
                      mb_channels_mlp_dim := channels_mlp_dim self |}
                   (scope ++ ["MixerBlock_" +:+ pretty i]) t c)
              (seq i k)).
Proof.
  intros Ht Hc Hds Hdc. revert i st. induction k as [|k IH]; intros i st.
  - cbn. by rewrite app_nil_r.
  - cbn [seq for_each flat_map]. unfold MlpMixer_block at 1.
    erewrite bind_run by (by apply MixerBlock_call_shape).
    rewrite IH, <- app_assoc. reflexivity.
Qed.

(** The shapes along [MlpMixer.__call__] on an NHWC batch with a
    two-dimensional patch size. *)
Lemma cdiv_pos (n k : nat) : (0 < n)%nat → (0 < k)%nat → (0 < cdiv n k)%nat.
Proof.
  intros Hn Hk. unfold cdiv. apply Nat.div_str_pos. lia.
Qed.

Lemma shp_Conv_2d (p : path) (f kh kw : Z) (n h w c : nat) (st : params) :
  0 < kh → 0 < kw → (0 < c)%nat → 0 < f →
  shp_Conv p f (PSeq [kh; kw]) (PSeq [kh; kw]) [n; h; w; c] st =
  Ok ([n; cdiv h (Z.to_nat kh); cdiv w (Z.to_nat kw); Z.to_nat f],
      st ++ [(p ++ ["kernel"], [Z.to_nat kh; Z.to_nat kw; c; Z.to_nat f]);
             (p ++ ["bias"], [Z.to_nat f])]).
Proof.
  intros Hkh Hkw Hc Hf. unfold shp_Conv.
  cbn [kernel_sizes stride_sizes length last]. rewrite decide_True by done.
  rewrite decide_True by (cbn [length]; lia).
  cbn [forallb]. destruct (Z.ltb_spec 0 kh); [| lia]. destruct (Z.ltb_spec 0 kw); [| lia].
  cbn [andb].
  erewrite bind_run by (apply width_run; lia).
  erewrite bind_run by (apply init_kernel_run; [by left | done | lia]).
  unfold param, mbind, M_bind, mret, M_ret. cbn. by rewrite <- app_assoc.
Qed.

Lemma MlpMixer_call_shapes (self : MlpMixer) (scope : path) (kh kw : Z)
    (n h w c : nat) (train : bool) (st : params) :
  patches self = PSeq [kh; kw] → 0 < kh → 0 < kw →
  (0 < h)%nat → (0 < w)%nat → (0 < c)%nat →
  0 < hidden_dim self → 0 < tokens_mlp_dim self → 0 < channels_mlp_dim self →
  0 < num_classes self →
  let h' := cdiv h (Z.to_nat kh) in
  let w' := cdiv w (Z.to_nat kw) in
  let hidden := Z.to_nat (hidden_dim self) in
  ∃ s0 s2 s3,
    nn_Conv (scope ++ ["stem"]) (hidden_dim self) (patches self) (patches self)
      [n; h; w; c] st = Ok ([n; h'; w'; hidden], s0) ∧
    einops_rearrange [n; h'; w'; hidden] "n h w c -> n (h w) c" s0 =
      Ok ([n; (h' * w')%nat; hidden], s0) ∧
    blocks_run self scope 0 (Z.to_nat (num_blocks self))
      [n; (h' * w')%nat; hidden] s0 [n; (h' * w')%nat; hidden] s2 ∧
    nn_LayerNorm (scope ++ ["pre_head_layer_norm"]) [n; (h' * w')%nat; hidden] s2 =
      Ok ([n; (h' * w')%nat; hidden], s3) ∧
    jnp_mean [n; (h' * w')%nat; hidden] 1 s3 = Ok ([n; hidden], s3) ∧
    nn_Dense (scope ++ ["head"]) (num_classes self) (Some "nn.initializers.zeros")
      [n; hidden] s3 =
      Ok ([n; Z.to_nat (num_classes self)],
          st ++ MlpMixer_params self scope kh kw c (h' * w')).
Proof.
  intros Hp Hkh Hkw Hh Hw Hc Hhid Hds Hdc Hcls h' w' hidden.
  assert (0 < h' * w')%nat as Htokens.
  { apply Nat.mul_pos_pos; apply cdiv_pos; lia. }
  assert (0 < hidden)%nat as Hhidden by (unfold hidden; lia).
  cbn [nn_Conv einops_rearrange nn_LayerNorm jnp_mean nn_Dense Flax_shapes].
  eexists _, _, _. split; [| split; [| split; [| split; [| split]]]].
  - rewrite Hp. by apply shp_Conv_2d.
  - reflexivity.
  - apply for_each_blocks_run. by apply blocks_shape.
  - by apply shp_LayerNorm_run.
  - unfold shp_mean. erewrite bind_run by (apply axis_run; cbn [length]; lia).
    reflexivity.
  - rewrite (shp_Dense_run _ _ _ _ hidden) by (done || by right).
    unfold MlpMixer_params, param, range. cbn [removelast app].
    rewrite <- !app_assoc. reflexivity.
Qed.

(** *** Main results *)

Lemma last_Forall_pos (x : shp) (d : nat) :
  Forall (λ d, (0 < d)%nat) x → last x = Some d → (0 < d)%nat.
Proof.
  intros Hall Hd. apply last_Some in Hd as [l ->].
  apply Forall_app in Hall as [_ Hd]. by inversion Hd.
Qed.

(** C1: on every input [x], [MixerBlock.__call__] computes
    [u = x + swapaxes(MlpBlock_tokens(swapaxes(LayerNorm(x), 1, 2)), 1, 2)]
    and returns [u + MlpBlock_channels(LayerNorm(u))], whatever the
    layers compute: each path is added onto its own input.  On a
    [(batch, tokens, channels)] input with no axis of length 0 and with
    positive widths [tokens_mlp_dim] and [channels_mlp_dim] the two swaps put the token axis last
    for the token-mixing block, whose kernels are [(tokens, tokens_mlp_dim)]
    and [(tokens_mlp_dim, tokens)], while the kernels of the channel-mixing
    block are [(channels, channels_mlp_dim)] and
    [(channels_mlp_dim, channels)]. *)
Theorem MixerBlock_call_mixing :
  (∀ (T St : Type) (F : Flax T St) (self : MixerBlock) (scope : path) (x r : T)
     (s s' : St),
     MixerBlock_call self scope x s = Ok (r, s') ↔
     ∃ n1 s1 t1 s2 m1 s3 t2 s4 u s5 n2 s6 m2 s7,
       nn_LayerNorm (scope ++ ["LayerNorm_0"]) x s = Ok (n1, s1) ∧
       jnp_swapaxes n1 1 2 s1 = Ok (t1, s2) ∧
       MlpBlock_call {| mlp_dim := mb_tokens_mlp_dim self |}
         (scope ++ ["token_mixing"]) t1 s2 = Ok (m1, s3) ∧
       jnp_swapaxes m1 1 2 s3 = Ok (t2, s4) ∧
       jnp_add x t2 s4 = Ok (u, s5) ∧
       nn_LayerNorm (scope ++ ["LayerNorm_1"]) u s5 = Ok (n2, s6) ∧
       MlpBlock_call {| mlp_dim := mb_channels_mlp_dim self |}
         (scope ++ ["channel_mixing"]) n2 s6 = Ok (m2, s7) ∧
       jnp_add u m2 s7 = Ok (r, s')) ∧
  (∀ (self : MixerBlock) (scope : path) (batch tokens channels : nat) (st : params),
     (0 < batch)%nat → (0 < tokens)%nat → (0 < channels)%nat →
     0 < mb_tokens_mlp_dim self → 0 < mb_channels_mlp_dim self →
     jnp_swapaxes [batch; tokens; channels] 1 2 st = Ok ([batch; channels; tokens], st) ∧
     jnp_swapaxes [batch; channels; tokens] 1 2 st = Ok ([batch; tokens; channels], st) ∧
     MixerBlock_call self scope [batch; tokens; channels] st =
     Ok ([batch; tokens; channels],
         st ++ MixerBlock_params self scope tokens channels)).
Proof.
  split.
  - intros T St F. apply MixerBlock_call_steps.
  - intros self scope batch tokens channels st Hb Ht Hc Hds Hdc.
    split; [apply shp_swapaxes_1_2 |]. split; [apply shp_swapaxes_1_2 |].
    by apply MixerBlock_call_shape.
Qed.

Lemma MixerBlock_call_mixing_witness :
  let self := {| mb_tokens_mlp_dim := 4; mb_channels_mlp_dim := 6 |} in
  (0 < 2)%nat ∧ (0 < 5)%nat ∧ (0 < 8)%nat ∧
  0 < mb_tokens_mlp_dim self ∧ 0 < mb_channels_mlp_dim self ∧
  MixerBlock_call self ["MixerBlock_0"] [2; 5; 8]%nat [] =
  Ok ([2; 5; 8]%nat, MixerBlock_params self ["MixerBlock_0"] 5 8).
Proof.
  intros self. repeat (split; [cbn; lia |]).
  apply (proj2 MixerBlock_call_mixing self ["MixerBlock_0"] 2%nat 5%nat 8%nat []);
    cbn; lia.
Defined.

(** C2: [MlpMixer.__call__] is, in this order, the stem convolution
    with kernel size and strides [patches] and [hidden_dim] features, the
    rearrangement ['n h w c -> n (h w) c'], the [num_blocks] mixer blocks
    one after the other, the layer normalisation, the mean over axis 1 and
    the [Dense] layer with [num_classes] features, whose result it returns.
    On an NHWC batch with no axis of length 0, with a two-dimensional
    patch size and with positive widths, the stem yields [hidden_dim]
    channels, the rearrangement one token axis, and the head
    [num_classes] logits per image. *)
Theorem MlpMixer_call_sequence :
  (∀ (T St : Type) (F : Flax T St) (self : MlpMixer) (scope : path) (inputs r : T)
     (train : bool) (s s' : St),
     MlpMixer_call self scope inputs train s = Ok (r, s') ↔
     ∃ x0 s0 x1 s1 x2 s2 x3 s3 x4 s4,
       nn_Conv (scope ++ ["stem"]) (hidden_dim self) (patches self) (patches self)
         inputs s = Ok (x0, s0) ∧
       einops_rearrange x0 "n h w c -> n (h w) c" s0 = Ok (x1, s1) ∧
       blocks_run self scope 0 (Z.to_nat (num_blocks self)) x1 s1 x2 s2 ∧
       nn_LayerNorm (scope ++ ["pre_head_layer_norm"]) x2 s2 = Ok (x3, s3) ∧
       jnp_mean x3 1 s3 = Ok (x4, s4) ∧
       nn_Dense (scope ++ ["head"]) (num_classes self) (Some "nn.initializers.zeros")
         x4 s4 = Ok (r, s')) ∧
  (∀ (self : MlpMixer) (scope : path) (kh kw : Z) (n h w c : nat) (train : bool)
     (st : params),
     patches self = PSeq [kh; kw] → 0 < kh → 0 < kw →
     (0 < n)%nat → (0 < h)%nat → (0 < w)%nat → (0 < c)%nat →
     0 < hidden_dim self → 0 < tokens_mlp_dim self → 0 < channels_mlp_dim self →
     0 < num_classes self →
     let h' := cdiv h (Z.to_nat kh) in
     let w' := cdiv w (Z.to_nat kw) in
     let hidden := Z.to_nat (hidden_dim self) in
     (∃ s0 s2 s3,
        nn_Conv (scope ++ ["stem"]) (hidden_dim self) (patches self) (patches self)
          [n; h; w; c] st = Ok ([n; h'; w'; hidden], s0) ∧
        einops_rearrange [n; h'; w'; hidden] "n h w c -> n (h w) c" s0 =
          Ok ([n; (h' * w')%nat; hidden], s0) ∧
        blocks_run self scope 0 (Z.to_nat (num_blocks self))
          [n; (h' * w')%nat; hidden] s0 [n; (h' * w')%nat; hidden] s2 ∧
        nn_LayerNorm (scope ++ ["pre_head_layer_norm"]) [n; (h' * w')%nat; hidden] s2 =
          Ok ([n; (h' * w')%nat; hidden], s3) ∧
        jnp_mean [n; (h' * w')%nat; hidden] 1 s3 = Ok ([n; hidden], s3) ∧
        nn_Dense (scope ++ ["head"]) (num_classes self) (Some "nn.initializers.zeros")
          [n; hidden] s3 =
          Ok ([n; Z.to_nat (num_classes self)],
              st ++ MlpMixer_params self scope kh kw c (h' * w'))) ∧
     MlpMixer_call self scope [n; h; w; c] train st =
     Ok ([n; Z.to_nat (num_classes self)],
         st ++ MlpMixer_params self scope kh kw c (h' * w'))).
Proof.
  split.
  - intros T St F. apply MlpMixer_call_steps.
  - intros self scope kh kw n h w c train st Hp Hkh Hkw Hn Hh Hw Hc Hhid Hds Hdc Hcls
      h' w' hidden.
    pose proof (MlpMixer_call_shapes self scope kh kw n h w c train st
                  Hp Hkh Hkw Hh Hw Hc Hhid Hds Hdc Hcls) as Hsteps.
    split; [exact Hsteps |].
    destruct Hsteps as (s0 & s2 & s3 & H1 & H2 & H3 & H4 & H5 & H6).
    apply MlpMixer_call_steps. do 10 eexists. run_done.
Qed.

Lemma MlpMixer_call_sequence_witness :
  let self := {| patches := PSeq [16; 16]; num_classes := 10; num_blocks := 2;
                 hidden_dim := 8; tokens_mlp_dim := 4; channels_mlp_dim := 6 |} in
  patches self = PSeq [16; 16] ∧ 0 < 16 ∧
  (0 < 2)%nat ∧ (0 < 32)%nat ∧ (0 < 3)%nat ∧ 0 < hidden_dim self ∧
  0 < tokens_mlp_dim self ∧ 0 < channels_mlp_dim self ∧ 0 < num_classes self ∧
  MlpMixer_call self [] [2; 32; 32; 3]%nat true [] =
  Ok ([2; 10]%nat, MlpMixer_params self [] 16 16 3 4).
Proof.
  intros self. repeat (split; [first [reflexivity | cbn; lia] |]).
  apply (proj2 (proj2 MlpMixer_call_sequence self [] 16 16 2%nat 32%nat 32%nat 3%nat
                  true [] eq_refl ltac:(lia) ltac:(lia) ltac:(lia) ltac:(lia) ltac:(lia)
                  ltac:(lia) ltac:(cbn; lia) ltac:(cbn; lia)
                  ltac:(cbn; lia) ltac:(cbn; lia))).
Defined.

(** C9: the final [Dense] layer of [MlpBlock.__call__] has
    [x.shape[-1]] features, so what the block returns has the shape of its
    input [x], and with a positive [mlp_dim] it returns on every array that
    has a last axis for the [Dense] layers to act on and no axis of length
    0; consequently what [MixerBlock.__call__] returns has the shape of
    its input, and on an input of rank three or more with no axis of
    length 0 and with positive widths it returns, both of its additions
    adding two arrays of the shape of the input. *)
Theorem MixerBlock_call_preserves_shape :
  (∀ (T St : Type) (F : Flax T St) (self : MlpBlock) (scope : path) (x r : T)
     (s s' : St),
     MlpBlock_call self scope x s = Ok (r, s') ↔
     ∃ y1 s1 y2 s2 d,
       nn_Dense (scope ++ ["Dense_0"]) (mlp_dim self) None x s = Ok (y1, s1) ∧
       nn_gelu y1 s1 = Ok (y2, s2) ∧
       last (shape x) = Some d ∧
       nn_Dense (scope ++ ["Dense_1"]) (Z.of_nat d) None y2 s2 = Ok (r, s')) ∧
  (∀ (self : MlpBlock) (scope : path) (x y : shp) (st st' : params),
     MlpBlock_call self scope x st = Ok (y, st') → y = x) ∧
  (∀ (self : MlpBlock) (scope : path) (x : shp) (st : params),
     x ≠ [] → Forall (λ d, (0 < d)%nat) x → 0 < mlp_dim self →
     ∃ st', MlpBlock_call self scope x st = Ok (x, st')) ∧
  (∀ (self : MixerBlock) (scope : path) (x y : shp) (st st' : params),
     MixerBlock_call self scope x st = Ok (y, st') → y = x) ∧
  (∀ (self : MixerBlock) (scope : path) (x : shp) (st : params),
     (3 ≤ length x)%nat → Forall (λ d, (0 < d)%nat) x →
     0 < mb_tokens_mlp_dim self → 0 < mb_channels_mlp_dim self →
     ∃ t1 s1 s3 s6 s7,
       nn_LayerNorm (scope ++ ["LayerNorm_0"]) x st = Ok (x, s1) ∧
       jnp_swapaxes x 1 2 s1 = Ok (t1, s1) ∧
       MlpBlock_call {| mlp_dim := mb_tokens_mlp_dim self |}
         (scope ++ ["token_mixing"]) t1 s1 = Ok (t1, s3) ∧
       jnp_swapaxes t1 1 2 s3 = Ok (x, s3) ∧
       jnp_add x x s3 = Ok (x, s3) ∧
       nn_LayerNorm (scope ++ ["LayerNorm_1"]) x s3 = Ok (x, s6) ∧
       MlpBlock_call {| mlp_dim := mb_channels_mlp_dim self |}
         (scope ++ ["channel_mixing"]) x s6 = Ok (x, s7) ∧
       jnp_add x x s7 = Ok (x, s7) ∧
       MixerBlock_call self scope x st = Ok (x, s7)).
Proof.
  split_and!.
  - intros T St F. apply MlpBlock_call_steps.
  - intros self scope x y st st' Hrun. by apply MlpBlock_call_shape_Ok in Hrun as [-> _].
  - intros self scope x st Hx Hall Hm.
    destruct (last x) as [d|] eqn:Hd.
    + eexists. apply MlpBlock_call_shape; [done | by eapply last_Forall_pos | done].
    + by apply last_None in Hd.
  - intros self scope x y st st' Hrun. by apply MixerBlock_call_shape_Ok in Hrun as [-> _].
  - intros self scope x st Hlen Hall Hds Hdc.
    destruct x as [|n [|t [|c rest]]]; cbn in Hlen; try lia.
    destruct (last (t :: rest)) as [dt|] eqn:Ht; [| by apply last_None in Ht].
    destruct (last (c :: rest)) as [dc|] eqn:Hc; [| by apply last_None in Hc].
    assert (last (n :: t :: c :: rest) = Some dc) as Hx by exact Hc.
    assert (last (n :: c :: t :: rest) = Some dt) as Hy by exact Ht.
    assert (0 < dc)%nat as Hdcpos by (by eapply last_Forall_pos).
    assert (0 < dt)%nat as Hdtpos.
    { apply (last_Forall_pos (n :: c :: t :: rest)); [| done].
      inversion Hall as [| ? ? ? Hall1]; subst. inversion Hall1 as [| ? ? ? Hall2]; subst.
      inversion Hall2; subst. by repeat constructor. }
    cbn [nn_LayerNorm jnp_swapaxes jnp_add Flax_shapes].
    eexists _, _, _, _, _. split_and!.
    + by apply shp_LayerNorm_run.
    + apply shp_swapaxes_1_2.
    + by apply MlpBlock_call_shape.
    + apply shp_swapaxes_1_2.
    + apply shp_add_same.
    + by apply shp_LayerNorm_run.
    + by apply MlpBlock_call_shape.
    + apply shp_add_same.
    + rewrite (MixerBlock_call_shape self scope n t c rest dt dc) by done.
      unfold MixerBlock_params. cbn [mlp_dim]. rewrite <- !app_assoc. reflexivity.
Qed.

Lemma MixerBlock_call_preserves_shape_witness :
  let self := {| mb_tokens_mlp_dim := 4; mb_channels_mlp_dim := 6 |} in
  [2; 5; 8]%nat ≠ [] ∧ Forall (λ d, (0 < d)%nat) [2; 5; 8]%nat ∧ 0 < 4 ∧
  (3 ≤ length [2; 5; 8]%nat)%nat ∧ 0 < 6 ∧
  (∃ st', MlpBlock_call {| mlp_dim := 4 |} [] [2; 5; 8]%nat [] = Ok ([2; 5; 8]%nat, st')) ∧
  (∃ st', MixerBlock_call self [] [2; 5; 8]%nat [] = Ok ([2; 5; 8]%nat, st')).
Proof.
  intros self.
  assert (Forall (λ d, (0 < d)%nat) [2; 5; 8]%nat) as Hall by (repeat constructor; lia).
  repeat (split; [first [discriminate | exact Hall | cbn; lia] |]). split.
  - apply (proj1 (proj2 (proj2 MixerBlock_call_preserves_shape)) {| mlp_dim := 4 |} []
             [2; 5; 8]%nat []); [done | exact Hall | cbn; lia].
  - destruct (proj2 (proj2 (proj2 (proj2 MixerBlock_call_preserves_shape))) self []
                [2; 5; 8]%nat [] ltac:(cbn; lia) Hall ltac:(cbn; lia) ltac:(cbn; lia))
      as (t1 & s1 & s3 & s6 & s7 & _ & _ & _ & _ & _ & _ & _ & _ & Hrun).
    exists s7. exact Hrun.
Defined.

(** C10: the [train] argument of [MlpMixer.__call__] has no influence:
    whatever the layers, the parameters and the input, the call with
    [train=True] and the call with [train=False] have the same outcome. *)
Theorem MlpMixer_call_train_irrelevant (T St : Type) (F : Flax T St) (self : MlpMixer)
    (scope : path) (inputs : T) (s : St) :
  MlpMixer_call self scope inputs true s = MlpMixer_call self scope inputs false s.
Proof. unfold MlpMixer_call. reflexivity. Qed.

End MixerFacts.

(** ** ResNet *)

Module ResnetFacts.
Import Resnet.

(** *** Construction *)

Lemma foldl_snoc_map {A B} (f : A → B) (l : list A) (acc : list B) :
  foldl (λ acc i, acc ++ [f i]) acc l = acc ++ map f l.
Proof.
  revert acc. induction l as [|a l IH]; intros acc; simpl.
  - by rewrite app_nil_r.
  - by rewrite IH, <- app_assoc.
Qed.

(** The loop of [BlockGroup.__init__] builds one [BlockV1] per index. *)
Lemma BlockGroup_init_blocks (scope : path) (channels num_blocks : Z) (stride : pyval)
    (bn_config : dict) (resnet_v2 bottleneck use_projection use_bn : bool)
    (name : option string) :
  blocks (BlockGroup_init scope channels num_blocks stride bn_config resnet_v2
            bottleneck use_projection use_bn name) =
  map (λ i : nat,
         BlockV1_init (scope ++ [module_name "block_group" name]) channels
           (if bool_decide (i ≠ 0%nat) then PInt 1 else stride)
           use_projection bn_config bottleneck use_bn (Some ("block_" +:+ pretty i)))
      (range num_blocks).
Proof. unfold BlockGroup_init. cbn [blocks]. by rewrite foldl_snoc_map. Qed.

Lemma BlockGroup_init_lookup (scope : path) (channels num_blocks : Z) (stride : pyval)
    (bn_config : dict) (resnet_v2 bottleneck use_projection use_bn : bool)
    (name : option string) (j : nat) :
  (j < Z.to_nat num_blocks)%nat →
  blocks (BlockGroup_init scope channels num_blocks stride bn_config resnet_v2
            bottleneck use_projection use_bn name) !! j =
  Some (BlockV1_init (scope ++ [module_name "block_group" name]) channels
          (if bool_decide (j ≠ 0%nat) then PInt 1 else stride)
          use_projection bn_config bottleneck use_bn (Some ("block_" +:+ pretty j))).
Proof.
  intros Hj. rewrite BlockGroup_init_blocks. unfold range.
  rewrite list_lookup_fmap, lookup_seq_lt by done. reflexivity.
Qed.

Lemma check_length_Ok {A} (n : Z) (value : list A) (name : string) :
  check_length n value name = Ok () ↔ Z.of_nat (length value) = n.
Proof.
  unfold check_length. case_decide; split; done.
Qed.

Lemma check_length_Raise {A} (n : Z) (value : list A) (name : string) (e : exn) :
  check_length n value name = Raise e →
  Z.of_nat (length value) ≠ n ∧
  e = ValueError ("`" +:+ name +:+ "` must be of length 4 not " +:+ pretty (length value)).
Proof.
  unfold check_length. case_decide; [| discriminate]. intros [= <-]. done.
Qed.

Lemma Module_init_Ok (cls : string) (name : option string) :
  Module_init cls name = Ok () ↔ valid_identifier (module_name cls name) = true.
Proof.
  unfold Module_init. destruct (valid_identifier _); split; done.
Qed.

Lemma Module_init_Raise (cls : string) (name : option string) (e : exn) :
  Module_init cls name = Raise e →
  valid_identifier (module_name cls name) = false ∧
  e = ValueError ("'" +:+ module_name cls name +:+
        "' is not a valid module name (must be a valid Python identifier)").
Proof.
  unfold Module_init. destruct (valid_identifier _); [discriminate |].
  intros [= <-]. done.
Qed.

Lemma ResNet_init_Ok (cls : string) (a : ResNet_args) (n0 n1 n2 n3 c0 c1 c2 c3 : Z)
    (p0 p1 p2 p3 : bool) (ps : list bool) :
  blocks_per_group a = [n0; n1; n2; n3] →
  channels_per_group a = [c0; c1; c2; c3] →
  a_use_projection a = p0 :: p1 :: p2 :: p3 :: ps →
  Module_init cls (a_name a) = Ok () →
  ∃ net,
    ResNet_init cls a = Ok net ∧
    net_path net = [module_name cls (a_name a)] ∧
    resnet_v1 net = a_resnet_v1 a ∧
    initial_conv net =
      {| conv_scope := [module_name cls (a_name a)];
         conv_kwargs :=
           ResNet_initial_conv_config (a_resnet_v1 a) (a_initial_conv_config a) |} ∧
    initial_batchnorm net =
      (if negb (a_resnet_v2 a) && a_use_bn a then
         Some {| bn_scope := [module_name cls (a_name a)];
                 bn_name := "initial_batchnorm";
                 bn_kwargs := ResNet_bn_config (a_bn_config a) |}
       else None) ∧
    block_groups net =
      [ ResNet_group cls a 0 c0 n0 1 p0; ResNet_group cls a 1 c1 n1 2 p1;
        ResNet_group cls a 2 c2 n2 2 p2; ResNet_group cls a 3 c3 n3 2 p3 ] ∧
    logits net =
      {| lin_scope := [module_name cls (a_name a)];
         lin_output_size := num_classes a;
         lin_kwargs := ResNet_logits_config (a_logits_config a) |}.
Proof.
  intros Hn Hc Hp Hname. unfold ResNet_init. rewrite Hname, Hn, Hc, Hp.
  eexists. split; [reflexivity |]. cbn.
  repeat split. by destruct (a_resnet_v2 a), (a_use_bn a).
Qed.

Lemma length_4_inv {A} (l : list A) :
  length l = 4%nat → ∃ x0 x1 x2 x3, l = [x0; x1; x2; x3].
Proof.
  destruct l as [|x0 [|x1 [|x2 [|x3 [|x4 l]]]]]; try discriminate. eauto 10.
Qed.

Lemma length_ge_4_inv {A} (l : list A) :
  (4 ≤ length l)%nat → ∃ x0 x1 x2 x3 l', l = x0 :: x1 :: x2 :: x3 :: l'.
Proof.
  destruct l as [|x0 [|x1 [|x2 [|x3 l]]]]; cbn; intros Hl; try lia. eauto 10.
Qed.

(** Past the check of the name and the two length checks only an index
    into [use_projection] can fail. *)
Lemma ResNet_init_cases (cls : string) (a : ResNet_args) :
  Module_init cls (a_name a) = Ok () →
  length (blocks_per_group a) = 4%nat → length (channels_per_group a) = 4%nat →
  (∃ net, ResNet_init cls a = Ok net ∧ (4 ≤ length (a_use_projection a))%nat) ∨
  (ResNet_init cls a = Raise (IndexError (use_projection_error a)) ∧
   (length (a_use_projection a) < 4)%nat).
Proof.
  intros Hname (n0 & n1 & n2 & n3 & Hn)%length_4_inv (c0 & c1 & c2 & c3 & Hc)%length_4_inv.
  destruct (a_use_projection a) as [|p0 [|p1 [|p2 [|p3 ps]]]] eqn:Hp.
  5: { left. destruct (ResNet_init_Ok cls a _ _ _ _ _ _ _ _ _ _ _ _ _ Hn Hc Hp Hname)
         as (net & Hnet & _). exists net. split; [done |]. cbn. lia. }
  all: right; split; [| cbn; lia].
  all: unfold ResNet_init; rewrite Hname, Hn, Hc, Hp; reflexivity.
Qed.

Lemma ResNet_init_inv (cls : string) (a : ResNet_args) (net : ResNet) :
  ResNet_init cls a = Ok net →
  length (blocks_per_group a) = 4%nat ∧ length (channels_per_group a) = 4%nat ∧
  (4 ≤ length (a_use_projection a))%nat ∧ Module_init cls (a_name a) = Ok ().
Proof.
  intros Hnet.
  assert (Module_init cls (a_name a) = Ok ()) as Hname.
  { unfold ResNet_init in Hnet.
    destruct (Module_init cls (a_name a)) as [[]|e]; [done | discriminate]. }
  assert (length (blocks_per_group a) = 4%nat) as Hn.
  { unfold ResNet_init in Hnet. rewrite Hname in Hnet.
    destruct (check_length 4 (blocks_per_group a) _) as [[]|e] eqn:Hchk; [| discriminate].
    apply check_length_Ok in Hchk. lia. }
  assert (length (channels_per_group a) = 4%nat) as Hc.
  { unfold ResNet_init in Hnet. rewrite Hname in Hnet.
    destruct (check_length 4 (blocks_per_group a) _) as [[]|e]; [| discriminate].
    cbn in Hnet.
    destruct (check_length 4 (channels_per_group a) _) as [[]|e] eqn:Hchk; [| discriminate].
    apply check_length_Ok in Hchk. lia. }
  split; [done |]. split; [done |]. split; [| done].
  destruct (ResNet_init_cases cls a Hname Hn Hc) as [(net' & _ & Hp) | [Hraise _]]; [done |].
  congruence.
Qed.

(** The block groups of a constructed network do not depend on the
    [resnet_v2] flag. *)
Lemma ResNet_init_resnet_v2 (cls : string) (a : ResNet_args) (net : ResNet) (v : bool) :
  ResNet_init cls a = Ok net →
  ∃ net', ResNet_init cls (with_resnet_v2 v a) = Ok net' ∧
          block_groups net' = block_groups net.
Proof.
  intros Hnet. destruct (ResNet_init_inv _ _ _ Hnet) as (Hn & Hc & Hp & Hname).
  apply length_4_inv in Hn as (n0 & n1 & n2 & n3 & Hn).
  apply length_4_inv in Hc as (c0 & c1 & c2 & c3 & Hc).
  apply length_ge_4_inv in Hp as (p0 & p1 & p2 & p3 & ps & Hp).
  destruct (ResNet_init_Ok cls a _ _ _ _ _ _ _ _ _ _ _ _ _ Hn Hc Hp Hname)
    as (net0 & Hnet0 & _ & _ & _ & _ & Hg & _).
  assert (net0 = net) as -> by congruence.
  destruct (ResNet_init_Ok cls (with_resnet_v2 v a) _ _ _ _ _ _ _ _ _ _ _ _ _ Hn Hc Hp Hname)
    as (net' & Hnet' & _ & _ & _ & _ & Hg' & _).
  exists net'. split; [done |]. rewrite Hg, Hg'. reflexivity.
Qed.

Lemma BlockGroup_init_is_BlockV1 (scope : path) (channels num_blocks : Z) (stride : pyval)
    (bn_config : dict) (resnet_v2 bottleneck use_projection use_bn : bool)
    (name : option string) :
  Forall is_BlockV1
    (blocks (BlockGroup_init scope channels num_blocks stride bn_config resnet_v2
               bottleneck use_projection use_bn name)).
Proof.
  rewrite BlockGroup_init_blocks. apply Forall_forall. intros b Hb.
  apply list_elem_of_fmap in Hb as (i & -> & _).
  unfold is_BlockV1. eauto 10.
Qed.

Lemma ResNet_init_is_BlockV1 (cls : string) (a : ResNet_args) (net : ResNet) :
  ResNet_init cls a = Ok net →
  Forall (λ g, Forall is_BlockV1 (blocks g)) (block_groups net).
Proof.
  intros Hnet. destruct (ResNet_init_inv _ _ _ Hnet) as (Hn & Hc & Hp & Hname).
  apply length_4_inv in Hn as (n0 & n1 & n2 & n3 & Hn).
  apply length_4_inv in Hc as (c0 & c1 & c2 & c3 & Hc).
  apply length_ge_4_inv in Hp as (p0 & p1 & p2 & p3 & ps & Hp).
  destruct (ResNet_init_Ok cls a _ _ _ _ _ _ _ _ _ _ _ _ _ Hn Hc Hp Hname)
    as (net0 & Hnet0 & _ & _ & _ & _ & Hg & _).
  assert (net0 = net) as -> by congruence.
  rewrite Hg. repeat constructor; apply BlockGroup_init_is_BlockV1.
Qed.

Lemma Conv2D_new_lookup (scope : path) (output_channels : Z) (kernel_shape stride : pyval)
    (with_bias : bool) (padding name : string) :
  let kw := conv_kwargs (Conv2D_new scope output_channels kernel_shape stride with_bias
                           padding name) in
  kw !! "output_channels" = Some (PInt output_channels) ∧
  kw !! "kernel_shape" = Some kernel_shape ∧
  kw !! "stride" = Some stride ∧
  kw !! "with_bias" = Some (PBool with_bias) ∧
  kw !! "padding" = Some (PStr padding) ∧
  kw !! "name" = Some (PStr name).
Proof. cbn. repeat split; reflexivity. Qed.

(** C6: in [BlockV1.__init__] a bottleneck block stacks a [1x1] and a
    [3x3] convolution of [channels // 4] output channels, the first with
    stride 1 and the second with the block's stride; a block without
    bottleneck stacks two [3x3] convolutions of [channels] output channels,
    the first with the block's stride and the second with stride 1. *)
Theorem BlockV1_init_convs (scope : path) (channels : Z) (stride : pyval)
    (use_projection : bool) (bn_config : dict) (bottleneck use_bn : bool)
    (name : option string) :
  ∃ conv_0 bn_0 conv_1 bn_1,
    layers (BlockV1_init scope channels stride use_projection bn_config bottleneck
              use_bn name) = [(conv_0, bn_0); (conv_1, bn_1)] ∧
    conv_kwargs conv_0 !! "output_channels" =
      Some (PInt (if bottleneck then channels / 4 else channels)) ∧
    conv_kwargs conv_0 !! "kernel_shape" = Some (PInt (if bottleneck then 1 else 3)) ∧
    conv_kwargs conv_0 !! "stride" = Some (if bottleneck then PInt 1 else stride) ∧
    conv_kwargs conv_1 !! "output_channels" =
      Some (PInt (if bottleneck then channels / 4 else channels)) ∧
    conv_kwargs conv_1 !! "kernel_shape" = Some (PInt 3) ∧
    conv_kwargs conv_1 !! "stride" = Some (if bottleneck then stride else PInt 1).
Proof.
  unfold BlockV1_init. cbn [layers].
  eexists _, (if use_bn then _ else _), _, (if use_bn then _ else _).
  split; [by destruct use_bn |].
  destruct bottleneck; rewrite ?Z.div_1_r;
    repeat split; apply Conv2D_new_lookup.
Qed.

(** C5: whatever the arguments, and for both values of [resnet_v2], the
    blocks of a [BlockGroup] are those the [BlockV1] constructor builds,
    one per index, and the flag does not change the group; all blocks of
    a network that [ResNet.__init__] or [ResNet18.__init__] returns are
    [BlockV1] instances, and the networks they return for the two values
    of the flag have the same block groups. *)
Theorem residual_blocks_are_BlockV1 :
  (∀ (scope : path) (channels num_blocks : Z) (stride : pyval) (bn_config : dict)
     (resnet_v2 bottleneck use_projection use_bn : bool) (name : option string),
     blocks (BlockGroup_init scope channels num_blocks stride bn_config resnet_v2
               bottleneck use_projection use_bn name) =
     map (λ i : nat,
            BlockV1_init (scope ++ [module_name "block_group" name]) channels
              (if bool_decide (i ≠ 0%nat) then PInt 1 else stride)
              use_projection bn_config bottleneck use_bn (Some ("block_" +:+ pretty i)))
         (range num_blocks) ∧
     BlockGroup_init scope channels num_blocks stride bn_config resnet_v2
       bottleneck use_projection use_bn name =
     BlockGroup_init scope channels num_blocks stride bn_config (negb resnet_v2)
       bottleneck use_projection use_bn name) ∧
  (∀ (cls : string) (a : ResNet_args) (net : ResNet),
     ResNet_init cls a = Ok net →
     Forall (λ g, Forall is_BlockV1 (blocks g)) (block_groups net) ∧
     ∀ (v : bool) (net' : ResNet),
       ResNet_init cls (with_resnet_v2 v a) = Ok net' →
       block_groups net' = block_groups net) ∧
  (∀ (num_classes : Z) (use_bn : bool) (bn_config : option dict)
     (resnet_v1 resnet_v2 : bool) (logits_config : option dict) (name : option string)
     (initial_conv_config : option dict) (net : ResNet),
     ResNet18_init num_classes use_bn bn_config resnet_v1 resnet_v2 logits_config
       name initial_conv_config = Ok net →
     Forall (λ g, Forall is_BlockV1 (blocks g)) (block_groups net) ∧
     ∀ net' : ResNet,
       ResNet18_init num_classes use_bn bn_config resnet_v1 (negb resnet_v2)
         logits_config name initial_conv_config = Ok net' →
       block_groups net' = block_groups net).
Proof.
  split; [| split].
  - intros. split; [apply BlockGroup_init_blocks | reflexivity].
  - intros cls a net Hnet. split; [by eapply ResNet_init_is_BlockV1 |].
    intros v net' Hnet'.
    destruct (ResNet_init_resnet_v2 _ _ _ v Hnet) as (net'' & Hnet'' & Hg).
    congruence.
  - intros nc ubn bn v1 v2 lc name icc net Hnet. unfold ResNet18_init in *.
    split; [by eapply ResNet_init_is_BlockV1 |].
    intros net' Hnet'.
    destruct (ResNet_init_resnet_v2 _ _ _ (negb v2) Hnet) as (net'' & Hnet'' & Hg).
    change (with_resnet_v2 (negb v2) (ResNet18_args nc ubn bn v1 v2 lc name icc))
      with (ResNet18_args nc ubn bn v1 (negb v2) lc name icc) in Hnet''.
    congruence.
Qed.

Lemma residual_blocks_are_BlockV1_witness :
  let a := ResNet18_args 10 true None false true None None None in
  ∃ net,
    ResNet_init "res_net18" a = Ok net ∧
    Forall (λ g, Forall is_BlockV1 (blocks g)) (block_groups net) ∧
    ∀ (v : bool) (net' : ResNet),
      ResNet_init "res_net18" (with_resnet_v2 v a) = Ok net' →
      block_groups net' = block_groups net.
Proof.
  intros a. eexists. split; [reflexivity |].
  apply (proj1 (proj2 residual_blocks_are_BlockV1) "res_net18" a _ eq_refl).
Defined.

Lemma ResNet_group_length (cls : string) (a : ResNet_args) (i : nat) (c n s : Z)
    (p : bool) :
  length (blocks (ResNet_group cls a i c n s p)) = Z.to_nat n.
Proof.
  unfold ResNet_group. rewrite BlockGroup_init_blocks, length_map.
  unfold range. apply length_seq.
Qed.

Lemma ResNet_group_lookup (cls : string) (a : ResNet_args) (i : nat) (c n s : Z)
    (p : bool) (j : nat) :
  (j < Z.to_nat n)%nat →
  blocks (ResNet_group cls a i c n s p) !! j =
  Some (BlockV1_init (group_path (ResNet_group cls a i c n s p)) c
          (if decide (j = 0%nat) then PInt s else PInt 1)
          p (ResNet_bn_config (a_bn_config a)) (a_bottleneck a) (a_use_bn a)
          (Some ("block_" +:+ pretty j))).
Proof.
  intros Hj. unfold ResNet_group. rewrite BlockGroup_init_lookup by done.
  cbn [group_path BlockGroup_init]. by destruct j.
Qed.

(** C7: a network that [ResNet.__init__] returns, which it does only
    for [blocks_per_group] and [channels_per_group] of length 4, has
    exactly four block groups; group [i] is built from
    [channels_per_group[i]], [blocks_per_group[i]] and the stride
    [(1, 2, 2, 2)[i]], and holds [blocks_per_group[i]] blocks of that many
    channels, of which block 0 gets the stride of the group and every
    later block stride 1. *)
Theorem ResNet_init_block_groups (cls : string) (a : ResNet_args) (net : ResNet) :
  ResNet_init cls a = Ok net →
  length (blocks_per_group a) = 4%nat ∧
  length (channels_per_group a) = 4%nat ∧
  length (block_groups net) = 4%nat ∧
  ∀ (i : nat) (g : BlockGroup),
    block_groups net !! i = Some g →
    ∃ (n c s : Z) (p : bool),
      blocks_per_group a !! i = Some n ∧
      channels_per_group a !! i = Some c ∧
      [1; 2; 2; 2] !! i = Some s ∧
      a_use_projection a !! i = Some p ∧
      g = BlockGroup_init (net_path net) c n (PInt s)
            (ResNet_bn_config (a_bn_config a)) (a_resnet_v2 a) (a_bottleneck a) p
            (a_use_bn a) (Some ("block_group_" +:+ pretty i)) ∧
      length (blocks g) = Z.to_nat n ∧
      ∀ j : nat,
        (j < Z.to_nat n)%nat →
        blocks g !! j =
        Some (BlockV1_init (group_path g) c
                (if decide (j = 0%nat) then PInt s else PInt 1)
                p (ResNet_bn_config (a_bn_config a)) (a_bottleneck a) (a_use_bn a)
                (Some ("block_" +:+ pretty j))).
Proof.
  intros Hnet. destruct (ResNet_init_inv _ _ _ Hnet) as (Hn4 & Hc4 & Hp4 & Hname).
  split; [exact Hn4 |]. split; [exact Hc4 |].
  apply length_4_inv in Hn4 as (n0 & n1 & n2 & n3 & Hn).
  apply length_4_inv in Hc4 as (c0 & c1 & c2 & c3 & Hc).
  apply length_ge_4_inv in Hp4 as (p0 & p1 & p2 & p3 & ps & Hp).
  destruct (ResNet_init_Ok cls a _ _ _ _ _ _ _ _ _ _ _ _ _ Hn Hc Hp Hname)
    as (net0 & Hnet0 & Hpath & _ & _ & _ & Hg & _).
  assert (net0 = net) as -> by congruence.
  rewrite Hg, Hn, Hc, Hp, Hpath.
  split; [reflexivity |].
  intros i g Hi.
  destruct i as [|[|[|[|i]]]]; cbn in Hi; try discriminate; injection Hi as <-.
  - exists n0, c0, 1, p0. split_and!; try reflexivity.
    + apply ResNet_group_length.
    + apply ResNet_group_lookup.
  - exists n1, c1, 2, p1. split_and!; try reflexivity.
    + apply ResNet_group_length.
    + apply ResNet_group_lookup.
  - exists n2, c2, 2, p2. split_and!; try reflexivity.
    + apply ResNet_group_length.
    + apply ResNet_group_lookup.
  - exists n3, c3, 2, p3. split_and!; try reflexivity.
    + apply ResNet_group_length.
    + apply ResNet_group_lookup.
Qed.

Lemma ResNet_init_block_groups_witness :
  let a := ResNet18_args 10 true None false false None None None in
  ∃ net, ResNet_init "res_net18" a = Ok net ∧ length (block_groups net) = 4%nat.
Proof.
  intros a. eexists. split; [reflexivity |].
  apply (ResNet_init_block_groups "res_net18" a _ eq_refl).
Defined.

Lemma ResNet_init_raise_name (cls : string) (a : ResNet_args) (e : exn) :
  Module_init cls (a_name a) = Raise e → ResNet_init cls a = Raise e.
Proof. intros Hname. unfold ResNet_init. by rewrite Hname. Qed.

Lemma ResNet_init_raise_blocks (cls : string) (a : ResNet_args) (e : exn) :
  Module_init cls (a_name a) = Ok () →
  check_length 4 (blocks_per_group a) "blocks_per_group" = Raise e →
  ResNet_init cls a = Raise e.
Proof. intros Hname Hn. unfold ResNet_init. by rewrite Hname, Hn. Qed.

Lemma ResNet_init_raise_channels (cls : string) (a : ResNet_args) (e : exn) :
  Module_init cls (a_name a) = Ok () →
  check_length 4 (blocks_per_group a) "blocks_per_group" = Ok () →
  check_length 4 (channels_per_group a) "channels_per_group" = Raise e →
  ResNet_init cls a = Raise e.
Proof. intros Hname Hn Hc. unfold ResNet_init. by rewrite Hname, Hn, Hc. Qed.

(** The outcome of [ResNet.__init__], by the first step that fails. *)
Lemma ResNet_init_outcome (cls : string) (a : ResNet_args) :
  (Module_init cls (a_name a) ≠ Ok () ∧
   ResNet_init cls a =
     Raise (ValueError ("'" +:+ module_name cls (a_name a) +:+
              "' is not a valid module name (must be a valid Python identifier)"))) ∨
  (Module_init cls (a_name a) = Ok () ∧ length (blocks_per_group a) ≠ 4%nat ∧
   ResNet_init cls a =
     Raise (ValueError ("`blocks_per_group` must be of length 4 not "
                          +:+ pretty (length (blocks_per_group a))))) ∨
  (Module_init cls (a_name a) = Ok () ∧ length (blocks_per_group a) = 4%nat ∧
   length (channels_per_group a) ≠ 4%nat ∧
   ResNet_init cls a =
     Raise (ValueError ("`channels_per_group` must be of length 4 not "
                          +:+ pretty (length (channels_per_group a))))) ∨
  (Module_init cls (a_name a) = Ok () ∧ length (blocks_per_group a) = 4%nat ∧
   length (channels_per_group a) = 4%nat ∧
   ((∃ net, ResNet_init cls a = Ok net) ∨
    ResNet_init cls a = Raise (IndexError (use_projection_error a)))).
Proof.
  destruct (Module_init cls (a_name a)) as [[]|e] eqn:Hname.
  - right. destruct (check_length 4 (blocks_per_group a) "blocks_per_group")
      as [[]|e] eqn:Hn.
    + right. apply check_length_Ok in Hn as Hn4.
      destruct (check_length 4 (channels_per_group a) "channels_per_group")
        as [[]|e] eqn:Hc.
      * right. apply check_length_Ok in Hc as Hc4.
        split; [done |]. split; [lia |]. split; [lia |].
        destruct (ResNet_init_cases cls a Hname ltac:(lia) ltac:(lia))
          as [(net & Hnet & _) | [Hidx _]]; eauto.
      * left. apply check_length_Raise in Hc as Hc'. destruct Hc' as [Hc4 ->].
        split; [done |]. split; [lia |]. split; [lia |].
        by apply ResNet_init_raise_channels.
    + left. apply check_length_Raise in Hn as Hn'. destruct Hn' as [Hn4 ->].
      split; [done |]. split; [lia |]. by apply ResNet_init_raise_blocks.
  - left. apply Module_init_Raise in Hname as Hname'. destruct Hname' as [_ ->].
    split; [done |]. by apply ResNet_init_raise_name.
Qed.

(** C8, as the code has it: [ResNet.__init__] raises the [ValueError]
    of [check_length] for [blocks_per_group] exactly when the name of the
    module is accepted and [blocks_per_group] is not of length 4, and the
    one for [channels_per_group] exactly when, besides,
    [blocks_per_group] is of length 4 and [channels_per_group] is not; a
    sequence of length 4 passes its check, and the constructor returns
    only when both are of length 4.  These are not its only
    [ValueError]s. *)
Theorem ResNet_init_check_length (cls : string) (a : ResNet_args) :
  (ResNet_init cls a =
     Raise (ValueError ("`blocks_per_group` must be of length 4 not "
                          +:+ pretty (length (blocks_per_group a)))) ↔
   Module_init cls (a_name a) = Ok () ∧ length (blocks_per_group a) ≠ 4%nat) ∧
  (ResNet_init cls a =
     Raise (ValueError ("`channels_per_group` must be of length 4 not "
                          +:+ pretty (length (channels_per_group a)))) ↔
   Module_init cls (a_name a) = Ok () ∧ length (blocks_per_group a) = 4%nat ∧
   length (channels_per_group a) ≠ 4%nat) ∧
  (check_length 4 (blocks_per_group a) "blocks_per_group" = Ok () ↔
   length (blocks_per_group a) = 4%nat) ∧
  (check_length 4 (channels_per_group a) "channels_per_group" = Ok () ↔
   length (channels_per_group a) = 4%nat) ∧
  (∀ net, ResNet_init cls a = Ok net →
          length (blocks_per_group a) = 4%nat ∧ length (channels_per_group a) = 4%nat).
Proof.
  split_and!.
  - split.
    + intros Hraise.
      destruct (ResNet_init_outcome cls a)
        as [[_ H] | [(Hname & Hn & _) | [(_ & _ & _ & H) | (_ & _ & _ & [[net H] | H])]]];
        [| done | | |]; rewrite H in Hraise; discriminate Hraise.
    + intros [Hname Hn].
      destruct (ResNet_init_outcome cls a)
        as [[Hbad _] | [(_ & _ & H) | [(_ & ? & _) | (_ & ? & _)]]]; done.
  - split.
    + intros Hraise.
      destruct (ResNet_init_outcome cls a)
        as [[_ H] | [(_ & _ & H) | [(Hname & Hn & Hc & _) | (_ & _ & _ & [[net H] | H])]]];
        [| | done | |]; rewrite H in Hraise; discriminate Hraise.
    + intros (Hname & Hn & Hc).
      destruct (ResNet_init_outcome cls a)
        as [[Hbad _] | [(_ & ? & _) | [(_ & _ & _ & H) | (_ & _ & ? & _)]]]; done.
  - rewrite check_length_Ok. lia.
  - rewrite check_length_Ok. lia.
  - intros net Hnet. by destruct (ResNet_init_inv _ _ _ Hnet) as (? & ? & _).
Qed.

Lemma ResNet_init_check_length_witness :
  let a := with_use_projection [true; true; true; true]
             (ResNet18_args 10 true None false false None None None) in
  ∃ net, ResNet_init "res_net" a = Ok net ∧
         length (blocks_per_group a) = 4%nat ∧ length (channels_per_group a) = 4%nat.
Proof.
  intros a. eexists. split; [reflexivity |].
  apply (proj2 (proj2 (proj2 (proj2 (ResNet_init_check_length "res_net" a)))) _ eq_refl).
Defined.

(** C8, as the claim has it, fails: with both sequences of length 4 the
    constructor raises a [ValueError] for a name that is no identifier. *)
Lemma ResNet_init_ValueError_counterexample :
  let a := ResNet18_args 10 true None false false None (Some "bad name") None in
  length (blocks_per_group a) = 4%nat ∧
  length (channels_per_group a) = 4%nat ∧
  (∃ msg, ResNet_init "res_net18" a = Raise (ValueError msg)) ∧
  ¬ ((∃ msg, ResNet_init "res_net18" a = Raise (ValueError msg)) ↔
     length (blocks_per_group a) ≠ 4%nat ∨ length (channels_per_group a) ≠ 4%nat).
Proof.
  intros a. split; [reflexivity |]. split; [reflexivity |].
  split; [eexists; reflexivity |].
  intros [Himp _]. destruct Himp as [H | H]; [eexists; reflexivity | |]; by apply H.
Qed.

(** *** The forward pass *)

(** Case analysis on the outcome of every framework call of two runs. *)
Ltac run_cases :=
  unfold mbind, M_bind, mret, M_ret; cbn beta iota;
  repeat match goal with
         | |- context [match ?c ?s with Ok _ => _ | Raise _ => _ end] =>
             destruct (c s) as [[? ?]|?]; cbn beta iota
         end;
  try reflexivity.

Section Generic.
Context {T St : Type} `{Haiku T St}.

Lemma BlockV1_call_spec (scope : path) (channels : Z) (stride : pyval)
    (use_projection : bool) (bn_config : dict) (bottleneck use_bn : bool)
    (name : option string) :
  let self := scope ++ [module_name "block_v1" name] in
  let block :=
    BlockV1_init scope channels stride use_projection bn_config bottleneck use_bn name in
  ∃ proj conv_0 conv_1 proj_bn bn_0 bn_1,
    proj_conv block = (if use_projection then Some proj else None) ∧
    proj_batchnorm block = (if use_projection && use_bn then Some proj_bn else None) ∧
    layers block = [ (conv_0, if use_bn then Some bn_0 else None);
                     (conv_1, if use_bn then Some bn_1 else None) ] ∧
    proj = Conv2D_new self channels (PInt 1) stride false "SAME" "shortcut_conv" ∧
    bn_name proj_bn = "shortcut_batchnorm" ∧
    conv_kwargs conv_0 !! "name" = Some (PStr "conv_0") ∧
    bn_name bn_0 = "batchnorm_0" ∧
    conv_kwargs conv_1 !! "name" = Some (PStr "conv_1") ∧
    bn_name bn_1 = "batchnorm_1" ∧
    ∀ (inputs : T) (is_training test_local_stats : bool) (s : St),
      BlockV1_call block inputs is_training test_local_stats s =
      BlockV1_spec use_projection use_bn proj conv_0 conv_1 proj_bn bn_0 bn_1
        inputs is_training test_local_stats s.
Proof.
  intros self block. subst block. unfold BlockV1_init. fold self.
  eexists _, _, _,
    {| bn_scope := self; bn_name := "shortcut_batchnorm";
       bn_kwargs := BlockV1_bn_config bn_config |},
    {| bn_scope := self; bn_name := "batchnorm_0";
       bn_kwargs := BlockV1_bn_config bn_config |},
    {| bn_scope := self; bn_name := "batchnorm_1";
       bn_kwargs := BlockV1_bn_config bn_config |}.
  cbn [proj_conv proj_batchnorm layers bn_name].
  split; [reflexivity |].
  split; [by destruct use_projection, use_bn |].
  split; [by destruct use_bn |].
  split; [reflexivity |]. split; [reflexivity |].
  split; [reflexivity |]. split; [reflexivity |].
  split; [reflexivity |]. split; [reflexivity |].
  intros inputs is_training test_local_stats s.
  unfold BlockV1_call, BlockV1_spec, conv_bn, getattr, enumerate.
  destruct use_projection, use_bn;
    cbn [proj_conv proj_batchnorm layers Resnet.use_projection Resnet.use_bn
         length seq zip zip_with for_each];
    change (Z.of_nat 0 <? Z.of_nat 2 - 1) with true;
    change (Z.of_nat 1 <? Z.of_nat 2 - 1) with false;
    run_cases.
Qed.

(** C4: for a constructed network, [ResNet.__call__] is, in this
    order, the initial convolution, the [3x3] max-pool of stride 2 with
    SAME padding if and only if [resnet_v1], the four block groups in
    index order, the mean over axes 1 and 2, and the logits layer of
    [num_classes] outputs, whose result it returns. *)
Theorem ResNet_call_sequence (cls : string) (a : ResNet_args) (net : ResNet) :
  ResNet_init cls a = Ok net →
  ∃ g0 g1 g2 g3,
    block_groups net = [g0; g1; g2; g3] ∧
    lin_output_size (logits net) = num_classes a ∧
    ∀ (inputs : T) (is_training test_local_stats : bool) (s : St),
      ResNet_call net inputs is_training test_local_stats s =
      ResNet_spec (a_resnet_v1 a) (initial_conv net) g0 g1 g2 g3 (logits net)
        inputs is_training test_local_stats s.
Proof.
  intros Hnet. destruct (ResNet_init_inv _ _ _ Hnet) as (Hn & Hc & Hp & Hname).
  apply length_4_inv in Hn as (n0 & n1 & n2 & n3 & Hn).
  apply length_4_inv in Hc as (c0 & c1 & c2 & c3 & Hc).
  apply length_ge_4_inv in Hp as (p0 & p1 & p2 & p3 & ps & Hp).
  destruct (ResNet_init_Ok cls a _ _ _ _ _ _ _ _ _ _ _ _ _ Hn Hc Hp Hname)
    as (net0 & Hnet0 & _ & Hv1 & _ & _ & Hg & Hl).
  assert (net0 = net) as -> by congruence.
  eexists _, _, _, _. split; [exact Hg |]. split; [by rewrite Hl |].
  intros inputs is_training test_local_stats s.
  unfold ResNet_call, ResNet_spec. rewrite Hg, Hv1. cbn [for_each].
  destruct (a_resnet_v1 a); run_cases.
Qed.

End Generic.

(** *** The operations a block performs *)

Lemma BlockV1_call_no_batchnorm (scope : path) (channels : Z) (stride : pyval)
    (use_projection : bool) (bn_config : dict) (bottleneck : bool)
    (name : option string) (x : term) (is_training test_local_stats : bool)
    (log : list term) :
  ∃ r ops,
    BlockV1_call
      (BlockV1_init scope channels stride use_projection bn_config bottleneck false name)
      x is_training test_local_stats log = Ok (r, log ++ ops) ∧
    forallb (λ t, negb (is_batchnorm t)) ops = true.
Proof.
  destruct (BlockV1_call_spec (T := term) (St := list term) scope channels stride
              use_projection bn_config bottleneck false name)
    as (proj & conv_0 & conv_1 & proj_bn & bn_0 & bn_1 & _ & _ & _ & _ & _ & _ & _ & _ & _
        & Hcall).
  rewrite Hcall. unfold BlockV1_spec, conv_bn.
  destruct use_projection;
    cbn [hk_Conv2D jax_nn_relu jnp_add Haiku_terms];
    unfold emit, mbind, M_bind, mret, M_ret; cbn beta iota;
    rewrite <- !app_assoc; eexists _, _; (split; [reflexivity |]); reflexivity.
Qed.

(** *** Main results on the forward pass *)

Lemma ResNet_call_sequence_witness :
  let a := ResNet18_args 10 true None true false None None None in
  ∃ net,
    ResNet_init "res_net18" a = Ok net ∧
    ∃ g0 g1 g2 g3,
      block_groups net = [g0; g1; g2; g3] ∧
      lin_output_size (logits net) = 10 ∧
      ∀ (inputs : term) (is_training test_local_stats : bool) (s : list term),
        ResNet_call net inputs is_training test_local_stats s =
        ResNet_spec true (initial_conv net) g0 g1 g2 g3 (logits net)
          inputs is_training test_local_stats s.
Proof.
  intros a. eexists. split; [reflexivity |].
  apply (ResNet_call_sequence (T := term) (St := list term) "res_net18" a _ eq_refl).
Defined.

(** C3: [BlockV1.__call__] returns [relu(out + shortcut)]: [out] is
    the input taken through the two (convolution, batch normalisation)
    pairs in order, with a relu after the first and none after the last;
    the batch normalisation of a pair is applied if and only if [use_bn];
    [shortcut] is the input or, with [use_projection], its projection
    convolution, batch-normalised if and only if [use_bn].  Without
    [use_bn] the block performs no batch normalisation at all and
    [ResNet.__init__] constructs no initial batch normalisation. *)
Theorem BlockV1_call_residual :
  (∀ (T St : Type) (F : Haiku T St) (scope : path) (channels : Z) (stride : pyval)
     (use_projection : bool) (bn_config : dict) (bottleneck use_bn : bool)
     (name : option string),
     let self := scope ++ [module_name "block_v1" name] in
     let block :=
       BlockV1_init scope channels stride use_projection bn_config bottleneck use_bn name in
     ∃ proj conv_0 conv_1 proj_bn bn_0 bn_1,
       proj_conv block = (if use_projection then Some proj else None) ∧
       proj_batchnorm block = (if use_projection && use_bn then Some proj_bn else None) ∧
       layers block = [ (conv_0, if use_bn then Some bn_0 else None);
                        (conv_1, if use_bn then Some bn_1 else None) ] ∧
       proj = Conv2D_new self channels (PInt 1) stride false "SAME" "shortcut_conv" ∧
       bn_name proj_bn = "shortcut_batchnorm" ∧
       conv_kwargs conv_0 !! "name" = Some (PStr "conv_0") ∧
       bn_name bn_0 = "batchnorm_0" ∧
       conv_kwargs conv_1 !! "name" = Some (PStr "conv_1") ∧
       bn_name bn_1 = "batchnorm_1" ∧
       ∀ (inputs : T) (is_training test_local_stats : bool) (s : St),
         BlockV1_call block inputs is_training test_local_stats s =
         BlockV1_spec use_projection use_bn proj conv_0 conv_1 proj_bn bn_0 bn_1
           inputs is_training test_local_stats s) ∧
  (∀ (scope : path) (channels : Z) (stride : pyval) (use_projection : bool)
     (bn_config : dict) (bottleneck : bool) (name : option string) (x : term)
     (is_training test_local_stats : bool) (log : list term),
     ∃ r ops,
       BlockV1_call
         (BlockV1_init scope channels stride use_projection bn_config bottleneck false name)
         x is_training test_local_stats log = Ok (r, log ++ ops) ∧
       forallb (λ t, negb (is_batchnorm t)) ops = true) ∧
  (∀ (cls : string) (a : ResNet_args) (net : ResNet),
     a_use_bn a = false → ResNet_init cls a = Ok net → initial_batchnorm net = None).
Proof.
  split_and!.
  - intros T St F. apply BlockV1_call_spec.
  - apply BlockV1_call_no_batchnorm.
  - intros cls a net Hbn Hnet. destruct (ResNet_init_inv _ _ _ Hnet) as (Hn & Hc & Hp & Hname).
    apply length_4_inv in Hn as (n0 & n1 & n2 & n3 & Hn).
    apply length_4_inv in Hc as (c0 & c1 & c2 & c3 & Hc).
    apply length_ge_4_inv in Hp as (p0 & p1 & p2 & p3 & ps & Hp).
    destruct (ResNet_init_Ok cls a _ _ _ _ _ _ _ _ _ _ _ _ _ Hn Hc Hp Hname)
      as (net0 & Hnet0 & _ & _ & _ & Hib & _).
    assert (net0 = net) as -> by congruence.
    rewrite Hib, Hbn. by destruct (a_resnet_v2 a).
Qed.

Lemma BlockV1_call_residual_witness :
  let a := ResNet18_args 10 false None false false None None None in
  a_use_bn a = false ∧
  ∃ net, ResNet_init "res_net18" a = Ok net ∧ initial_batchnorm net = None.
Proof.
  intros a. split; [reflexivity |]. eexists. split; [reflexivity |].
  apply (proj2 (proj2 BlockV1_call_residual) "res_net18" a _ eq_refl eq_refl).
Defined.

End ResnetFacts.

(** ** Further properties of the ResNet constructors *)

Module ResnetConfig.
Import Resnet ResnetFacts.

Lemma setdefault_lookup (k : string) (v : pyval) (d : dict) :
  setdefault k v d !! k = Some (default v (d !! k)).
Proof.
  unfold setdefault. destruct (d !! k) as [x|] eqn:Hk; cbn.
  - exact Hk.
  - apply lookup_insert_eq.
Qed.

Lemma setdefault_lookup_ne (k k' : string) (v : pyval) (d : dict) :
  k ≠ k' → setdefault k v d !! k' = d !! k'.
Proof.
  intros Hne. unfold setdefault. destruct (d !! k); [done |].
  by apply lookup_insert_ne.
Qed.

Lemma setdefault_keeps (k k' : string) (v x : pyval) (d : dict) :
  d !! k' = Some x → setdefault k v d !! k' = Some x.
Proof.
  intros Hk'. destruct (decide (k = k')) as [->|Hne].
  - by rewrite setdefault_lookup, Hk'.
  - by rewrite setdefault_lookup_ne.
Qed.

Lemma setdefault_id (k : string) (v : pyval) (d : dict) :
  is_Some (d !! k) → setdefault k v d = d.
Proof. intros [x Hx]. unfold setdefault. by rewrite Hx. Qed.

(** Rewriting a lookup through a chain of [setdefault]s on literal keys. *)
Ltac setdefault_lookups :=
  repeat first
    [ rewrite setdefault_lookup
    | rewrite setdefault_lookup_ne by discriminate ].

(** X1: [ResNet.__init__] never overwrites an entry of the [bn_config] it
    is given; it only fills in [decay_rate = 0.9], [eps = 1e-5],
    [create_scale = True] and [create_offset = True] where they are
    missing, and adds no other key. *)
Theorem ResNet_bn_config_defaults (c : option dict) :
  (∀ (k : string) (v : pyval),
     dict_or_empty c !! k = Some v → ResNet_bn_config c !! k = Some v) ∧
  ResNet_bn_config c !! "decay_rate" =
    Some (default (PFloat (9 # 10)) (dict_or_empty c !! "decay_rate")) ∧
  ResNet_bn_config c !! "eps" =
    Some (default (PFloat (1 # 100000)) (dict_or_empty c !! "eps")) ∧
  ResNet_bn_config c !! "create_scale" =
    Some (default (PBool true) (dict_or_empty c !! "create_scale")) ∧
  ResNet_bn_config c !! "create_offset" =
    Some (default (PBool true) (dict_or_empty c !! "create_offset")) ∧
  (∀ k : string,
     k ∉ ["decay_rate"; "eps"; "create_scale"; "create_offset"] →
     ResNet_bn_config c !! k = dict_or_empty c !! k).
Proof.
  unfold ResNet_bn_config. split_and!.
  - intros k v Hk. by do 4 apply setdefault_keeps.
  - by setdefault_lookups.
  - by setdefault_lookups.
  - by setdefault_lookups.
  - by setdefault_lookups.
  - intros k Hk. rewrite !setdefault_lookup_ne; [done | | | |];
      intros <-; apply Hk; set_solver.
Qed.

Lemma ResNet_bn_config_defaults_witness :
  let c : option dict := Some {[ "decay_rate" := PFloat (1 # 2) ]} in
  dict_or_empty c !! "decay_rate" = Some (PFloat (1 # 2)) ∧
  ResNet_bn_config c !! "decay_rate" = Some (PFloat (1 # 2)).
Proof.
  intros c. split; [reflexivity |].
  apply (proj1 (ResNet_bn_config_defaults c) "decay_rate" (PFloat (1 # 2))).
  reflexivity.
Defined.

Lemma ResNet_bn_config_is_Some (c : option dict) (k : string) :
  k ∈ ["decay_rate"; "eps"; "create_scale"; "create_offset"] →
  is_Some (ResNet_bn_config c !! k).
Proof.
  intros Hk. unfold ResNet_bn_config.
  repeat (apply elem_of_cons in Hk as [-> | Hk]); [| | | | by apply elem_of_nil in Hk];
    setdefault_lookups; eauto.
Qed.

(** The defaults of [BlockV1.__init__] change nothing in a configuration
    that [ResNet.__init__] has completed. *)
Lemma BlockV1_bn_config_absorbed (c : option dict) :
  BlockV1_bn_config (ResNet_bn_config c) = ResNet_bn_config c.
Proof.
  unfold BlockV1_bn_config.
  rewrite (setdefault_id "create_scale") by (apply ResNet_bn_config_is_Some; set_solver).
  rewrite (setdefault_id "create_offset") by (apply ResNet_bn_config_is_Some; set_solver).
  rewrite (setdefault_id "decay_rate") by (apply ResNet_bn_config_is_Some; set_solver).
  reflexivity.
Qed.

(** The blocks of a constructed network: block [j] of group [i]. *)
Lemma ResNet_init_block_inv (cls : string) (a : ResNet_args) (net : ResNet)
    (g : BlockGroup) (b : BlockV1) :
  ResNet_init cls a = Ok net → g ∈ block_groups net → b ∈ blocks g →
  ∃ (i j : nat) (c n s : Z) (p : bool),
    block_groups net !! i = Some g ∧
    blocks g !! j = Some b ∧
    channels_per_group a !! i = Some c ∧
    blocks_per_group a !! i = Some n ∧
    strides !! i = Some s ∧
    a_use_projection a !! i = Some p ∧
    (j < Z.to_nat n)%nat ∧
    g = ResNet_group cls a i c n s p ∧
    b = BlockV1_init
          [module_name cls (a_name a);
           module_name "block_group" (Some ("block_group_" +:+ pretty i))]
          c (if bool_decide (j ≠ 0%nat) then PInt 1 else PInt s) p
          (ResNet_bn_config (a_bn_config a)) (a_bottleneck a) (a_use_bn a)
          (Some ("block_" +:+ pretty j)).
Proof.
  intros Hnet Hg Hb. destruct (ResNet_init_inv _ _ _ Hnet) as (Hn & Hc & Hp & Hname).
  apply length_4_inv in Hn as (n0 & n1 & n2 & n3 & Hn).
  apply length_4_inv in Hc as (c0 & c1 & c2 & c3 & Hc).
  apply length_ge_4_inv in Hp as (p0 & p1 & p2 & p3 & ps & Hp).
  destruct (ResNet_init_Ok cls a _ _ _ _ _ _ _ _ _ _ _ _ _ Hn Hc Hp Hname)
    as (net0 & Hnet0 & _ & _ & _ & _ & Hgs & _).
  assert (net0 = net) as -> by congruence.
  apply list_elem_of_lookup in Hg as [i Hi].
  apply list_elem_of_lookup in Hb as [j Hj].
  assert (∀ c n s p, g = ResNet_group cls a i c n s p →
            (j < Z.to_nat n)%nat ∧
            b = BlockV1_init
                  [module_name cls (a_name a);
                   module_name "block_group" (Some ("block_group_" +:+ pretty i))]
                  c (if bool_decide (j ≠ 0%nat) then PInt 1 else PInt s) p
                  (ResNet_bn_config (a_bn_config a)) (a_bottleneck a) (a_use_bn a)
                  (Some ("block_" +:+ pretty j))) as Hblock.
  { intros c n s p ->. unfold ResNet_group in Hj.
    rewrite BlockGroup_init_blocks, list_lookup_fmap in Hj. unfold range in Hj.
    destruct (seq 0 (Z.to_nat n) !! j) as [j'|] eqn:Hseq; [| discriminate].
    apply lookup_seq in Hseq as [-> Hlt]. cbn in Hj. injection Hj as <-.
    split; [lia | reflexivity]. }
  rewrite Hgs in Hi. rewrite Hn, Hc, Hp.
  destruct i as [|[|[|[|i]]]]; cbn in Hi; try discriminate; injection Hi as Hi;
    symmetry in Hi; destruct (Hblock _ _ _ _ Hi) as [Hlt Hb'].
  - exists 0%nat, j, c0, n0, 1, p0. rewrite Hgs. split_and!; try done. by rewrite Hi.
  - exists 1%nat, j, c1, n1, 2, p1. rewrite Hgs. split_and!; try done. by rewrite Hi.
  - exists 2%nat, j, c2, n2, 2, p2. rewrite Hgs. split_and!; try done. by rewrite Hi.
  - exists 3%nat, j, c3, n3, 2, p3. rewrite Hgs. split_and!; try done. by rewrite Hi.
Qed.

(** The batch-normalisation modules of a block. *)
Lemma BlockV1_init_batchnorms (scope : path) (channels : Z) (stride : pyval)
    (use_projection : bool) (bn_config : dict) (bottleneck use_bn : bool)
    (name : option string) (bn : BatchNorm) :
  let b := BlockV1_init scope channels stride use_projection bn_config bottleneck
             use_bn name in
  proj_batchnorm b = Some bn ∨ bn ∈ omap snd (layers b) →
  use_bn = true ∧
  bn_scope bn = block_path b ∧
  bn_name bn ∈ ["shortcut_batchnorm"; "batchnorm_0"; "batchnorm_1"] ∧
  bn_kwargs bn = BlockV1_bn_config bn_config.
Proof.
  intros b. subst b. unfold BlockV1_init. cbn [proj_batchnorm layers block_path].
  destruct use_projection, use_bn; cbn; intros [Hbn | Hbn];
    try discriminate; try (by apply elem_of_nil in Hbn).
  all: try (injection Hbn as <-; cbn; split_and!; try done; set_solver).
  all: repeat (apply elem_of_cons in Hbn as [-> | Hbn]);
    try (by apply elem_of_nil in Hbn); cbn; split_and!; try done; set_solver.
Qed.

(** X2: every batch normalisation of every block of a network built by
    [ResNet.__init__] gets exactly the configuration the network
    completed: the block's own defaults, among them [decay_rate = 0.999],
    never apply there, so the rate is the caller's or [0.9].  A block
    constructed on its own with no [decay_rate] gets [0.999]. *)
Theorem ResNet_block_batchnorm_config :
  (∀ (cls : string) (a : ResNet_args) (net : ResNet) (g : BlockGroup) (b : BlockV1)
     (bn : BatchNorm),
     ResNet_init cls a = Ok net → g ∈ block_groups net → b ∈ blocks g →
     proj_batchnorm b = Some bn ∨ bn ∈ omap snd (layers b) →
     bn_kwargs bn = ResNet_bn_config (a_bn_config a) ∧
     bn_kwargs bn !! "decay_rate" =
       Some (default (PFloat (9 # 10)) (dict_or_empty (a_bn_config a) !! "decay_rate"))) ∧
  (∀ c : dict,
     c !! "decay_rate" = None →
     BlockV1_bn_config c !! "decay_rate" = Some (PFloat (999 # 1000))).
Proof.
  split.
  - intros cls a net g b bn Hnet Hg Hb Hbn.
    destruct (ResNet_init_block_inv _ _ _ _ _ Hnet Hg Hb)
      as (i & j & c & n & s & p & _ & _ & _ & _ & _ & _ & _ & _ & ->).
    apply BlockV1_init_batchnorms in Hbn as (_ & _ & _ & ->).
    rewrite BlockV1_bn_config_absorbed. split; [done |].
    apply ResNet_bn_config_defaults.
  - intros c Hc. unfold BlockV1_bn_config. setdefault_lookups. by rewrite Hc.
Qed.

Lemma ResNet_block_batchnorm_config_witness :
  let a := ResNet18_args 10 true None false false None None None in
  ∃ net g b bn,
    ResNet_init "res_net18" a = Ok net ∧ g ∈ block_groups net ∧ b ∈ blocks g ∧
    (proj_batchnorm b = Some bn ∨ bn ∈ omap snd (layers b)) ∧
    bn_kwargs bn = ResNet_bn_config (a_bn_config a) ∧
    bn_kwargs bn !! "decay_rate" = Some (PFloat (9 # 10)).
Proof.
  intros a. eexists _, _, _, _.
  split; [reflexivity |].
  split; [cbn; constructor |].
  split; [cbn; constructor |].
  split; [left; reflexivity |].
  eapply (proj1 ResNet_block_batchnorm_config "res_net18" a).
  - reflexivity.
  - cbn. constructor.
  - cbn. constructor.
  - left. reflexivity.
Defined.

(** X3: the initial convolution of a network that [ResNet.__init__]
    returns is constructed with every entry of the [initial_conv_config]
    given; what is missing defaults to 64 output channels, no bias, SAME
    padding, the name [initial_conv], and a [7x7] kernel of stride 2 with
    [resnet_v1] or a [3x3] kernel of stride 1 without it. *)
Theorem ResNet_initial_conv_defaults (cls : string) (a : ResNet_args) (net : ResNet) :
  ResNet_init cls a = Ok net →
  let kw := conv_kwargs (initial_conv net) in
  let user := dict_or_empty (a_initial_conv_config a) in
  (∀ (k : string) (v : pyval), user !! k = Some v → kw !! k = Some v) ∧
  kw !! "output_channels" = Some (default (PInt 64) (user !! "output_channels")) ∧
  kw !! "kernel_shape" =
    Some (default (PInt (if a_resnet_v1 a then 7 else 3)) (user !! "kernel_shape")) ∧
  kw !! "stride" =
    Some (default (PInt (if a_resnet_v1 a then 2 else 1)) (user !! "stride")) ∧
  kw !! "with_bias" = Some (default (PBool false) (user !! "with_bias")) ∧
  kw !! "padding" = Some (default (PStr "SAME") (user !! "padding")) ∧
  kw !! "name" = Some (default (PStr "initial_conv") (user !! "name")).
Proof.
  intros Hnet kw user. destruct (ResNet_init_inv _ _ _ Hnet) as (Hn & Hc & Hp & Hname).
  apply length_4_inv in Hn as (n0 & n1 & n2 & n3 & Hn).
  apply length_4_inv in Hc as (c0 & c1 & c2 & c3 & Hc).
  apply length_ge_4_inv in Hp as (p0 & p1 & p2 & p3 & ps & Hp).
  destruct (ResNet_init_Ok cls a _ _ _ _ _ _ _ _ _ _ _ _ _ Hn Hc Hp Hname)
    as (net0 & Hnet0 & _ & _ & Hconv & _).
  assert (net0 = net) as -> by congruence.
  subst kw user. rewrite Hconv. cbn [conv_kwargs]. unfold ResNet_initial_conv_config.
  destruct (a_resnet_v1 a); split_and!; try (by setdefault_lookups).
  - intros k v Hk. by do 6 apply setdefault_keeps.
  - intros k v Hk. by do 6 apply setdefault_keeps.
Qed.

Lemma ResNet_initial_conv_defaults_witness :
  let a := ResNet18_args 10 true None true false None None
             (Some {[ "stride" := PInt 1 ]}) in
  ∃ net,
    ResNet_init "res_net18" a = Ok net ∧
    conv_kwargs (initial_conv net) !! "stride" = Some (PInt 1) ∧
    conv_kwargs (initial_conv net) !! "kernel_shape" = Some (PInt 7).
Proof.
  intros a. eexists. split; [reflexivity |].
  destruct (ResNet_initial_conv_defaults "res_net18" a _ eq_refl)
    as (_ & _ & Hk & Hs & _).
  split; [exact Hs | exact Hk].
Defined.

(** X4: once the name of the module is accepted, the length of
    [blocks_per_group] is checked first: when it is not 4 the
    [ValueError] names [blocks_per_group] and its length, whatever
    [channels_per_group] is; the error names [channels_per_group] only
    when [blocks_per_group] has passed. *)
Theorem ResNet_init_length_errors (cls : string) (a : ResNet_args) :
  Module_init cls (a_name a) = Ok () →
  (length (blocks_per_group a) ≠ 4%nat →
   ResNet_init cls a =
   Raise (ValueError ("`blocks_per_group` must be of length 4 not "
                        +:+ pretty (length (blocks_per_group a))))) ∧
  (length (blocks_per_group a) = 4%nat → length (channels_per_group a) ≠ 4%nat →
   ResNet_init cls a =
   Raise (ValueError ("`channels_per_group` must be of length 4 not "
                        +:+ pretty (length (channels_per_group a))))).
Proof.
  intros Hname. split.
  - intros Hn. apply ResNet_init_raise_blocks; [done |].
    destruct (check_length 4 (blocks_per_group a) _) as [[]|e] eqn:Hchk.
    + apply check_length_Ok in Hchk. lia.
    + by apply check_length_Raise in Hchk as [_ ->].
  - intros Hn Hc. apply ResNet_init_raise_channels; [done | |].
    + apply check_length_Ok. lia.
    + destruct (check_length 4 (channels_per_group a) _) as [[]|e] eqn:Hchk.
      * apply check_length_Ok in Hchk. lia.
      * by apply check_length_Raise in Hchk as [_ ->].
Qed.

Lemma ResNet_init_length_errors_witness :
  let a := {| blocks_per_group := [3; 4; 6]; num_classes := 10; a_use_bn := true;
              a_resnet_v1 := false; a_bn_config := None; a_resnet_v2 := false;
              a_bottleneck := true; channels_per_group := [];
              a_use_projection := []; a_logits_config := None; a_name := None;
              a_initial_conv_config := None;
              blocks_per_group_error := list_index_error;
              channels_per_group_error := list_index_error;
              use_projection_error := list_index_error |} in
  Module_init "res_net" (a_name a) = Ok () ∧
  length (blocks_per_group a) ≠ 4%nat ∧
  ResNet_init "res_net" a =
  Raise (ValueError "`blocks_per_group` must be of length 4 not 3").
Proof.
  intros a. split; [reflexivity |]. split; [cbn; lia |].
  apply (proj1 (ResNet_init_length_errors "res_net" a eq_refl)). cbn. lia.
Defined.

(** X5: [use_projection] has no length check.  With fewer than four
    entries the constructor never returns; with an accepted name, the two
    other sequences of length 4 and the default configurations of the
    layers it fails with the [IndexError] of the sequence, where it
    indexes it.  Entries past the fourth are never read. *)
Theorem ResNet_init_use_projection (cls : string) (a : ResNet_args) :
  ((length (a_use_projection a) < 4)%nat → ∀ net, ResNet_init cls a ≠ Ok net) ∧
  (Module_init cls (a_name a) = Ok () →
   length (blocks_per_group a) = 4%nat → length (channels_per_group a) = 4%nat →
   a_bn_config a = None → a_initial_conv_config a = None →
   (length (a_use_projection a) < 4)%nat →
   ResNet_init cls a = Raise (IndexError (use_projection_error a))) ∧
  (∀ net, ResNet_init cls a = Ok net →
          ResNet_init cls (with_use_projection (take 4 (a_use_projection a)) a) = Ok net).
Proof.
  split_and!.
  - intros Hp net Hnet. destruct (ResNet_init_inv _ _ _ Hnet) as (_ & _ & Hge & _). lia.
  - intros Hname Hn Hc _ _ Hp.
    destruct (ResNet_init_cases cls a Hname Hn Hc) as [(net & _ & Hge) | [Hidx _]];
      [lia | exact Hidx].
  - intros net Hnet. destruct (ResNet_init_inv _ _ _ Hnet) as (Hn & Hc & Hp & Hname).
    apply length_4_inv in Hn as (n0 & n1 & n2 & n3 & Hn).
    apply length_4_inv in Hc as (c0 & c1 & c2 & c3 & Hc).
    apply length_ge_4_inv in Hp as (p0 & p1 & p2 & p3 & ps & Hp).
    revert Hnet. unfold ResNet_init, with_use_projection.
    cbn [blocks_per_group channels_per_group a_use_projection a_name a_bn_config
         a_logits_config a_resnet_v1 a_initial_conv_config a_resnet_v2 a_use_bn
         a_bottleneck num_classes blocks_per_group_error channels_per_group_error
         use_projection_error].
    rewrite Hname, Hn, Hc, Hp. intros <-. reflexivity.
Qed.

Lemma ResNet_init_use_projection_witness :
  let a := with_use_projection [true]
             (ResNet18_args 10 true None false false None None None) in
  Module_init "res_net" (a_name a) = Ok () ∧
  length (blocks_per_group a) = 4%nat ∧ length (channels_per_group a) = 4%nat ∧
  a_bn_config a = None ∧ a_initial_conv_config a = None ∧
  (length (a_use_projection a) < 4)%nat ∧
  ResNet_init "res_net" a = Raise (IndexError "tuple index out of range").
Proof.
  intros a. repeat (split; [first [reflexivity | cbn; lia] |]).
  apply (proj1 (proj2 (ResNet_init_use_projection "res_net" a))
           eq_refl eq_refl eq_refl eq_refl eq_refl).
  cbn. lia.
Defined.

(** X6: a network that [ResNet18.__init__] returns has four groups of
    two blocks each, without bottleneck, of 64, 128, 256 and 512 channels;
    every block has a projection shortcut except, with [resnet_v1], the
    two blocks of the first group. *)
Theorem ResNet18_init_structure (num_classes : Z) (use_bn : bool)
    (bn_config : option dict) (resnet_v1 resnet_v2 : bool) (logits_config : option dict)
    (name : option string) (initial_conv_config : option dict) (net : ResNet) :
  ResNet18_init num_classes use_bn bn_config resnet_v1 resnet_v2 logits_config name
    initial_conv_config = Ok net →
  length (block_groups net) = 4%nat ∧
  ∀ (i : nat) (g : BlockGroup),
    block_groups net !! i = Some g →
    ∃ (c : Z) (b0 b1 : BlockV1),
      [64; 128; 256; 512] !! i = Some c ∧
      blocks g = [b0; b1] ∧
      Forall (λ b, use_projection b = negb (resnet_v1 && bool_decide (i = 0%nat)) ∧
                   Resnet.use_bn b = use_bn ∧
                   ∃ conv_0 bn_0 conv_1 bn_1,
                     layers b = [(conv_0, bn_0); (conv_1, bn_1)] ∧
                     conv_kwargs conv_0 !! "output_channels" = Some (PInt c) ∧
                     conv_kwargs conv_0 !! "kernel_shape" = Some (PInt 3) ∧
                     conv_kwargs conv_1 !! "output_channels" = Some (PInt c) ∧
                     conv_kwargs conv_1 !! "kernel_shape" = Some (PInt 3))
             [b0; b1].
Proof.
  unfold ResNet18_init.
  set (a := ResNet18_args num_classes use_bn bn_config resnet_v1 resnet_v2 logits_config
              name initial_conv_config).
  intros Hnet. destruct (ResNet_init_inv _ _ _ Hnet) as (_ & _ & _ & Hname).
  destruct (ResNet_init_Ok "res_net18" a 2 2 2 2 64 128 256 512
              (negb resnet_v1) true true true [] eq_refl eq_refl)
    as (net0 & Hnet0 & _ & _ & _ & _ & Hgs & _).
  { subst a. cbn. by destruct resnet_v1. }
  { exact Hname. }
  assert (net0 = net) as -> by congruence.
  rewrite Hgs. split; [reflexivity |].
  intros i g Hi.
  destruct i as [|[|[|[|i]]]]; cbn in Hi; try discriminate; injection Hi as <-.
  all: eexists _, _, _; split; [reflexivity |].
  all: unfold ResNet_group; rewrite BlockGroup_init_blocks; split; [reflexivity |].
  all: cbn [a_bottleneck a ResNet18_args].
  all: repeat constructor; cbn [use_projection Resnet.use_bn BlockV1_init a_use_bn];
    try (by destruct resnet_v1).
  all: unfold BlockV1_init; cbn [layers];
    eexists _, (if use_bn then _ else _), _, (if use_bn then _ else _);
    (split; [by destruct use_bn |]); rewrite ?Z.div_1_r;
    split_and!; apply Conv2D_new_lookup.
Qed.

Lemma ResNet18_init_structure_witness :
  ∃ net g b0 b1,
    ResNet18_init 10 true None true false None None None = Ok net ∧
    block_groups net !! 0%nat = Some g ∧
    blocks g = [b0; b1] ∧
    use_projection b0 = false.
Proof.
  eexists _, _, _, _. split; [reflexivity |]. split; [reflexivity |].
  split; [reflexivity |].
  destruct (ResNet18_init_structure 10 true None true false None None None _ eq_refl)
    as (_ & Hgroups).
  destruct (Hgroups 0%nat _ eq_refl) as (c & b0 & b1 & _ & Hblocks & Hall).
  injection Hblocks as <- <-.
  apply Forall_cons in Hall as [(Hproj & _) _]. exact Hproj.
Defined.

(** X18: the logits layer of a constructed network has [num_classes]
    outputs and keeps every entry of the [logits_config] it is given;
    unless the caller says otherwise its weights are initialised with
    [jnp.zeros] and it is named [logits]. *)
Theorem ResNet_logits_defaults (cls : string) (a : ResNet_args) (net : ResNet) :
  ResNet_init cls a = Ok net →
  let user := dict_or_empty (a_logits_config a) in
  lin_output_size (logits net) = num_classes a ∧
  (∀ (k : string) (v : pyval),
     user !! k = Some v → lin_kwargs (logits net) !! k = Some v) ∧
  lin_kwargs (logits net) !! "w_init" =
    Some (default (PObj "jnp.zeros") (user !! "w_init")) ∧
  lin_kwargs (logits net) !! "name" = Some (default (PStr "logits") (user !! "name")) ∧
  (∀ k : string,
     k ≠ "w_init" → k ≠ "name" → lin_kwargs (logits net) !! k = user !! k).
Proof.
  intros Hnet user. destruct (ResNet_init_inv _ _ _ Hnet) as (Hn & Hc & Hp & Hname).
  apply length_4_inv in Hn as (n0 & n1 & n2 & n3 & Hn).
  apply length_4_inv in Hc as (c0 & c1 & c2 & c3 & Hc).
  apply length_ge_4_inv in Hp as (p0 & p1 & p2 & p3 & ps & Hp).
  destruct (ResNet_init_Ok cls a _ _ _ _ _ _ _ _ _ _ _ _ _ Hn Hc Hp Hname)
    as (net0 & Hnet0 & _ & _ & _ & _ & _ & Hl).
  assert (net0 = net) as -> by congruence.
  rewrite Hl. cbn [lin_output_size lin_kwargs]. unfold ResNet_logits_config.
  split_and!.
  - reflexivity.
  - intros k v Hk. by do 2 apply setdefault_keeps.
  - by setdefault_lookups.
  - by setdefault_lookups.
  - intros k Hw Hk. by rewrite !setdefault_lookup_ne.
Qed.

Lemma ResNet_logits_defaults_witness :
  let a := ResNet18_args 10 true None false false None None None in
  ∃ net,
    ResNet_init "res_net18" a = Ok net ∧
    lin_output_size (logits net) = 10 ∧
    lin_kwargs (logits net) !! "w_init" = Some (PObj "jnp.zeros").
Proof.
  intros a. eexists. split; [reflexivity |].
  destruct (ResNet_logits_defaults "res_net18" a _ eq_refl) as (Hout & _ & Hw & _).
  split; [exact Hout | exact Hw].
Defined.

End ResnetConfig.

(** ** Further properties of the ResNet forward pass *)

Module ResnetForward.
Import Resnet ResnetFacts ResnetConfig.

Lemma ops_batchnorms_app (ops1 ops2 : list term) :
  ops_batchnorms (ops1 ++ ops2) = ops_batchnorms ops1 ++ ops_batchnorms ops2.
Proof. apply omap_app. Qed.

(** On expressions a block always returns, and the batch normalisations
    it applies are modules of its own. *)
Lemma BlockV1_call_log (scope : path) (channels : Z) (stride : pyval)
    (use_projection : bool) (bn_config : dict) (bottleneck use_bn : bool)
    (name : option string) (x : term) (is_training test_local_stats : bool)
    (log : list term) :
  let b := BlockV1_init scope channels stride use_projection bn_config bottleneck
             use_bn name in
  ∃ r ops,
    BlockV1_call b x is_training test_local_stats log = Ok (r, log ++ ops) ∧
    Forall (λ bn, proj_batchnorm b = Some bn ∨ bn ∈ omap snd (layers b))
      (ops_batchnorms ops).
Proof.
  intros b. subst b.
  destruct (BlockV1_call_spec (T := term) (St := list term) scope channels stride
              use_projection bn_config bottleneck use_bn name)
    as (proj & conv_0 & conv_1 & proj_bn & bn_0 & bn_1 & _ & Hpb & Hl & _ & _ & _ & _ & _
        & _ & Hcall).
  rewrite Hcall, Hpb, Hl. unfold BlockV1_spec, conv_bn.
  destruct use_projection, use_bn;
    cbn [hk_Conv2D hk_BatchNorm jax_nn_relu jnp_add Haiku_terms];
    unfold emit, mbind, M_bind, mret, M_ret; cbn beta iota;
    rewrite <- !app_assoc; eexists _, _; (split; [reflexivity |]); cbn;
    repeat constructor; set_solver.
Qed.

(** A loop of steps that each return and extend the log keeps a property
    of the batch normalisations applied. *)
Lemma for_each_log {A} (l : list A) (body : A → term → M (list term) term)
    (Q : BatchNorm → Prop) :
  (∀ a, a ∈ l → ∀ x log, ∃ r ops,
      body a x log = Ok (r, log ++ ops) ∧ Forall Q (ops_batchnorms ops)) →
  ∀ x log, ∃ r ops,
    for_each l body x log = Ok (r, log ++ ops) ∧ Forall Q (ops_batchnorms ops).
Proof.
  induction l as [|a l IH]; intros Hbody x log.
  - exists x, []. split; [cbn; by rewrite app_nil_r | constructor].
  - destruct (Hbody a ltac:(left) x log) as (r1 & ops1 & Hr1 & HQ1).
    destruct (IH (λ a' Ha', Hbody a' ltac:(by right)) r1 (log ++ ops1))
      as (r & ops2 & Hr & HQ2).
    exists r, (ops1 ++ ops2). split.
    + cbn [for_each]. rewrite (bind_run _ _ _ _ _ Hr1), Hr. by rewrite app_assoc.
    + rewrite ops_batchnorms_app. by apply Forall_app.
Qed.

(** The batch normalisations a forward pass applies: none unless
    [use_bn], and only the three kinds a block owns. *)
Lemma ResNet_call_log (cls : string) (a : ResNet_args) (net : ResNet) (x : term)
    (is_training test_local_stats : bool) (log : list term) :
  ResNet_init cls a = Ok net →
  ∃ r ops,
    ResNet_call net x is_training test_local_stats log = Ok (r, log ++ ops) ∧
    Forall (λ bn, a_use_bn a = true ∧
                  bn_name bn ∈ ["shortcut_batchnorm"; "batchnorm_0"; "batchnorm_1"])
      (ops_batchnorms ops).
Proof.
  intros Hnet. unfold ResNet_call.
  set (Q := λ bn : BatchNorm,
              a_use_bn a = true ∧
              bn_name bn ∈ ["shortcut_batchnorm"; "batchnorm_0"; "batchnorm_1"]).
  assert (∀ x log, ∃ r ops,
            for_each (block_groups net)
              (λ g out, BlockGroup_call g out is_training test_local_stats) x log =
            Ok (r, log ++ ops) ∧ Forall Q (ops_batchnorms ops)) as Hgroups.
  { apply for_each_log. intros g Hg. unfold BlockGroup_call.
    apply for_each_log. intros b Hb x0 log0.
    destruct (ResNet_init_block_inv _ _ _ _ _ Hnet Hg Hb)
      as (i & j & c & n & s & p & _ & _ & _ & _ & _ & _ & _ & _ & ->).
    edestruct BlockV1_call_log as (r & ops & Hr & Hown).
    exists r, ops. split; [exact Hr |].
    eapply Forall_impl; [exact Hown |]. intros bn Hbn.
    apply BlockV1_init_batchnorms in Hbn as (Hubn & _ & Hname & _). by split. }
  cbn [hk_Conv2D hk_max_pool jnp_mean hk_Linear Haiku_terms].
  set (t0 := TConv2D (initial_conv net) x).
  set (t1 := TMaxPool t0 [1; 3; 3; 1] [1; 2; 2; 1] "SAME").
  destruct (resnet_v1 net).
  - destruct (Hgroups t1 ((log ++ [t0]) ++ [t1])) as (r & ops & Hr & HQ).
    eexists _, ([t0; t1] ++ ops ++ [TMean r [1; 2]; _]). split.
    + erewrite bind_run by reflexivity. erewrite bind_run by reflexivity.
      rewrite (bind_run _ _ _ _ _ Hr). unfold emit, mbind, M_bind. cbn beta iota.
      rewrite <- !app_assoc. reflexivity.
    + rewrite !ops_batchnorms_app. cbn. by rewrite app_nil_r.
  - destruct (Hgroups t0 (log ++ [t0])) as (r & ops & Hr & HQ).
    eexists _, ([t0] ++ ops ++ [TMean r [1; 2]; _]). split.
    + erewrite bind_run by reflexivity. erewrite bind_run by reflexivity.
      rewrite (bind_run _ _ _ _ _ Hr). unfold emit, mbind, M_bind. cbn beta iota.
      rewrite <- !app_assoc. reflexivity.
    + rewrite !ops_batchnorms_app. cbn. by rewrite app_nil_r.
Qed.

Lemma ResNet_init_initial_batchnorm (cls : string) (a : ResNet_args) (net : ResNet) :
  ResNet_init cls a = Ok net →
  initial_batchnorm net =
  (if negb (a_resnet_v2 a) && a_use_bn a then
     Some {| bn_scope := [module_name cls (a_name a)];
             bn_name := "initial_batchnorm";
             bn_kwargs := ResNet_bn_config (a_bn_config a) |}
   else None).
Proof.
  intros Hnet. destruct (ResNet_init_inv _ _ _ Hnet) as (Hn & Hc & Hp & Hname).
  apply length_4_inv in Hn as (n0 & n1 & n2 & n3 & Hn).
  apply length_4_inv in Hc as (c0 & c1 & c2 & c3 & Hc).
  apply length_ge_4_inv in Hp as (p0 & p1 & p2 & p3 & ps & Hp).
  destruct (ResNet_init_Ok cls a _ _ _ _ _ _ _ _ _ _ _ _ _ Hn Hc Hp Hname)
    as (net0 & Hnet0 & _ & _ & _ & Hib & _).
  assert (net0 = net) as -> by congruence. exact Hib.
Qed.

(** X7: [ResNet.__init__] constructs [initial_batchnorm] exactly when
    [resnet_v2] is false and [use_bn] is true, but [ResNet.__call__] never
    applies it: on expressions the forward pass always returns, and the
    module is not among the batch normalisations it has applied. *)
Theorem ResNet_call_never_initial_batchnorm (cls : string) (a : ResNet_args)
    (net : ResNet) (x : term) (is_training test_local_stats : bool) (log : list term) :
  ResNet_init cls a = Ok net →
  (is_Some (initial_batchnorm net) ↔ a_resnet_v2 a = false ∧ a_use_bn a = true) ∧
  ∃ r ops,
    ResNet_call net x is_training test_local_stats log = Ok (r, log ++ ops) ∧
    ∀ bn, initial_batchnorm net = Some bn → bn ∉ ops_batchnorms ops.
Proof.
  intros Hnet. pose proof (ResNet_init_initial_batchnorm _ _ _ Hnet) as Hib. split.
  - rewrite Hib. destruct (a_resnet_v2 a), (a_use_bn a); cbn; split;
      try (by intros [? [=]]); try (by intros [[=] [=]]); eauto.
  - destruct (ResNet_call_log cls a net x is_training test_local_stats log Hnet)
      as (r & ops & Hrun & Hall).
    exists r, ops. split; [exact Hrun |].
    intros bn Hbn Hin. rewrite Forall_forall in Hall.
    destruct (Hall bn Hin) as [_ Hname]. rewrite Hib in Hbn.
    destruct (negb (a_resnet_v2 a) && a_use_bn a); [| discriminate].
    injection Hbn as <-. cbn in Hname.
    repeat (apply elem_of_cons in Hname as [[=] | Hname]). by apply elem_of_nil in Hname.
Qed.

Lemma ResNet_call_never_initial_batchnorm_witness :
  let a := ResNet18_args 10 true None true false None None None in
  ∃ net,
    ResNet_init "res_net18" a = Ok net ∧
    is_Some (initial_batchnorm net) ∧
    ∃ r ops,
      ResNet_call net Input true false [] = Ok (r, [] ++ ops) ∧
      ∀ bn, initial_batchnorm net = Some bn → bn ∉ ops_batchnorms ops.
Proof.
  intros a. eexists. split; [reflexivity |].
  destruct (ResNet_call_never_initial_batchnorm "res_net18" a _ Input true false []
              eq_refl) as [Hsome Hrun].
  split; [| exact Hrun]. apply Hsome. split; reflexivity.
Defined.

(** X8: a network built with [use_bn = False] performs no batch
    normalisation anywhere in its forward pass, whatever the number of
    blocks. *)
Theorem ResNet_call_without_use_bn (cls : string) (a : ResNet_args) (net : ResNet)
    (x : term) (is_training test_local_stats : bool) (log : list term) :
  a_use_bn a = false → ResNet_init cls a = Ok net →
  ∃ r ops,
    ResNet_call net x is_training test_local_stats log = Ok (r, log ++ ops) ∧
    ops_batchnorms ops = [].
Proof.
  intros Hbn Hnet.
  destruct (ResNet_call_log cls a net x is_training test_local_stats log Hnet)
    as (r & ops & Hrun & Hall).
  exists r, ops. split; [exact Hrun |].
  destruct (ops_batchnorms ops) as [|bn bns]; [reflexivity |].
  apply Forall_cons in Hall as [[Htrue _] _]. congruence.
Qed.

Lemma ResNet_call_without_use_bn_witness :
  let a := ResNet18_args 10 false None false false None None None in
  a_use_bn a = false ∧
  ∃ net,
    ResNet_init "res_net18" a = Ok net ∧
    ∃ r ops, ResNet_call net Input true false [] = Ok (r, [] ++ ops) ∧
             ops_batchnorms ops = [].
Proof.
  intros a. split; [reflexivity |]. eexists. split; [reflexivity |].
  apply (ResNet_call_without_use_bn "res_net18" a _ Input true false [] eq_refl eq_refl).
Defined.

(** X9: a [BlockGroup] constructed with a block count that is not
    positive has no blocks, and calling it returns its input unchanged
    without any call into the framework. *)
Theorem BlockGroup_empty (T St : Type) (F : Haiku T St) (scope : path)
    (channels num_blocks : Z) (stride : pyval) (bn_config : dict)
    (resnet_v2 bottleneck use_projection use_bn : bool) (name : option string)
    (inputs : T) (is_training test_local_stats : bool) (s : St) :
  num_blocks ≤ 0 →
  let g := BlockGroup_init scope channels num_blocks stride bn_config resnet_v2
             bottleneck use_projection use_bn name in
  blocks g = [] ∧
  BlockGroup_call g inputs is_training test_local_stats s = Ok (inputs, s).
Proof.
  intros Hn g. assert (blocks g = []) as Hblocks.
  { subst g. rewrite BlockGroup_init_blocks. unfold range.
    replace (Z.to_nat num_blocks) with 0%nat by lia. reflexivity. }
  split; [exact Hblocks |]. unfold BlockGroup_call. rewrite Hblocks. reflexivity.
Qed.

Lemma BlockGroup_empty_witness :
  (-1) ≤ 0 ∧
  BlockGroup_call (BlockGroup_init [] 64 (-1) (PInt 2) ∅ false true true true None)
    Input true false [] = Ok (Input, []).
Proof.
  split; [lia |].
  apply (BlockGroup_empty term (list term) Haiku_terms [] 64 (-1) (PInt 2) ∅ false true
           true true None Input true false []). lia.
Defined.

Lemma block_name_inj (i j : nat) :
  "block_" +:+ pretty i = "block_" +:+ pretty j → i = j.
Proof. intros Heq. apply (inj (String.append "block_")) in Heq. by apply (inj pretty). Qed.

Lemma BlockV1_init_path (scope : path) (channels : Z) (stride : pyval)
    (use_projection : bool) (bn_config : dict) (bottleneck use_bn : bool) (name : string) :
  block_path (BlockV1_init scope channels stride use_projection bn_config bottleneck
                use_bn (Some name)) = scope ++ [name].
Proof. reflexivity. Qed.

(** X10: in a network built by [ResNet.__init__] no two blocks have the
    same module path: the blocks of a group differ in their name
    [block_j], and blocks of different groups in the name of their group. *)
Theorem ResNet_block_paths_distinct (cls : string) (a : ResNet_args) (net : ResNet)
    (g g' : BlockGroup) (i i' j j' : nat) (b b' : BlockV1) :
  ResNet_init cls a = Ok net →
  block_groups net !! i = Some g → blocks g !! j = Some b →
  block_groups net !! i' = Some g' → blocks g' !! j' = Some b' →
  block_path b = block_path b' → i = i' ∧ j = j'.
Proof.
  intros Hnet Hg Hb Hg' Hb' Hpath.
  destruct (ResNet_init_inv _ _ _ Hnet) as (Hn & Hc & Hp & Hname).
  apply length_4_inv in Hn as (n0 & n1 & n2 & n3 & Hn).
  apply length_4_inv in Hc as (c0 & c1 & c2 & c3 & Hc).
  apply length_ge_4_inv in Hp as (p0 & p1 & p2 & p3 & ps & Hp).
  destruct (ResNet_init_Ok cls a _ _ _ _ _ _ _ _ _ _ _ _ _ Hn Hc Hp Hname)
    as (net0 & Hnet0 & _ & _ & _ & _ & Hgs & _).
  assert (net0 = net) as -> by congruence.
  assert (∀ k c n s p h blk,
            blocks (ResNet_group cls a k c n s p) !! h = Some blk →
            block_path blk =
            [module_name cls (a_name a); "block_group_" +:+ pretty k;
             "block_" +:+ pretty h]) as Hblock.
  { intros k c n s p h blk Hh. unfold ResNet_group in Hh.
    rewrite BlockGroup_init_blocks, list_lookup_fmap in Hh. unfold range in Hh.
    destruct (seq 0 (Z.to_nat n) !! h) as [h'|] eqn:Hseq; [| discriminate].
    apply lookup_seq in Hseq as [-> _]. cbn in Hh. by injection Hh as <-. }
  rewrite Hgs in Hg, Hg'.
  destruct i as [|[|[|[|i]]]]; cbn in Hg; try discriminate; injection Hg as <-;
    destruct i' as [|[|[|[|i']]]]; cbn in Hg'; try discriminate; injection Hg' as <-;
    rewrite (Hblock _ _ _ _ _ _ _ Hb), (Hblock _ _ _ _ _ _ _ Hb') in Hpath;
    try discriminate Hpath;
    injection Hpath as Hblk; (split; [reflexivity |]);
    apply block_name_inj; cbn; by f_equal.
Qed.

Lemma ResNet_block_paths_distinct_witness :
  let a := ResNet18_args 10 true None false false None None None in
  ∃ net g b,
    ResNet_init "res_net18" a = Ok net ∧
    block_groups net !! 1%nat = Some g ∧ blocks g !! 1%nat = Some b ∧
    block_path b = block_path b ∧ 1%nat = 1%nat ∧ 1%nat = 1%nat.
Proof.
  intros a. eexists _, _, _. split; [reflexivity |].
  split; [reflexivity |]. split; [reflexivity |]. split; [reflexivity |].
  eapply (ResNet_block_paths_distinct "res_net18" a); reflexivity.
Defined.

End ResnetForward.

(** ** Shapes along the ResNet *)

Module ResnetShapes.
Import Resnet ResnetFacts ResnetConfig.

Lemma cdiv_1 (n : nat) : Mixer.cdiv n 1 = n.
Proof. unfold Mixer.cdiv. rewrite Nat.div_1_r. lia. Qed.

Lemma lift_Ok {A} (r : result A) (a : A) (st : unit) :
  r = Ok a → lift r st = Ok (a, st).
Proof. by intros ->. Qed.

Lemma lift_Raise {A} (r : result A) (e : exn) (st : unit) :
  r = Raise e → lift r st = Raise e.
Proof. by intros ->. Qed.

Lemma bind_raise {St A B} (c : M St A) (k : A → M St B) (s : St) (e : exn) :
  c s = Raise e → (c ≫= k) s = Raise e.
Proof. intros Hc. unfold mbind, M_bind. by rewrite Hc. Qed.

(** A convolution constructed with an int kernel and an int stride. *)
Lemma shp_Conv2D_new (scope : path) (oc k s : Z) (with_bias : bool) (name : string)
    (n h w cin : nat) :
  0 ≤ oc → 0 < k → 0 < s →
  shp_Conv2D (Conv2D_new scope oc (PInt k) (PInt s) with_bias "SAME" name) [n; h; w; cin] =
  Ok [n; Mixer.cdiv h (Z.to_nat s); Mixer.cdiv w (Z.to_nat s); Z.to_nat oc].
Proof.
  intros Hoc Hk Hs. unfold shp_Conv2D, kw_int, kw_pair, kw_same_padding.
  destruct (Conv2D_new_lookup scope oc (PInt k) (PInt s) with_bias "SAME" name)
    as (-> & -> & -> & _ & -> & _).
  cbn. destruct (Z.leb_spec 0 oc); [| lia]. destruct (Z.ltb_spec 0 k); [| lia].
  destruct (Z.ltb_spec 0 s); [| lia]. reflexivity.
Qed.

Lemma hk_add_same (x : list nat) : shp_add x x = Ok x.
Proof. unfold shp_add. by rewrite MixerFacts.broadcast_rev_refl, rev_involutive. Qed.

(** Two NHWC shapes that differ in the channel axis only, neither with a
    single channel, do not broadcast. *)
Lemma shp_add_channels (n h w c c' : nat) :
  c ≠ c' → c ≠ 1%nat → c' ≠ 1%nat →
  shp_add [n; h; w; c] [n; h; w; c'] = Raise (TypeError "incompatible shapes for broadcasting").
Proof.
  intros Hne Hc Hc'. unfold shp_add. cbn [rev app Mixer.broadcast_rev].
  rewrite !decide_True by done. by rewrite !decide_False by done.
Qed.

(** A batch normalisation that is skipped, or that takes the statistics
    of the batch, keeps the shape. *)
Lemma shp_BatchNorm_step (use_bn is_training test_local_stats : bool) (y : list nat)
    (st : unit) :
  is_training || test_local_stats || negb use_bn = true → y ≠ [] →
  (if use_bn then lift (shp_BatchNorm y is_training test_local_stats) else mret y) st =
  Ok (y, st).
Proof.
  intros Hflags Hy. destruct use_bn; [| reflexivity]. unfold shp_BatchNorm.
  destruct is_training, test_local_stats; try discriminate Hflags; by destruct y.
Qed.

(** The shape a block without bottleneck returns. *)
Lemma BlockV1_call_shape (scope : path) (channels s : Z) (use_projection : bool)
    (bn_config : dict) (use_bn : bool) (name : option string) (n h w cin : nat)
    (is_training test_local_stats : bool) :
  0 ≤ channels → 0 < s →
  use_projection = true ∨ (s = 1 ∧ cin = Z.to_nat channels) →
  is_training || test_local_stats || negb use_bn = true →
  BlockV1_call
    (BlockV1_init scope channels (PInt s) use_projection bn_config false use_bn name)
    [n; h; w; cin] is_training test_local_stats () =
  Ok ([n; Mixer.cdiv h (Z.to_nat s); Mixer.cdiv w (Z.to_nat s); Z.to_nat channels], ()).
Proof.
  intros Hc Hs Hp Hflags.
  destruct (BlockV1_call_spec (T := list nat) (St := unit) scope channels (PInt s)
              use_projection bn_config false use_bn name)
    as (proj & conv_0 & conv_1 & proj_bn & bn_0 & bn_1 & _ & _ & Hl & -> & _ & _ & _ & _
        & _ & Hcall).
  rewrite Hcall. clear Hcall.
  assert (conv_0 = Conv2D_new (scope ++ [module_name "block_v1" name]) channels
                     (PInt 3) (PInt s) false "SAME" "conv_0" ∧
          conv_1 = Conv2D_new (scope ++ [module_name "block_v1" name]) channels
                     (PInt 3) (PInt 1) false "SAME" "conv_1") as [-> ->].
  { unfold BlockV1_init in Hl. cbn [layers] in Hl. rewrite Z.div_1_r in Hl.
    destruct use_bn; by simplify_eq. }
  clear Hl. unfold BlockV1_spec, conv_bn.
  cbn [hk_Conv2D hk_BatchNorm jax_nn_relu jnp_add Haiku_shapes].
  set (out := [n; Mixer.cdiv h (Z.to_nat s); Mixer.cdiv w (Z.to_nat s); Z.to_nat channels]).
  assert (∀ x, (lift (shp_Conv2D
                        (Conv2D_new (scope ++ [module_name "block_v1" name]) channels
                           (PInt 3) (PInt 1) false "SAME" "conv_1") out)
                 ≫= λ y, if use_bn
                         then lift (shp_BatchNorm y is_training test_local_stats)
                         else mret y) x =
               Ok (out, x)) as Hconv1.
  { intros x. erewrite bind_run by (apply lift_Ok, shp_Conv2D_new; lia).
    rewrite !cdiv_1. by apply shp_BatchNorm_step. }
  assert (∀ x, (lift (shp_Conv2D
                        (Conv2D_new (scope ++ [module_name "block_v1" name]) channels
                           (PInt 3) (PInt s) false "SAME" "conv_0") [n; h; w; cin])
                 ≫= λ y, if use_bn
                         then lift (shp_BatchNorm y is_training test_local_stats)
                         else mret y) x =
               Ok (out, x)) as Hconv0.
  { intros x. erewrite bind_run by (apply lift_Ok, shp_Conv2D_new; lia).
    by apply shp_BatchNorm_step. }
  destruct use_projection; [clear Hp | destruct Hp as [[=] | [-> ->]]].
  - erewrite bind_run.
    2: { erewrite bind_run by (apply lift_Ok, shp_Conv2D_new; lia).
         by apply shp_BatchNorm_step. }
    erewrite bind_run by apply Hconv0. erewrite bind_run by reflexivity.
    erewrite bind_run by apply Hconv1.
    erewrite bind_run by (apply lift_Ok, hk_add_same). reflexivity.
  - erewrite bind_run by reflexivity.
    erewrite bind_run by apply Hconv0. erewrite bind_run by reflexivity.
    erewrite bind_run by apply Hconv1.
    subst out. change (Z.to_nat 1) with 1%nat. rewrite !cdiv_1.
    erewrite bind_run by (apply lift_Ok, hk_add_same). reflexivity.
Qed.

(** A bottleneck block with a projection: the main path ends with
    [channels // 4] channels, the shortcut has [channels]. *)
Lemma BlockV1_call_bottleneck_shape (scope : path) (channels s : Z) (bn_config : dict)
    (use_bn : bool) (name : option string) (n h w cin : nat)
    (is_training test_local_stats : bool) :
  8 ≤ channels → 0 < s →
  is_training || test_local_stats || negb use_bn = true →
  BlockV1_call (BlockV1_init scope channels (PInt s) true bn_config true use_bn name)
    [n; h; w; cin] is_training test_local_stats () =
  Raise (TypeError "incompatible shapes for broadcasting").
Proof.
  intros Hc Hs Hflags.
  destruct (BlockV1_call_spec (T := list nat) (St := unit) scope channels (PInt s)
              true bn_config true use_bn name)
    as (proj & conv_0 & conv_1 & proj_bn & bn_0 & bn_1 & _ & _ & Hl & -> & _ & _ & _ & _
        & _ & Hcall).
  rewrite Hcall. clear Hcall.
  assert (conv_0 = Conv2D_new (scope ++ [module_name "block_v1" name]) (channels / 4)
                     (PInt 1) (PInt 1) false "SAME" "conv_0" ∧
          conv_1 = Conv2D_new (scope ++ [module_name "block_v1" name]) (channels / 4)
                     (PInt 3) (PInt s) false "SAME" "conv_1") as [-> ->].
  { unfold BlockV1_init in Hl. cbn [layers] in Hl. destruct use_bn; by simplify_eq. }
  clear Hl. unfold BlockV1_spec, conv_bn.
  cbn [hk_Conv2D hk_BatchNorm jax_nn_relu jnp_add Haiku_shapes].
  assert (2 ≤ channels / 4) as Hc4 by (apply Z.div_le_lower_bound; lia).
  assert (channels / 4 < channels) as Hlt by (apply Z.div_lt; lia).
  erewrite bind_run.
  2: { erewrite bind_run by (apply lift_Ok, shp_Conv2D_new; lia).
       by apply shp_BatchNorm_step. }
  erewrite bind_run.
  2: { erewrite bind_run by (apply lift_Ok, shp_Conv2D_new; lia).
       change (Z.to_nat 1) with 1%nat. rewrite !cdiv_1. by apply shp_BatchNorm_step. }
  erewrite bind_run by reflexivity.
  erewrite bind_run.
  2: { erewrite bind_run by (apply lift_Ok, shp_Conv2D_new; lia).
       by apply shp_BatchNorm_step. }
  apply bind_raise, lift_Raise, shp_add_channels; lia.
Qed.

(** Whatever the flags, such a block does not return: where the batch
    normalisation of the shortcut has no statistics to use it fails
    first. *)
Lemma BlockV1_call_bottleneck_raises (scope : path) (channels s : Z) (bn_config : dict)
    (use_bn : bool) (name : option string) (n h w cin : nat)
    (is_training test_local_stats : bool) :
  8 ≤ channels → 0 < s →
  ∃ e,
    BlockV1_call (BlockV1_init scope channels (PInt s) true bn_config true use_bn name)
      [n; h; w; cin] is_training test_local_stats () = Raise e.
Proof.
  intros Hc Hs.
  destruct (is_training || test_local_stats || negb use_bn) eqn:Hflags.
  - eexists. by apply BlockV1_call_bottleneck_shape.
  - destruct use_bn, is_training, test_local_stats; try discriminate Hflags.
    destruct (BlockV1_call_spec (T := list nat) (St := unit) scope channels (PInt s)
                true bn_config true true name)
      as (proj & conv_0 & conv_1 & proj_bn & bn_0 & bn_1 & _ & _ & _ & -> & _ & _ & _ & _
          & _ & Hcall).
    rewrite Hcall. clear Hcall. unfold BlockV1_spec, conv_bn.
    cbn [hk_Conv2D hk_BatchNorm jax_nn_relu jnp_add Haiku_shapes].
    eexists. apply bind_raise.
    erewrite bind_run by (apply lift_Ok, shp_Conv2D_new; lia).
    reflexivity.
Qed.

(** The blocks of a group after the first have stride 1 and keep the
    shape the first one produced. *)
Lemma later_blocks_shape (scope : path) (channels s : Z) (use_projection : bool)
    (bn_config : dict) (use_bn : bool) (n h w : nat)
    (is_training test_local_stats : bool) (j k : nat) :
  0 ≤ channels → is_training || test_local_stats || negb use_bn = true → (1 ≤ j)%nat →
  for_each
    (map (λ i : nat,
            BlockV1_init scope channels
              (if bool_decide (i ≠ 0%nat) then PInt 1 else PInt s)
              use_projection bn_config false use_bn (Some ("block_" +:+ pretty i)))
         (seq j k))
    (λ block out, BlockV1_call block out is_training test_local_stats)
    [n; h; w; Z.to_nat channels] () =
  Ok ([n; h; w; Z.to_nat channels], ()).
Proof.
  intros Hc Hflags. revert j. induction k as [|k IH]; intros j Hj; [reflexivity |].
  cbn [seq map for_each]. rewrite bool_decide_true by lia.
  erewrite bind_run.
  2: { rewrite (BlockV1_call_shape scope channels 1)
         by (try lia; try done; destruct use_projection; auto).
       change (Z.to_nat 1) with 1%nat. rewrite !cdiv_1. reflexivity. }
  apply IH. lia.
Qed.

Lemma ResNet_group_shape (cls : string) (a : ResNet_args) (i : nat) (c n s : Z)
    (p : bool) (N h w cin : nat) (is_training test_local_stats : bool) :
  a_bottleneck a = false → 0 ≤ c → 0 < s → 1 ≤ n →
  p = true ∨ (s = 1 ∧ cin = Z.to_nat c) →
  is_training || test_local_stats || negb (a_use_bn a) = true →
  BlockGroup_call (ResNet_group cls a i c n s p) [N; h; w; cin]
    is_training test_local_stats () =
  Ok ([N; Mixer.cdiv h (Z.to_nat s); Mixer.cdiv w (Z.to_nat s); Z.to_nat c], ()).
Proof.
  intros Hb Hc Hs Hn Hp Hflags. unfold BlockGroup_call, ResNet_group.
  rewrite BlockGroup_init_blocks, Hb. unfold range.
  destruct (Z.to_nat n) as [|m] eqn:Hm; [lia |].
  cbn [seq map for_each]. rewrite bool_decide_false by lia.
  erewrite bind_run by (by apply BlockV1_call_shape).
  by apply later_blocks_shape.
Qed.

Lemma shp_initial_conv (scope : path) (resnet_v1 : bool) (n h w c : nat) :
  let s := if resnet_v1 then 2%nat else 1%nat in
  shp_Conv2D {| conv_scope := scope;
                conv_kwargs := ResNet_initial_conv_config resnet_v1 None |}
    [n; h; w; c] = Ok [n; Mixer.cdiv h s; Mixer.cdiv w s; 64%nat].
Proof. by destruct resnet_v1. Qed.

Lemma shp_max_pool_3x3 (n h w c : nat) :
  shp_max_pool [n; h; w; c] [1; 3; 3; 1] [1; 2; 2; 1] "SAME" =
  Ok [n; Mixer.cdiv h 2; Mixer.cdiv w 2; c].
Proof.
  unfold shp_max_pool. cbn [decide_rel zip_with]. rewrite decide_True by done.
  rewrite decide_True by done. cbn [forallb andb Z.ltb Z.compare zip_with].
  change (Z.to_nat 1) with 1%nat. by rewrite !cdiv_1.
Qed.

(** X19: on shapes, for positive sizes, a block without bottleneck and
    with a projection maps an NHWC array of any channel count to
    [(n, ceil(h / stride), ceil(w / stride), channels)]; without a
    projection it does so when its stride is 1 and the input already has
    [channels] channels.  With [use_bn] this is for an empty [bn_config]
    or the one [ResNet.__init__] completes from nothing, and for calls
    with [is_training] or [test_local_stats], which take the statistics
    of the batch. *)
Theorem BlockV1_output_shape (scope : path) (channels s : Z) (use_projection : bool)
    (bn_config : dict) (use_bn : bool) (name : option string) (n h w cin : nat)
    (is_training test_local_stats : bool) :
  0 < channels → 0 < s →
  (0 < n)%nat → (0 < h)%nat → (0 < w)%nat → (0 < cin)%nat →
  use_projection = true ∨ (s = 1 ∧ cin = Z.to_nat channels) →
  (use_bn = true →
   (is_training = true ∨ test_local_stats = true) ∧
   (bn_config = ∅ ∨ bn_config = ResNet_bn_config None)) →
  BlockV1_call
    (BlockV1_init scope channels (PInt s) use_projection bn_config false use_bn name)
    [n; h; w; cin] is_training test_local_stats () =
  Ok ([n; Mixer.cdiv h (Z.to_nat s); Mixer.cdiv w (Z.to_nat s); Z.to_nat channels], ()).
Proof.
  intros Hc Hs _ _ _ _ Hp Hbn. apply BlockV1_call_shape; [lia | done | done |].
  destruct use_bn; [| by destruct is_training, test_local_stats].
  destruct (Hbn eq_refl) as [[-> | ->] _]; [done | by destruct is_training].
Qed.

Lemma BlockV1_output_shape_witness :
  0 < 128 ∧ 0 < 2 ∧ (0 < 8)%nat ∧ (0 < 32)%nat ∧ (0 < 64)%nat ∧
  BlockV1_call (BlockV1_init [] 128 (PInt 2) true ∅ false true None)
    [8; 32; 32; 64]%nat true false () = Ok ([8; 16; 16; 128]%nat, ()).
Proof.
  repeat (split; [lia |]).
  apply (BlockV1_output_shape [] 128 2 true ∅ true None 8%nat 32%nat 32%nat 64%nat
           true false ltac:(lia) ltac:(lia) ltac:(lia) ltac:(lia) ltac:(lia) ltac:(lia)).
  - by left.
  - intros _. split; by left.
Defined.

(** X11: in a bottleneck block with a projection the shortcut
    convolution outputs [channels] channels while the last stacked
    convolution outputs [channels // 4]; for a positive [channels] the two
    differ, so the block adds arrays of different channel counts. *)
Theorem BlockV1_bottleneck_channels (scope : path) (channels : Z) (stride : pyval)
    (bn_config : dict) (use_bn : bool) (name : option string) :
  0 < channels →
  let b := BlockV1_init scope channels stride true bn_config true use_bn name in
  ∃ proj conv_1 bn_1 out_channels,
    proj_conv b = Some proj ∧
    last (layers b) = Some (conv_1, bn_1) ∧
    conv_kwargs proj !! "output_channels" = Some (PInt channels) ∧
    conv_kwargs conv_1 !! "output_channels" = Some (PInt out_channels) ∧
    out_channels = channels / 4 ∧
    out_channels < channels.
Proof.
  intros Hc b. subst b. unfold BlockV1_init. cbn [proj_conv layers].
  eexists _, _, (if use_bn then _ else _), _.
  split; [reflexivity |]. split; [by destruct use_bn |].
  split; [apply Conv2D_new_lookup |]. split; [apply Conv2D_new_lookup |].
  split; [reflexivity |]. apply Z.div_lt; lia.
Qed.

Lemma BlockV1_bottleneck_channels_witness :
  0 < 256 ∧
  ∃ proj conv_1 bn_1,
    proj_conv (BlockV1_init [] 256 (PInt 1) true ∅ true true None) = Some proj ∧
    last (layers (BlockV1_init [] 256 (PInt 1) true ∅ true true None))
      = Some (conv_1, bn_1) ∧
    conv_kwargs proj !! "output_channels" = Some (PInt 256) ∧
    conv_kwargs conv_1 !! "output_channels" = Some (PInt 64).
Proof.
  split; [lia |].
  destruct (BlockV1_bottleneck_channels [] 256 (PInt 1) ∅ true None ltac:(lia))
    as (proj & conv_1 & bn_1 & oc & Hproj & Hlast & Hp & Hc & -> & _).
  exists proj, conv_1, bn_1. split; [exact Hproj |]. split; [exact Hlast |].
  split; [exact Hp | exact Hc].
Defined.

(** X12: on shapes, the forward pass of a network built with
    [bottleneck = True] (the default of [ResNet.__init__]), the default
    initial convolution, a projection in the first group, at least 8
    channels and at least one block there never returns: the first block
    has a main path of [channels // 4] channels and a shortcut of
    [channels] channels, which do not add.  On a batch with no axis of
    length 0 the failure is the [TypeError] of the addition when no batch
    normalisation runs before it, or when those that do are configured by
    default and take the statistics of the batch. *)
Theorem ResNet_call_bottleneck_raises (cls : string) (a : ResNet_args) (net : ResNet)
    (c0 n0 : Z) (n h w c : nat) (is_training test_local_stats : bool) :
  ResNet_init cls a = Ok net →
  a_bottleneck a = true → a_initial_conv_config a = None →
  channels_per_group a !! 0%nat = Some c0 → 8 ≤ c0 →
  blocks_per_group a !! 0%nat = Some n0 → 1 ≤ n0 →
  a_use_projection a !! 0%nat = Some true →
  (∃ e, ResNet_call net [n; h; w; c] is_training test_local_stats () = Raise e) ∧
  ((0 < n)%nat → (0 < h)%nat → (0 < w)%nat → (0 < c)%nat →
   a_use_bn a = false ∨
   (a_bn_config a = None ∧ (is_training = true ∨ test_local_stats = true)) →
   ∃ msg, ResNet_call net [n; h; w; c] is_training test_local_stats () =
          Raise (TypeError msg)).
Proof.
  intros Hnet Hb Hic Hc0 Hc0' Hn0 Hn0' Hp0.
  destruct (ResNet_init_inv _ _ _ Hnet) as (Hn & Hc & Hp & Hname).
  apply length_4_inv in Hn as (m0 & m1 & m2 & m3 & Hn).
  apply length_4_inv in Hc as (d0 & d1 & d2 & d3 & Hc).
  apply length_ge_4_inv in Hp as (p0 & p1 & p2 & p3 & ps & Hp).
  destruct (ResNet_init_Ok cls a _ _ _ _ _ _ _ _ _ _ _ _ _ Hn Hc Hp Hname)
    as (net0 & Hnet0 & _ & Hv1 & Hconv & _ & Hgs & _).
  assert (net0 = net) as -> by congruence.
  rewrite Hn in Hn0. rewrite Hc in Hc0. rewrite Hp in Hp0.
  cbn in Hn0, Hc0, Hp0. simplify_eq.
  unfold ResNet_call. rewrite Hconv, Hgs, Hv1, Hic.
  cbn [hk_Conv2D hk_max_pool Haiku_shapes].
  assert (∀ N H W C e,
            BlockV1_call
              (BlockV1_init [module_name cls (a_name a); "block_group_0"] c0 (PInt 1)
                 true (ResNet_bn_config (a_bn_config a)) true (a_use_bn a)
                 (Some "block_0"))
              [N; H; W; C] is_training test_local_stats () = Raise e →
            for_each
              [ResNet_group cls a 0 c0 n0 1 true; ResNet_group cls a 1 d1 m1 2 p1;
               ResNet_group cls a 2 d2 m2 2 p2; ResNet_group cls a 3 d3 m3 2 p3]
              (λ g out, BlockGroup_call g out is_training test_local_stats)
              [N; H; W; C] () = Raise e) as Hgroups.
  { intros N H W C e He. cbn [for_each]. apply bind_raise.
    unfold BlockGroup_call, ResNet_group. rewrite BlockGroup_init_blocks, Hb.
    unfold range. destruct (Z.to_nat n0) as [|m] eqn:Hm; [lia |].
    cbn [seq map for_each]. rewrite bool_decide_false by lia.
    apply bind_raise. exact He. }
  assert (∀ e,
            (∀ N H W C,
               BlockV1_call
                 (BlockV1_init [module_name cls (a_name a); "block_group_0"] c0 (PInt 1)
                    true (ResNet_bn_config (a_bn_config a)) true (a_use_bn a)
                    (Some "block_0"))
                 [N; H; W; C] is_training test_local_stats () = Raise e) →
            (lift (shp_Conv2D
                     {| conv_scope := [module_name cls (a_name a)];
                        conv_kwargs := ResNet_initial_conv_config (a_resnet_v1 a) None |}
                     [n; h; w; c])
             ≫= λ out,
                  (if a_resnet_v1 a
                   then lift (shp_max_pool out [1; 3; 3; 1] [1; 2; 2; 1] "SAME")
                   else mret out)
                  ≫= λ out,
                       for_each
                         [ResNet_group cls a 0 c0 n0 1 true;
                          ResNet_group cls a 1 d1 m1 2 p1;
                          ResNet_group cls a 2 d2 m2 2 p2;
                          ResNet_group cls a 3 d3 m3 2 p3]
                         (λ g out, BlockGroup_call g out is_training test_local_stats)
                         out
                       ≫= λ out, lift (shp_mean out [1; 2])
                                   ≫= λ out, lift (shp_Linear (logits net) out)) () =
            Raise e) as Hcall.
  { intros e He.
    erewrite bind_run by (apply lift_Ok, shp_initial_conv).
    destruct (a_resnet_v1 a).
    - erewrite bind_run by (apply lift_Ok, shp_max_pool_3x3).
      apply bind_raise, Hgroups, He.
    - erewrite bind_run by reflexivity. apply bind_raise, Hgroups, He. }
  split.
  - destruct (is_training || test_local_stats || negb (a_use_bn a)) eqn:Hflags.
    + eexists. apply Hcall. intros N H W C.
      apply BlockV1_call_bottleneck_shape; [lia | lia | done].
    + destruct (a_use_bn a) eqn:Hbn, is_training, test_local_stats;
        try discriminate Hflags.
      eexists. apply Hcall. intros N H W C.
      destruct (BlockV1_call_spec (T := list nat) (St := unit)
                  [module_name cls (a_name a); "block_group_0"] c0 (PInt 1)
                  true (ResNet_bn_config (a_bn_config a)) true true (Some "block_0"))
        as (proj & conv_0 & conv_1 & proj_bn & bn_0 & bn_1 & _ & _ & _ & -> & _ & _ & _
            & _ & _ & Hspec).
      rewrite Hspec. unfold BlockV1_spec, conv_bn.
      cbn [hk_Conv2D hk_BatchNorm jax_nn_relu jnp_add Haiku_shapes].
      apply bind_raise.
      erewrite bind_run by (apply lift_Ok, shp_Conv2D_new; lia).
      reflexivity.
  - intros _ _ _ _ Hflags. eexists. apply Hcall. intros N H W C.
    apply BlockV1_call_bottleneck_shape; [lia | lia |].
    destruct Hflags as [-> | [_ [-> | ->]]];
      [by destruct is_training, test_local_stats | done | by destruct is_training].
Qed.

Lemma ResNet_call_bottleneck_raises_witness :
  let a := {| blocks_per_group := [3; 4; 6; 3]; num_classes := 1000; a_use_bn := true;
              a_resnet_v1 := false; a_bn_config := None; a_resnet_v2 := false;
              a_bottleneck := true; channels_per_group := [256; 512; 1024; 2048];
              a_use_projection := [true; true; true; true]; a_logits_config := None;
              a_name := None; a_initial_conv_config := None;
              blocks_per_group_error := tuple_index_error;
              channels_per_group_error := tuple_index_error;
              use_projection_error := tuple_index_error |} in
  ∃ net,
    ResNet_init "res_net" a = Ok net ∧ 8 ≤ 256 ∧ 1 ≤ 3 ∧
    ∃ msg, ResNet_call net [2; 224; 224; 3]%nat true false () = Raise (TypeError msg).
Proof.
  intros a. eexists. split; [reflexivity |]. split; [lia |]. split; [lia |].
  apply (proj2 (ResNet_call_bottleneck_raises "res_net" a _ 256 3 2%nat 224%nat 224%nat
                  3%nat true false eq_refl eq_refl eq_refl eq_refl ltac:(lia) eq_refl
                  ltac:(lia) eq_refl) ltac:(lia) ltac:(lia) ltac:(lia) ltac:(lia)).
  right. split; [reflexivity | by left].
Defined.

(** X13: on shapes, a [ResNet18] that its constructor returns for the
    default configurations of the layers maps an NHWC batch of [n] images
    with no axis of length 0 to [n] rows of [num_classes] logits, for
    both values of [resnet_v1] and whatever the image size, in the calls
    where a batch normalisation has statistics: without [use_bn], or with
    [is_training] or [test_local_stats]. *)
Theorem ResNet18_logits_shape (num_classes : Z) (use_bn : bool)
    (resnet_v1 resnet_v2 : bool) (name : option string) (net : ResNet)
    (n h w c : nat) (is_training test_local_stats : bool) :
  ResNet18_init num_classes use_bn None resnet_v1 resnet_v2 None name None = Ok net →
  0 < num_classes →
  (0 < n)%nat → (0 < h)%nat → (0 < w)%nat → (0 < c)%nat →
  is_training = true ∨ test_local_stats = true ∨ use_bn = false →
  ResNet_call net [n; h; w; c] is_training test_local_stats () =
  Ok ([n; Z.to_nat num_classes], ()).
Proof.
  unfold ResNet18_init.
  set (a := ResNet18_args num_classes use_bn None resnet_v1 resnet_v2 None name None).
  intros Hnet Hcls _ _ _ _ Hflags.
  assert (is_training || test_local_stats || negb (a_use_bn a) = true) as Hflags'.
  { cbn [a_use_bn a ResNet18_args].
    destruct Hflags as [-> | [-> | ->]]; [done | by destruct is_training |].
    by destruct is_training, test_local_stats. }
  destruct (ResNet_init_inv _ _ _ Hnet) as (_ & _ & _ & Hname).
  destruct (ResNet_init_Ok "res_net18" a 2 2 2 2 64 128 256 512
              (negb resnet_v1) true true true [] eq_refl eq_refl)
    as (net0 & Hnet0 & _ & Hv1 & Hconv & _ & Hgs & Hlog).
  { subst a. cbn. by destruct resnet_v1. }
  { exact Hname. }
  assert (net0 = net) as -> by congruence.
  unfold ResNet_call. rewrite Hconv, Hgs, Hv1, Hlog.
  cbn [hk_Conv2D hk_max_pool jnp_mean hk_Linear Haiku_shapes a_resnet_v1
       a_initial_conv_config a ResNet18_args].
  erewrite bind_run by (apply lift_Ok, shp_initial_conv).
  assert (∀ N H W C,
            resnet_v1 = false ∨ C = 64%nat →
            ∃ H' W',
              for_each
                [ResNet_group "res_net18" a 0 64 2 1 (negb resnet_v1);
                 ResNet_group "res_net18" a 1 128 2 2 true;
                 ResNet_group "res_net18" a 2 256 2 2 true;
                 ResNet_group "res_net18" a 3 512 2 2 true]
                (λ g out, BlockGroup_call g out is_training test_local_stats)
                [N; H; W; C] () = Ok ([N; H'; W'; 512%nat], ())) as Hgroups.
  { intros N H W C HC. eexists _, _. cbn [for_each].
    erewrite bind_run.
    2: { apply ResNet_group_shape; try done; try lia.
         destruct HC as [-> | ->]; [by left | right; split; [done | reflexivity]]. }
    erewrite bind_run by (apply ResNet_group_shape; try done; try lia; by left).
    erewrite bind_run by (apply ResNet_group_shape; try done; try lia; by left).
    erewrite bind_run by (apply ResNet_group_shape; try done; try lia; by left).
    reflexivity. }
  assert (∀ N H W,
            (lift (shp_mean [N; H; W; 512%nat] [1; 2])
             ≫= λ out, lift (shp_Linear
                               {| lin_scope := [module_name "res_net18" (a_name a)];
                                  lin_output_size := Resnet.num_classes a;
                                  lin_kwargs := ResNet_logits_config (a_logits_config a) |}
                               out)) () =
            Ok ([N; Z.to_nat num_classes], ())) as Hhead.
  { intros N H W. erewrite bind_run by reflexivity.
    unfold shp_Linear. cbn [last lin_output_size a ResNet18_args Resnet.num_classes].
    destruct (Z.leb_spec 0 num_classes); [reflexivity | lia]. }
  destruct resnet_v1.
  - erewrite bind_run by (apply lift_Ok, shp_max_pool_3x3).
    edestruct Hgroups as (H' & W' & Hrun); [right; reflexivity |].
    erewrite bind_run by exact Hrun. apply Hhead.
  - erewrite bind_run by reflexivity.
    edestruct Hgroups as (H' & W' & Hrun); [by left |].
    erewrite bind_run by exact Hrun. apply Hhead.
Qed.

Lemma ResNet18_logits_shape_witness :
  ∃ net,
    ResNet18_init 10 true None true false None None None = Ok net ∧
    0 < 10 ∧ (0 < 2)%nat ∧ (0 < 224)%nat ∧ (0 < 3)%nat ∧
    ResNet_call net [2; 224; 224; 3]%nat true false () = Ok ([2; 10]%nat, ()).
Proof.
  eexists. split; [reflexivity |]. repeat (split; [lia |]).
  apply (ResNet18_logits_shape 10 true true false None _ 2%nat 224%nat 224%nat
           3%nat true false eq_refl ltac:(lia) ltac:(lia) ltac:(lia) ltac:(lia)
           ltac:(lia)).
  by left.
Defined.

End ResnetShapes.

(** ** Further properties of the MLP-Mixer *)

Module MixerMore.
Import Mixer MixerFacts.

(** X14: with a [num_blocks] that is not positive the loop of
    [MlpMixer.__call__] does not run: the call is the stem, the
    rearrangement, the layer normalisation, the mean and the head, and no
    [MixerBlock] is applied. *)
Theorem MlpMixer_call_no_blocks (T St : Type) (F : Flax T St) (self : MlpMixer)
    (scope : path) (inputs r : T) (train : bool) (s s' : St) :
  num_blocks self ≤ 0 →
  (MlpMixer_call self scope inputs train s = Ok (r, s') ↔
   ∃ x0 s0 x1 s1 x3 s3 x4 s4,
     nn_Conv (scope ++ ["stem"]) (hidden_dim self) (patches self) (patches self)
       inputs s = Ok (x0, s0) ∧
     einops_rearrange x0 "n h w c -> n (h w) c" s0 = Ok (x1, s1) ∧
     nn_LayerNorm (scope ++ ["pre_head_layer_norm"]) x1 s1 = Ok (x3, s3) ∧
     jnp_mean x3 1 s3 = Ok (x4, s4) ∧
     nn_Dense (scope ++ ["head"]) (num_classes self) (Some "nn.initializers.zeros")
       x4 s4 = Ok (r, s')).
Proof.
  intros Hn. rewrite MlpMixer_call_steps.
  replace (Z.to_nat (num_blocks self)) with 0%nat by lia. split.
  - intros (x0 & s0 & x1 & s1 & x2 & s2 & x3 & s3 & x4 & s4
            & H1 & H2 & H3 & H4 & H5 & H6).
    inversion H3; subst. do 8 eexists. run_done.
  - intros (x0 & s0 & x1 & s1 & x3 & s3 & x4 & s4 & H1 & H2 & H4 & H5 & H6).
    exists x0, s0, x1, s1, x1, s1, x3, s3, x4, s4.
    split_and!; try done. constructor.
Qed.

Lemma MlpMixer_call_no_blocks_witness :
  let self := {| patches := PSeq [4; 4]; num_classes := 10; num_blocks := -2;
                 hidden_dim := 8; tokens_mlp_dim := 4; channels_mlp_dim := 6 |} in
  num_blocks self ≤ 0 ∧
  ∃ x0 s0 x1 s1 x3 s3 x4 s4,
    nn_Conv ["stem"] 8 (PSeq [4; 4]) (PSeq [4; 4]) [1; 8; 8; 3]%nat [] = Ok (x0, s0) ∧
    einops_rearrange x0 "n h w c -> n (h w) c" s0 = Ok (x1, s1) ∧
    nn_LayerNorm ["pre_head_layer_norm"] x1 s1 = Ok (x3, s3) ∧
    jnp_mean x3 1 s3 = Ok (x4, s4) ∧
    nn_Dense ["head"] 10 (Some "nn.initializers.zeros") x4 s4 =
      Ok ([1; 10]%nat,
          [(["stem"; "kernel"], [4; 4; 3; 8]%nat); (["stem"; "bias"], [8]%nat);
           (["pre_head_layer_norm"; "scale"], [8]%nat);
           (["pre_head_layer_norm"; "bias"], [8]%nat);
           (["head"; "kernel"], [8; 10]%nat); (["head"; "bias"], [10]%nat)]).
Proof.
  intros self. split; [cbn; lia |].
  apply (proj1 (MlpMixer_call_no_blocks (list nat) params Flax_shapes self []
                  [1; 8; 8; 3]%nat _ true [] _ ltac:(cbn; lia))).
  reflexivity.
Defined.

(** X15: [MlpBlock.__call__] never returns on an array of rank 0,
    whatever the layers compute: if the first [Dense] layer and the gelu
    accept it, [x.shape[-1]] raises an [IndexError]. *)
Theorem MlpBlock_call_rank_0 (T St : Type) (F : Flax T St) (self : MlpBlock)
    (scope : path) (x : T) (s : St) :
  shape x = [] →
  (∀ r s', MlpBlock_call self scope x s ≠ Ok (r, s')) ∧
  (∀ y1 s1 y2 s2,
     nn_Dense (scope ++ ["Dense_0"]) (mlp_dim self) None x s = Ok (y1, s1) →
     nn_gelu y1 s1 = Ok (y2, s2) →
     MlpBlock_call self scope x s = Raise (IndexError "tuple index out of range")).
Proof.
  intros Hx. split.
  - intros r s' Hrun. apply MlpBlock_call_steps in Hrun
      as (y1 & s1 & y2 & s2 & d & _ & _ & Hd & _).
    rewrite Hx in Hd. discriminate.
  - intros y1 s1 y2 s2 H1 H2. unfold MlpBlock_call, shape_last.
    rewrite (bind_run _ _ _ _ _ H1), (bind_run _ _ _ _ _ H2), Hx. reflexivity.
Qed.

Lemma MlpBlock_call_rank_0_witness :
  shape ([] : list nat) = [] ∧
  ∀ r s', MlpBlock_call {| mlp_dim := 4 |} [] ([] : list nat) ([] : params) ≠ Ok (r, s').
Proof.
  split; [reflexivity |].
  apply (proj1 (MlpBlock_call_rank_0 (list nat) params Flax_shapes {| mlp_dim := 4 |} []
                  [] [] eq_refl)).
Defined.

(** X16: on shapes, in the pass that initialises the parameters,
    [MlpBlock.__call__] returns only on arrays of rank at least 1 whose
    last axis is not of length 0 and only with a positive [mlp_dim], and
    [MixerBlock.__call__] only on arrays of rank at least 3 and only with
    positive widths; both return on every array of such a rank that has
    no axis of length 0 when the widths are positive. *)
Theorem Mixer_shape_domain :
  (∀ (self : MlpBlock) (scope : path) (x y : shp) (st st' : params),
     MlpBlock_call self scope x st = Ok (y, st') →
     (∃ d, last x = Some d ∧ (0 < d)%nat) ∧ 0 < mlp_dim self) ∧
  (∀ (self : MlpBlock) (scope : path) (x : shp) (st : params),
     (1 ≤ length x)%nat → Forall (λ d, (0 < d)%nat) x → 0 < mlp_dim self →
     ∃ y st', MlpBlock_call self scope x st = Ok (y, st')) ∧
  (∀ (self : MixerBlock) (scope : path) (x y : shp) (st st' : params),
     MixerBlock_call self scope x st = Ok (y, st') →
     (3 ≤ length x)%nat ∧ 0 < mb_tokens_mlp_dim self ∧ 0 < mb_channels_mlp_dim self) ∧
  (∀ (self : MixerBlock) (scope : path) (x : shp) (st : params),
     (3 ≤ length x)%nat → Forall (λ d, (0 < d)%nat) x →
     0 < mb_tokens_mlp_dim self → 0 < mb_channels_mlp_dim self →
     ∃ y st', MixerBlock_call self scope x st = Ok (y, st')).
Proof.
  split_and!.
  - intros self scope x y st st' Hrun.
    by apply MlpBlock_call_shape_Ok in Hrun as (_ & ? & ?).
  - intros self scope x st Hlen Hall Hm. destruct (last x) as [d|] eqn:Hd.
    + eexists _, _. apply MlpBlock_call_shape; [done | by eapply last_Forall_pos | done].
    + apply last_None in Hd. subst x. cbn in Hlen. lia.
  - intros self scope x y st st' Hrun.
    by apply MixerBlock_call_shape_Ok in Hrun as (_ & ? & ? & ?).
  - intros self scope x st Hlen Hall Hds Hdc.
    destruct x as [|n [|t [|c rest]]]; cbn in Hlen; try lia.
    destruct (last (t :: rest)) as [dt|] eqn:Ht; [| by apply last_None in Ht].
    destruct (last (c :: rest)) as [dc|] eqn:Hc; [| by apply last_None in Hc].
    assert (0 < dc)%nat as Hdcpos by (by apply (last_Forall_pos (n :: t :: c :: rest))).
    assert (0 < dt)%nat as Hdtpos.
    { apply (last_Forall_pos (n :: c :: t :: rest)); [| done].
      inversion Hall as [| ? ? ? Hall1]; subst. inversion Hall1 as [| ? ? ? Hall2]; subst.
      inversion Hall2; subst. by repeat constructor. }
    eexists _, _. by apply MixerBlock_call_shape.
Qed.

Lemma Mixer_shape_domain_witness :
  (1 ≤ length [5; 8]%nat)%nat ∧ Forall (λ d, (0 < d)%nat) [5; 8]%nat ∧ 0 < 4 ∧
  ∃ y st', MlpBlock_call {| mlp_dim := 4 |} [] [5; 8]%nat [] = Ok (y, st').
Proof.
  assert (Forall (λ d, (0 < d)%nat) [5; 8]%nat) as Hall by (repeat constructor; lia).
  split; [cbn; lia |]. split; [exact Hall |]. split; [lia |].
  apply (proj1 (proj2 Mixer_shape_domain) {| mlp_dim := 4 |} [] [5; 8]%nat []);
    [cbn; lia | exact Hall | cbn; lia].
Defined.

Lemma MlpMixer_call_run (self : MlpMixer) (scope : path) (kh kw : Z)
    (n h w c : nat) (train : bool) (st : params) :
  patches self = PSeq [kh; kw] → 0 < kh → 0 < kw →
  (0 < h)%nat → (0 < w)%nat → (0 < c)%nat →
  0 < hidden_dim self → 0 < tokens_mlp_dim self → 0 < channels_mlp_dim self →
  0 < num_classes self →
  MlpMixer_call self scope [n; h; w; c] train st =
  Ok ([n; Z.to_nat (num_classes self)],
      st ++ MlpMixer_params self scope kh kw c
              (cdiv h (Z.to_nat kh) * cdiv w (Z.to_nat kw))).
Proof.
  intros Hp Hkh Hkw Hh Hw Hc Hhid Hds Hdc Hcls.
  destruct (MlpMixer_call_shapes self scope kh kw n h w c train st
              Hp Hkh Hkw Hh Hw Hc Hhid Hds Hdc Hcls)
    as (s0 & s2 & s3 & H1 & H2 & H3 & H4 & H5 & H6).
  apply MlpMixer_call_steps. do 10 eexists. run_done.
Qed.

Lemma MlpMixer_params_names (self : MlpMixer) (scope : path) (kh kw : Z)
    (c tokens : nat) :
  (MlpMixer_params self scope kh kw c tokens).*1 =
  app scope <$> MlpMixer_param_names (Z.to_nat (num_blocks self)).
Proof.
  unfold MlpMixer_params, MlpMixer_param_names, range.
  rewrite !fmap_app. f_equal. f_equal.
  induction (seq 0 (Z.to_nat (num_blocks self))) as [|i l IH]; [reflexivity |].
  cbn [flat_map]. rewrite !fmap_app, IH. f_equal.
  unfold MixerBlock_params, MixerBlock_param_names. cbn [fmap list_fmap fst].
  rewrite <- !app_assoc. reflexivity.
Qed.

Lemma block_names_NoDup (l : list nat) :
  NoDup l →
  NoDup (flat_map (λ i : nat, cons ("MixerBlock_" +:+ pretty i) <$> MixerBlock_param_names)
           l).
Proof.
  induction 1 as [|i l Hi Hl IH]; [constructor |].
  cbn [flat_map]. apply NoDup_app. split_and!.
  - apply (NoDup_fmap_2 _). by apply (bool_decide_unpack _).
  - intros y Hy Hy'. apply list_elem_of_fmap in Hy as (r & -> & _).
    apply list_elem_of_In, in_flat_map in Hy' as (j & Hj & Hin).
    apply list_elem_of_In, list_elem_of_fmap in Hin as (r' & [= Hname _] & _).
    apply (inj (String.append "")), (inj pretty) in Hname. subst j.
    by apply list_elem_of_In in Hj.
  - exact IH.
Qed.

Lemma MlpMixer_param_names_NoDup (n : nat) : NoDup (MlpMixer_param_names n).
Proof.
  unfold MlpMixer_param_names.
  assert (∀ y : path,
            y ∈ flat_map
                  (λ i : nat, cons ("MixerBlock_" +:+ pretty i) <$> MixerBlock_param_names)
                  (seq 0 n) →
            ∃ (i : nat) r, y = ("MixerBlock_" +:+ pretty i) :: r) as Hblock.
  { intros y Hy. apply list_elem_of_In, in_flat_map in Hy as (i & _ & Hin).
    apply list_elem_of_In, list_elem_of_fmap in Hin as (r & -> & _). eauto. }
  apply NoDup_app. split_and!.
  - by apply (bool_decide_unpack _).
  - intros y Hy Hy'. apply elem_of_app in Hy' as [Hy' | Hy'].
    + apply Hblock in Hy' as (i & r & ->).
      repeat (apply elem_of_cons in Hy as [[=] | Hy]). by apply elem_of_nil in Hy.
    + revert Hy'. apply (bool_decide_unpack _).
      repeat (apply elem_of_cons in Hy as [-> | Hy]); [done | done |].
      by apply elem_of_nil in Hy.
  - apply NoDup_app. split_and!.
    + apply block_names_NoDup, NoDup_seq.
    + intros y Hy Hy'. apply Hblock in Hy as (i & r & ->).
      repeat (apply elem_of_cons in Hy' as [[=] | Hy']). by apply elem_of_nil in Hy'.
    + by apply (bool_decide_unpack _).
Qed.

Lemma MlpMixer_param_names_length (n : nat) :
  length (MlpMixer_param_names n) = (6 + 12 * n)%nat.
Proof.
  unfold MlpMixer_param_names. rewrite !length_app. cbn [length].
  assert (∀ l : list nat,
            length (flat_map
                      (λ i : nat,
                         cons ("MixerBlock_" +:+ pretty i) <$> MixerBlock_param_names) l)
            = (12 * length l)%nat) as ->.
  { induction l as [|i l IH]; [reflexivity |].
    cbn [flat_map]. rewrite length_app, IH, length_fmap.
    change (length MixerBlock_param_names) with 12%nat. cbn [length]. lia. }
  rewrite length_seq. lia.
Qed.

(** X17: on an NHWC batch with no axis of length 0, with a
    two-dimensional patch size and positive widths, an [MlpMixer] of
    [num_blocks] blocks declares [6 + 12 * num_blocks] parameter arrays,
    each under a path of its own: no two layers of the network, and no two
    of its blocks, share a parameter. *)
Theorem MlpMixer_params_distinct (self : MlpMixer) (scope : path) (kh kw : Z)
    (n h w c : nat) (train : bool) :
  patches self = PSeq [kh; kw] → 0 < kh → 0 < kw →
  (0 < n)%nat → (0 < h)%nat → (0 < w)%nat → (0 < c)%nat →
  0 < hidden_dim self → 0 < tokens_mlp_dim self → 0 < channels_mlp_dim self →
  0 < num_classes self →
  ∃ logits ps,
    MlpMixer_call self scope [n; h; w; c] train [] = Ok (logits, ps) ∧
    NoDup ps.*1 ∧
    length ps = (6 + 12 * Z.to_nat (num_blocks self))%nat.
Proof.
  intros Hp Hkh Hkw Hn Hh Hw Hc Hhid Hds Hdc Hcls. eexists _, _.
  split; [by eapply MlpMixer_call_run |]. cbn [app]. split.
  - rewrite MlpMixer_params_names. apply (NoDup_fmap_2 _), MlpMixer_param_names_NoDup.
  - rewrite <- (length_fmap fst), MlpMixer_params_names, length_fmap.
    apply MlpMixer_param_names_length.
Qed.

Lemma MlpMixer_params_distinct_witness :
  let self := {| patches := PSeq [16; 16]; num_classes := 10; num_blocks := 2;
                 hidden_dim := 8; tokens_mlp_dim := 4; channels_mlp_dim := 6 |} in
  patches self = PSeq [16; 16] ∧ 0 < 16 ∧
  (0 < 2)%nat ∧ (0 < 32)%nat ∧ (0 < 3)%nat ∧ 0 < hidden_dim self ∧
  0 < tokens_mlp_dim self ∧ 0 < channels_mlp_dim self ∧ 0 < num_classes self ∧
  ∃ logits ps,
    MlpMixer_call self [] [2; 32; 32; 3]%nat true [] = Ok (logits, ps) ∧
    NoDup ps.*1 ∧ length ps = 30%nat.
Proof.
  intros self. repeat (split; [first [reflexivity | cbn; lia] |]).
  apply (MlpMixer_params_distinct self [] 16 16 2%nat 32%nat 32%nat 3%nat true eq_refl
           ltac:(lia) ltac:(lia) ltac:(lia) ltac:(lia) ltac:(lia) ltac:(lia)
           ltac:(cbn; lia) ltac:(cbn; lia) ltac:(cbn; lia) ltac:(cbn; lia)).
Defined.

End MixerMore.
